(** * Verification of the data/label-alignment pipeline of [parsect]

    A shallow embedding of

    - [parsect/utils/science_ie_data_utils.py] (class [ScienceIEDataUtils]):
      the annotation loader, the BILOU converter in its plain and
      sentence-wise modes, [write_bilou_lines] and [merge_files] on the
      files it writes, and [write_ann_file_from_conll_file] with
      [_form_ann_line];
    - [parsect/datasets/classification/base_text_classification.py]
      (class [BaseTextClassification]): the constructor's dataset-type
      check and the stratified train/valid/test split;
    - [parsect/modules/embedders/bert_embedder.py]: the tables of
      [BertEmbedder.__init__] and the padding loop of
      [BertEmbedder.forward].

    Python [str] is embedded as [string] (one [ascii] per character, so the
    development speaks about ASCII text), Python [int] as [Z], Python lists
    as [list], dictionaries as [gmap], raised exceptions as the [Raise]
    constructor of [result].  Third-party functions (spaCy, scikit-learn,
    NumPy, the BERT tokenizer) are either parameters of a [Section] or
    modelled in a module of their own, named after the library. *)

From stdpp Require Import gmap strings list sorting.
From Stdlib Require Import Ascii ZArith Lia Permutation.
From Stdlib Require DecimalZ.

Local Open Scope Z_scope.
Local Open Scope nat_scope.

(** ** Exceptions and results *)

Inductive exn : Type :=
| IndexError
| ValueError
| KeyError
| TypeError
| AssertionError.

Inductive result (A : Type) : Type :=
| Ok (a : A)
| Raise (e : exn).

Arguments Ok {A} a.
Arguments Raise {A} e.

Definition bind {A B : Type} (r : result A) (k : A -> result B) : result B :=
  match r with
  | Ok a => k a
  | Raise e => Raise e
  end.

Notation "'let!' x ':=' r 'in' k" := (bind r (fun x => k))
  (at level 10, x name, r at level 100, k at level 200, only parsing).

(** [[f(x) for x in xs]] where [f] may raise: the first exception
    ends the comprehension. *)
Fixpoint collect {A B : Type} (f : A -> result B) (xs : list A)
  : result (list B) :=
  match xs with
  | [] => Ok []
  | x :: xs' => let! y := f x in let! ys := collect f xs' in Ok (y :: ys)
  end.

(** ** Python string primitives used by the sources *)

Module Py.

(** [str.isspace] on the ASCII range: TAB, LF, VT, FF, CR, the four
    separators FS, GS, RS, US, and SPACE. *)
Definition isspace (c : ascii) : bool :=
  let n := nat_of_ascii c in
  ((9 <=? n) && (n <=? 13)) || ((28 <=? n) && (n <=? 32)).

Fixpoint lstrip (s : string) : string :=
  match s with
  | String c s' => if isspace c then lstrip s' else s
  | EmptyString => EmptyString
  end.

Fixpoint rstrip (s : string) : string :=
  match s with
  | EmptyString => EmptyString
  | String c s' =>
      match rstrip s' with
      | EmptyString => if isspace c then EmptyString else String c EmptyString
      | r => String c r
      end
  end.

(** [s.strip()] *)
Definition strip (s : string) : string := rstrip (lstrip s).

(** [s.startswith(p)] *)
Definition startswith (s p : string) : bool := String.prefix p s.

(** [s.split(sep)] for a one-character separator: always at least one
    field, empty fields kept. *)
Fixpoint split (sep : ascii) (s : string) : list string :=
  match s with
  | EmptyString => [EmptyString]
  | String c s' =>
      if Ascii.eqb c sep then EmptyString :: split sep s'
      else match split sep s' with
           | w :: ws => String c w :: ws
           | [] => [String c EmptyString]
           end
  end.

(** [s.split()]: fields are the maximal runs of non-whitespace. *)
Fixpoint split_ws_from (s cur : string) : list string :=
  match s with
  | EmptyString => match cur with EmptyString => [] | _ => [cur] end
  | String c s' =>
      if isspace c then
        match cur with
        | EmptyString => split_ws_from s' EmptyString
        | _ => cur :: split_ws_from s' EmptyString
        end
      else split_ws_from s' (cur +:+ String c EmptyString)
  end.

Definition split_ws (s : string) : list string := split_ws_from s EmptyString.

(** [sep.join(xs)] *)
Fixpoint join (sep : string) (xs : list string) : string :=
  match xs with
  | [] => EmptyString
  | [x] => x
  | x :: xs' => x +:+ sep +:+ join sep xs'
  end.

Definition lower_char (c : ascii) : ascii :=
  let n := nat_of_ascii c in
  if (65 <=? n) && (n <=? 90) then ascii_of_nat (n + 32) else c.

(** [s.lower()] *)
Fixpoint lower (s : string) : string :=
  match s with
  | EmptyString => EmptyString
  | String c s' => String (lower_char c) (lower s')
  end.

Definition upper_char (c : ascii) : ascii :=
  let n := nat_of_ascii c in
  if (97 <=? n) && (n <=? 122) then ascii_of_nat (n - 32) else c.

(** [s.upper()] *)
Fixpoint upper (s : string) : string :=
  match s with
  | EmptyString => EmptyString
  | String c s' => String (upper_char c) (upper s')
  end.

Definition digit_val (c : ascii) : option Z :=
  let n := nat_of_ascii c in
  if (48 <=? n) && (n <=? 57) then Some (Z.of_nat (n - 48)) else None.

(** Decimal digits, single underscores allowed between two digits. *)
Fixpoint parse_digits (s : string) (acc : Z) (after_digit : bool) : option Z :=
  match s with
  | EmptyString => if after_digit then Some acc else None
  | String c s' =>
      match digit_val c with
      | Some d => parse_digits s' (10 * acc + d)%Z true
      | None =>
          if Ascii.eqb c "_" && after_digit then parse_digits s' acc false
          else None
      end
  end.

(** [int(s)]: surrounding whitespace, an optional sign, decimal digits;
    [None] stands for the [ValueError] of a literal that is not one. *)
Definition int (s : string) : option Z :=
  match strip s with
  | String "+" r => parse_digits r 0%Z false
  | String "-" r => Z.opp <$> parse_digits r 0%Z false
  | r => parse_digits r 0%Z false
  end.

(** [s[n:]] *)
Fixpoint drop_chars (n : nat) (s : string) : string :=
  match n, s with
  | S n', String _ s' => drop_chars n' s'
  | _, _ => s
  end.

(** No character of [s] is the character [c]. *)
Fixpoint free_of (c : ascii) (s : string) : bool :=
  match s with
  | EmptyString => true
  | String d s' => negb (Ascii.eqb d c) && free_of c s'
  end.

(** No character of [s] is whitespace. *)
Fixpoint no_space (s : string) : bool :=
  match s with
  | EmptyString => true
  | String d s' => negb (isspace d) && no_space s'
  end.

End Py.

(** ** The tokenized document

    [self.nlp(text)] returns a spaCy [Doc]; the sources read four
    attributes of its tokens: [text], [idx] (character offset of the
    first character), [is_space] and [is_sent_start].  [len(token)] is
    the number of characters of [token.text]; [token.i] is the position
    of the token in the document. *)

Record Token : Type := mkToken {
  text : string;
  idx : Z;
  is_space : bool;
  is_sent_start : bool
}.

Abbreviation Doc := (list Token) (only parsing).

Definition token_len (t : Token) : Z := Z.of_nat (String.length (text t)).

Definition token_end (t : Token) : Z := (idx t + token_len t)%Z.

(** An entity span as handed to spaCy: [(start_char, end_char, label)]. *)
Definition Entity : Type := (Z * Z * string)%type.

(** ** The two functions of [spacy.gold] the repository calls

    These are library code, not repository code; the definitions follow
    the algorithm of spaCy 2.1 ([gold.pyx]), the release line the
    repository imports them from. *)

Module Spacy.

(** [{token.idx: token.i for token in doc}]: a later token overrides an
    earlier one with the same key. *)
Definition starts (doc : Doc) : gmap Z nat :=
  foldl (fun m '(i, t) => <[idx t := i]> m) ∅ (imap pair doc).

(** [{token.idx + len(token): token.i for token in doc}] *)
Definition ends (doc : Doc) : gmap Z nat :=
  foldl (fun m '(i, t) => <[token_end t := i]> m) ∅ (imap pair doc).

(** One round of the loop "Handle entity cases". *)
Definition paint_entity (st en : gmap Z nat) (biluo : list string) (e : Entity)
  : list string :=
  let '(start_char, end_char, label) := e in
  match st !! start_char, en !! end_char with
  | Some start_token, Some end_token =>
      if decide (start_token = end_token) then
        <[start_token := "U-" +:+ label]> biluo
      else
        let b1 := <[start_token := "B-" +:+ label]> biluo in
        let b2 := foldl (fun b i => <[i := "I-" +:+ label]> b) b1
                    (seq (S start_token) (end_token - S start_token)) in
        <[end_token := "L-" +:+ label]> b2
  | _, _ => biluo
  end.

(** The set of characters covered by some entity. *)
Definition entity_chars (entities : list Entity) : gset Z :=
  foldl (fun s '(start_char, end_char, _) =>
           s ∪ list_to_set (seqZ start_char (end_char - start_char)))
        ∅ entities.

(** Some character of the token is covered by an entity. *)
Definition token_covered (chars : gset Z) (t : Token) : bool :=
  existsb (fun c => bool_decide (c ∈ chars)) (seqZ (idx t) (token_len t)).

(** One round of the loop that tells the O case from a missed
    tokenization. *)
Definition mark_outside (chars : gset Z) (missing : string)
    (biluo : list string) (it : nat * Token) : list string :=
  if token_covered chars it.2 then biluo else <[it.1 := missing]> biluo.

(** [biluo_tags_from_offsets(doc, entities)] with [missing="O"]. *)
Definition biluo_tags_from_offsets (doc : Doc) (entities : list Entity)
  : list string :=
  let biluo := foldl (paint_entity (starts doc) (ends doc))
                 (replicate (length doc) "-") entities in
  foldl (mark_outside (entity_chars entities) "O") biluo (imap pair doc).

(** [tags_to_entities(tags)]: the loop over [enumerate(tags)], [i] the
    index of the head of [tags], [start] the open B tag, [acc] the
    entities found so far.  An L tag with no open B tag records
    [None] as its start. *)
Fixpoint tags_to_entities_from (tags : list string) (i : nat)
    (start : option nat) (acc : list (string * option nat * nat))
  : result (list (string * option nat * nat)) :=
  match tags with
  | [] => Ok acc
  | tag :: rest =>
      if Py.startswith tag "O" then tags_to_entities_from rest (S i) None acc
      else if String.eqb tag "-" then tags_to_entities_from rest (S i) start acc
      else if Py.startswith tag "I" then
        match start with
        | None => Raise ValueError
        | Some _ => tags_to_entities_from rest (S i) start acc
        end
      else if Py.startswith tag "U" then
        tags_to_entities_from rest (S i) start
          (acc ++ [(Py.drop_chars 2 tag, Some i, i)])
      else if Py.startswith tag "L" then
        tags_to_entities_from rest (S i) None
          (acc ++ [(Py.drop_chars 2 tag, start, i)])
      else if Py.startswith tag "B" then
        tags_to_entities_from rest (S i) (Some i) acc
      else Raise ValueError
  end.

Definition tags_to_entities (tags : list string)
  : result (list (string * option nat * nat)) :=
  tags_to_entities_from tags 0 None [].

(** [Span(doc, start_idx, end_idx + 1, label)] read back as
    [(span.start_char, span.end_char, span.label_)]. *)
Definition span_offsets (doc : Doc) (e : string * option nat * nat)
  : result Entity :=
  let '(label, start_idx, end_idx) := e in
  match start_idx with
  | None => Raise TypeError
  | Some s =>
      if bool_decide (s <= S end_idx <= length doc) then
        match doc !! s, doc !! end_idx with
        | Some ts, Some te => Ok (idx ts, token_end te, label)
        | _, _ => Raise IndexError
        end
      else Raise IndexError
  end.

(** [offsets_from_biluo_tags(doc, tags)] *)
Definition offsets_from_biluo_tags (doc : Doc) (tags : list string)
  : result (list Entity) :=
  let! ents := tags_to_entities tags in collect (span_offsets doc) ents.

End Spacy.

(** ** [ScienceIEDataUtils] *)

(** One parsed annotation: the dictionary with the keys ["start"],
    ["end"], ["words"], ["entity_number"] and ["tag"]. *)
Record Annotation : Type := mkAnnotation {
  ann_start : Z;
  ann_end : Z;
  ann_words : string;
  ann_entity_number : string;
  ann_tag : string
}.

(** [a, b, c = xs] *)
Definition unpack3 {A : Type} (xs : list A) : result (A * A * A) :=
  match xs with
  | [a; b; c] => Ok (a, b, c)
  | _ => Raise ValueError
  end.

(** [a, b, c, d = xs] *)
Definition unpack4 {A : Type} (xs : list A) : result (A * A * A * A) :=
  match xs with
  | [a; b; c; d] => Ok (a, b, c, d)
  | _ => Raise ValueError
  end.

Definition tab : ascii := ascii_of_nat 9.
Definition newline : string := String (ascii_of_nat 10) EmptyString.

(** State of the loop of [get_sentence_wise_bilou_lines].  The lists of
    lines are objects in [heap]; [sentences] and [current_sent] hold
    references to them, so that a list appended to [sentences] and still
    bound to [current_sent] is one object. *)
Record SentState : Type := mkSentState {
  heap : list (list string);
  sentences : list nat;
  current_sent : nat
}.

Section ScienceIEDataUtils.

(** [self.nlp], the spaCy pipeline. *)
Variable nlp : string -> Doc.
(** [self.ignore_warning] *)
Variable ignore_warning : bool.
(** The lines of [<folderpath>/<file_id>.ann], as [for line in fp] yields
    them, and the first line of [<folderpath>/<file_id>.txt]. *)
Variable ann_file : string -> list string.
Variable txt_first_line : string -> string.

Definition _conll_col_sep : string := " ".

Definition entity_types : list string := ["Process"; "Material"; "Task"].

(** [self.msg_printer.warn(msg, show=not self.ignore_warning)]: the
    message is printed when [show] holds. *)
Definition warn (msg : string) (log : list string) : list string :=
  if negb ignore_warning then log ++ [msg] else log.

Definition skipping_msg (line file_id entity : string) : string :=
  "Skipping LINE:" +:+ line +:+ " from file_id " +:+ file_id
    +:+ " for ENTITY:" +:+ entity.

Definition zero_annotations_msg (file_id entity : string) : string :=
  "File " +:+ file_id +:+ " has 0 annotations for Type " +:+ entity.

Definition get_text_from_fileid (file_id : string) : string :=
  Py.strip (txt_first_line file_id).

(** The guard of line 57. *)
Definition is_entity_line (line : string) : bool :=
  Py.startswith (Py.strip line) "T" && (length (Py.split tab line) =? 3).

(** The loop of [_get_annotations_for_entity] over the remaining lines;
    the second component is what has been printed. *)
Fixpoint annotations_loop (file_id entity : string) (lines : list string)
    (annotations : list Annotation) (log : list string)
  : result (list Annotation) * list string :=
  match lines with
  | [] => (Ok annotations, log)
  | line :: rest =>
      if is_entity_line line then
        match unpack3 (Py.split tab line) with
        | Raise e => (Raise e, log)
        | Ok (entity_number, tag_start_end, words) =>
            if negb (length (Py.split_ws tag_start_end) =? 3) then
              annotations_loop file_id entity rest annotations
                (warn (skipping_msg line file_id entity) log)
            else
              match unpack3 (Py.split_ws tag_start_end) with
              | Raise e => (Raise e, log)
              | Ok (tag, start, end_) =>
                  match Py.int start, Py.int end_ with
                  | Some start, Some end_ =>
                      if String.eqb (Py.lower tag) (Py.lower entity) then
                        annotations_loop file_id entity rest
                          (annotations ++
                             [mkAnnotation start end_ words entity_number tag])
                          log
                      else annotations_loop file_id entity rest annotations log
                  | _, _ => (Raise ValueError, log)
                  end
              end
        end
      else annotations_loop file_id entity rest annotations log
  end.

Definition _get_annotations_for_entity (file_id entity : string)
  : result (list Annotation) * list string :=
  match annotations_loop file_id entity (ann_file file_id) [] [] with
  | (Ok annotations, log) =>
      if length annotations =? 0
      then (Ok annotations, warn (zero_annotations_msg file_id entity) log)
      else (Ok annotations, log)
  | (Raise e, log) => (Raise e, log)
  end.

(** The function mapped over the tags (lines 113-116 and 173-178). *)
Definition outside_tag (entity tag : string) : string :=
  if Py.startswith tag "O" || String.eqb tag "-" then "O-" +:+ entity else tag.

(** Lines 104-117, and again 164-179: the annotations as spaCy
    entities, the tokenized text, its tags. *)
Definition entities_of (annotations : list Annotation) : list Entity :=
  map (fun annotation =>
         (ann_start annotation, ann_end annotation, ann_tag annotation))
      annotations.

Definition bilou_tags (text : string) (annotations : list Annotation)
    (entity : string) : list string :=
  let entities := entities_of annotations in
  let doc := nlp text in
  let tags := Spacy.biluo_tags_from_offsets doc entities in
  map (outside_tag entity) tags.

(** The line written for a token: the token, then its tag three times. *)
Definition bilou_line (token : Token) (tag : string) : string :=
  text token +:+ _conll_col_sep
    +:+ Py.join _conll_col_sep (replicate 3 tag).

Definition _get_bilou_lines_for_entity (text : string)
    (annotations : list Annotation) (entity : string) : list string :=
  let tags := bilou_tags text annotations entity in
  let doc := nlp text in
  foldl (fun bilou_lines '(token, tag) =>
           if negb (is_space token)
           then bilou_lines ++ [bilou_line token tag]
           else bilou_lines)
        [] (zip doc tags).

Definition get_bilou_lines_for_entity (file_id entity : string)
  : result (list string) * list string :=
  match _get_annotations_for_entity file_id entity with
  | (Ok annotations, log) =>
      let text := get_text_from_fileid file_id in
      (Ok (_get_bilou_lines_for_entity text annotations entity), log)
  | (Raise e, log) => (Raise e, log)
  end.

(** One round of the loop of lines 188-199. *)
Definition sentence_step (st : SentState) (p : string * Token) : SentState :=
  let '(tag, token) := p in
  if is_sent_start token then
    let sentences' := sentences st ++ [current_sent st] in
    if negb (is_space token) then
      mkSentState (heap st ++ [[bilou_line token tag]]) sentences'
        (length (heap st))
    else mkSentState (heap st) sentences' (current_sent st)
  else
    if negb (is_space token) then
      mkSentState
        (alter (fun sent => sent ++ [bilou_line token tag])
           (current_sent st) (heap st))
        (sentences st) (current_sent st)
    else st.

(** [doc.sents] of spaCy: a new span at every token after the first
    that starts a sentence. *)
Fixpoint sents_from (cur rest : list Token) : list (list Token) :=
  match rest with
  | [] => [cur]
  | t :: rest' =>
      if is_sent_start t then cur :: sents_from [t] rest'
      else sents_from (cur ++ [t]) rest'
  end.

Definition sents (doc : Doc) : list (list Token) :=
  match doc with
  | [] => []
  | t :: rest => sents_from [t] rest
  end.

(** Lines 171-206 on the loaded annotations: the final state of the
    loop, the list [sentences] as references into the heap. *)
Definition sentence_wise_state (txt : string) (annotations : list Annotation)
    (entity_type : string) : result SentState :=
  let doc := nlp txt in
  let tags := bilou_tags txt annotations entity_type in
  match doc with
  | [] => Raise IndexError
  | doc0 :: _ =>
      let! st0 :=
        (if negb (is_space doc0) then
           match tags with
           | [] => Raise IndexError
           | tags0 :: _ =>
               Ok (mkSentState
                     [[text doc0 +:+ " "
                         +:+ Py.join _conll_col_sep (replicate 3 tags0)]]
                     [] 0)
           end
         else Ok (mkSentState [[]] [] 0)) in
      let st := foldl sentence_step st0 (zip (tail tags) (tail doc)) in
      let st' := mkSentState (heap st) (sentences st ++ [current_sent st])
                   (current_sent st) in
      if length (sentences st') =? length (sents doc) then Ok st'
      else Raise AssertionError
  end.

(** The value of the returned list of lists. *)
Definition read_sentences (st : SentState) : list (list string) :=
  map (fun r => default [] (heap st !! r)) (sentences st).

Definition get_sentence_wise_bilou_lines (file_id entity_type : string)
  : result (list (list string)) * list string :=
  match _get_annotations_for_entity file_id entity_type with
  | (Ok annotations, log) =>
      let text := get_text_from_fileid file_id in
      (let! st := sentence_wise_state text annotations entity_type in
       Ok (read_sentences st), log)
  | (Raise e, log) => (Raise e, log)
  end.

(** One round of the loop of [merge_files] (lines 222-242): the line
    written to the merged file, without its terminator. *)
Definition merge_line (task_line process_line material_line : string)
  : result string :=
  if negb (String.eqb (Py.strip task_line) EmptyString) then
    let! t := unpack4 (Py.split " " (Py.strip task_line)) in
    let! p := unpack4 (Py.split " " (Py.strip process_line)) in
    let! m := unpack4 (Py.split " " (Py.strip material_line)) in
    let word := m.1.1.1 in
    let task_tag := t.2 in
    let process_tag := p.2 in
    let material_tag := m.2 in
    Ok (Py.join _conll_col_sep [word; task_tag; process_tag; material_tag])
  else Ok EmptyString.

Fixpoint merge_files (task process material : list string)
  : result (list string) :=
  match task, process, material with
  | task_line :: task', process_line :: process', material_line :: material' =>
      let! out := merge_line task_line process_line material_line in
      let! outs := merge_files task' process' material' in
      Ok (out :: outs)
  | _, _, _ => Ok []
  end.

End ScienceIEDataUtils.

(** ** [BaseTextClassification] *)

(** [xs[i]] for an index that is not negative. *)
Definition getitem {A : Type} (xs : list A) (i : nat) : result A :=
  match xs !! i with
  | Some x => Ok x
  | None => Raise IndexError
  end.

(** [d[k]] *)
Definition dict_getitem (d : gmap string Z) (k : string) : result Z :=
  match d !! k with
  | Some v => Ok v
  | None => Raise KeyError
  end.

Section BaseTextClassification.

(** Python floats, the two tokenizer classes, and the state of NumPy's
    global random generator are left abstract. *)
Variables float WordTokenizer CharacterTokenizer rng : Type.
(** [1 - x] on floats *)
Variable one_minus : float -> float.
(** [np.random.rand(n)], drawing from the global generator *)
Variable np_random_rand : nat -> rng -> list float * rng.
(** [list(StratifiedShuffleSplit(n_splits=1, test_size=.., train_size=..,
    random_state=..).split(X, y))[0]] of scikit-learn: the index arrays
    of the single split, or the error the splitter raises. *)
Variable stratified_shuffle_split :
  float -> float -> Z -> list float -> list Z -> result (list nat * list nat).

(** The attributes the constructor stores on [self]. *)
Record BaseTextClassification : Type := mkBaseTextClassification {
  filename : string;
  dataset_type : string;
  max_num_words : Z;
  max_length : Z;
  store_location : string;
  debug : bool;
  debug_dataset_proportion : float;
  embedding_type : option string;
  embedding_dimension : option Z;
  start_token : string;
  end_token : string;
  pad_token : string;
  unk_token : string;
  train_size : float;
  validation_size : float;
  test_size : float;
  word_tokenizer : WordTokenizer;
  word_tokenization_type : string;
  character_tokenizer : CharacterTokenizer;
  allowable_dataset_types : list string
}.

(** [x in xs] on a list of strings *)
Definition str_in (x : string) (xs : list string) : bool :=
  existsb (String.eqb x) xs.

(** Lines 109-114 of [__init__]: the divider is printed, then the
    assertion is checked.  The second component is what
    [msg_printer.divider] has printed. *)
Definition check_dataset_type (self : BaseTextClassification)
  : result BaseTextClassification * list string :=
  let printed := [Py.upper self.(dataset_type) +:+ " DATASET"] in
  if str_in self.(dataset_type) self.(allowable_dataset_types)
  then (Ok self, printed)
  else (Raise AssertionError, printed).

(** [BaseTextClassification.__init__] (lines 87-114): the attributes are
    stored on [self] (lines 87-107), then lines 109-114 run. *)
Definition __init__
    (filename dataset_type : string) (max_num_words max_length : Z)
    (word_vocab_store_location : string) (debug : bool)
    (debug_dataset_proportion : float)
    (word_embedding_type : option string)
    (word_embedding_dimension : option Z)
    (start_token end_token pad_token unk_token : string)
    (train_size test_size validation_size : float)
    (word_tokenizer : WordTokenizer) (word_tokenization_type : string)
    (character_tokenizer : CharacterTokenizer)
  : result BaseTextClassification * list string :=
  check_dataset_type
    (mkBaseTextClassification filename dataset_type max_num_words max_length
       word_vocab_store_location debug debug_dataset_proportion
       word_embedding_type word_embedding_dimension
       start_token end_token pad_token unk_token
       train_size validation_size test_size
       word_tokenizer word_tokenization_type character_tokenizer
       ["train"; "valid"; "test"]).

(** Computations that draw from the global generator and may raise. *)
Definition M (A : Type) : Type := rng -> result A * rng.

Definition ret {A : Type} (a : A) : M A := fun g => (Ok a, g).

Definition lift {A : Type} (r : result A) : M A := fun g => (r, g).

Definition mbind {A B : Type} (m : M A) (k : A -> M B) : M B :=
  fun g =>
    match m g with
    | (Ok a, g') => k a g'
    | (Raise e, g') => (Raise e, g')
    end.

Definition rand (n : nat) : M (list float) :=
  fun g => let '(xs, g') := np_random_rand n g in (Ok xs, g').

Notation "'run!' x ':=' m 'in' k" := (mbind m (fun x => k))
  (at level 10, x name, m at level 100, k at level 200, only parsing).

Definition Split : Type :=
  ((list string * list string) * (list string * list string)
   * (list string * list string))%type.

(** [get_train_valid_test_stratified_split] (lines 238-299) *)
Definition get_train_valid_test_stratified_split
    (self : BaseTextClassification) (lines labels : list string)
    (classname2idx : gmap string Z) : M Split :=
  let len_lines := length lines in
  let len_labels := length labels in
  if negb (len_lines =? len_labels) then lift (Raise AssertionError) else
  run! features := rand len_lines in
  run! labels_idx_array :=
    lift (collect (dict_getitem classname2idx) labels) in
  run! split0 :=
    lift (stratified_shuffle_split self.(test_size) self.(train_size) 1729
            features labels_idx_array) in
  let '(train_indices, test_valid_indices) := split0 in
  run! train_lines := lift (collect (getitem lines) train_indices) in
  run! train_labels := lift (collect (getitem labels) train_indices) in
  run! test_valid_lines :=
    lift (collect (getitem lines) test_valid_indices) in
  run! test_valid_labels :=
    lift (collect (getitem labels) test_valid_indices) in
  let len_test_valid_lines := length test_valid_lines in
  let len_test_valid_labels := length test_valid_labels in
  if negb (len_test_valid_labels =? len_test_valid_lines)
  then lift (Raise AssertionError) else
  run! test_valid_features := rand len_test_valid_lines in
  run! test_valid_labels_idx_array :=
    lift (collect (dict_getitem classname2idx) test_valid_labels) in
  run! split1 :=
    lift (stratified_shuffle_split self.(validation_size)
            (one_minus self.(validation_size)) 1729
            test_valid_features test_valid_labels_idx_array) in
  let '(test_indices, validation_indices) := split1 in
  run! test_lines := lift (collect (getitem test_valid_lines) test_indices) in
  run! test_labels :=
    lift (collect (getitem test_valid_labels) test_indices) in
  run! validation_lines :=
    lift (collect (getitem test_valid_lines) validation_indices) in
  run! validation_labels :=
    lift (collect (getitem test_valid_labels) validation_indices) in
  ret ((train_lines, train_labels),
       (validation_lines, validation_labels),
       (test_lines, test_labels)).

End BaseTextClassification.

(** ** [BertEmbedder.forward]: padding the batch *)

(** Modelled from the spec: [pack_to_length] of [parsect.utils.common],
    which [bert_embedder.py] imports and which is not among the source
    files.  Section 4.6: the start and end markers are inserted first and
    count toward [max_length]; a sequence longer than [max_length] is
    truncated from the end; a shorter one is right-padded with
    [pad_token] until [max_length]. *)
Definition pack_to_length (tokenized_text : list string) (max_length : nat)
    (pad_token : string) (add_start_end_token : bool)
    (start_token end_token : string) : list string :=
  let marked :=
    if add_start_end_token
    then start_token :: tokenized_text ++ [end_token]
    else tokenized_text in
  let kept := take max_length marked in
  kept ++ replicate (max_length - length kept) pad_token.

Section BertEmbedder.

(** [self.bert_tokenizer.tokenize] *)
Variable bert_tokenize : string -> list string.

(** [sorted(lengths, reverse=True)] *)
Definition sorted_reverse (lengths : list nat) : list nat :=
  merge_sort (flip le) lengths.

(** Lines 92-108 of [forward]: tokenize the batch, take the longest
    length, pack every instance to it. *)
Definition padded_tokenized_text (x : list string)
  : result (list (list string)) :=
  let tokenized_text := map bert_tokenize x in
  let lengths := map (fun tokenized => length tokenized) tokenized_text in
  let! max_len := getitem (sorted_reverse lengths) 0 in
  Ok (map (fun tokens =>
             pack_to_length tokens max_len "[PAD]" true "[CLS]" "[SEP]")
          tokenized_text).

End BertEmbedder.

(** ** The shape of a line of an annotation file *)

(** What the loader makes of one line: not an entity line (the guard of
    line 57 fails), an entity line whose middle field does not split
    into three parts, one whose offsets are not integers, or a parsed
    annotation. *)
Inductive LineKind : Type :=
| NotEntityLine
| BadMiddleField
| BadOffsets
| Parsed (a : Annotation).

Definition classify (line : string) : LineKind :=
  if is_entity_line line then
    match Py.split tab line with
    | [entity_number; tag_start_end; words] =>
        match Py.split_ws tag_start_end with
        | [tag; start; end_] =>
            match Py.int start, Py.int end_ with
            | Some s, Some e =>
                Parsed (mkAnnotation s e words entity_number tag)
            | _, _ => BadOffsets
            end
        | _ => BadMiddleField
        end
    | _ => NotEntityLine
    end
  else NotEntityLine.

(** The annotation a line contributes for the requested entity type. *)
Definition annotation_of (entity line : string) : option Annotation :=
  match classify line with
  | Parsed a =>
      if String.eqb (Py.lower (ann_tag a)) (Py.lower entity)
      then Some a else None
  | _ => None
  end.

Definition is_bad_middle (line : string) : bool :=
  match classify line with
  | BadMiddleField => true
  | _ => false
  end.

Definition has_bad_offsets (line : string) : bool :=
  match classify line with
  | BadOffsets => true
  | _ => false
  end.

(** ** Vocabulary of the statements *)

(** A raw tag is ["-"], ["O"], or one of the four prefixes followed by
    the label of an entity. *)
Definition raw_tag_ok (labels : list string) (tag : string) : Prop :=
  tag = "-" \/ tag = "O"
  \/ exists p label,
       In p ["U-"; "B-"; "I-"; "L-"] /\ In label labels /\ tag = p +:+ label.

(** A character of the token lies in the span of some entity. *)
Definition overlaps (entities : list Entity) (t : Token) : Prop :=
  exists c s e label,
    In (s, e, label) entities
    /\ (s <= c < e)%Z /\ (idx t <= c < token_end t)%Z.

(** The lines of the tokens that are not whitespace, in order. *)
Definition lines_of (doc : Doc) (tags : list string) : list string :=
  map (fun p => bilou_line p.1 p.2)
      (List.filter (fun p => negb (is_space p.1)) (zip doc tags)).

(** What [warn] prints for the skipped lines of an annotation file. *)
Definition skip_warnings (ignore_warning : bool) (file_id entity : string)
    (lines : list string) : list string :=
  if ignore_warning then []
  else map (fun line => skipping_msg line file_id entity)
         (List.filter is_bad_middle lines).

(** The elements of [xs] at the positions [indices], in that order:
    what [[xs[idx] for idx in indices]] builds when every index is in
    range. *)
Definition select {A : Type} (d : A) (xs : list A) (indices : list nat)
  : list A :=
  map (fun i => default d (xs !! i)) indices.

(** The class indices of known labels. *)
Definition class_ids (classname2idx : gmap string Z) (labels : list string)
  : list Z :=
  map (fun label => default 0%Z (classname2idx !! label)) labels.

(** A document as spaCy builds it: no token is empty, and a token ends
    before the next one begins. *)
Definition doc_wf (doc : Doc) : Prop :=
  Forall (fun t => text t <> EmptyString) doc
  /\ forall i j ti tj,
       doc !! i = Some ti -> doc !! j = Some tj -> i < j ->
       (token_end ti <= idx tj)%Z.

(** [tiles doc k entities]: the entities lie on token boundaries of the
    tokens from position [k] on, one after the other.  Each begins where
    a token [a] begins and ends where a token [b >= a] ends, and the next
    one begins after token [b]. *)
Inductive tiles (doc : Doc) : nat -> list Entity -> Prop :=
| tiles_nil (k : nat) : tiles doc k []
| tiles_cons (k a b : nat) (ta tb : Token) (label : string)
    (rest : list Entity) :
    k <= a -> a <= b ->
    doc !! a = Some ta -> doc !! b = Some tb ->
    tiles doc (S b) rest ->
    tiles doc k ((idx ta, token_end tb, label) :: rest).

(** The tag spaCy writes at position [j] of an entity that covers the
    tokens [a .. b]. *)
Definition bilu (a b : nat) (label : string) (j : nat) : string :=
  if decide (a = b) then "U-" +:+ label
  else if decide (j = a) then "B-" +:+ label
  else if decide (j = b) then "L-" +:+ label
  else "I-" +:+ label.

(** Entities by the tokens they cover: [(a, b, label)] covers the tokens
    [a .. b].  [sorted_spans n k spans]: the spans lie within the tokens
    [k .. n-1], one after the other. *)
Definition Span : Type := (nat * nat * string)%type.

Fixpoint sorted_spans (n k : nat) (spans : list Span) : Prop :=
  match spans with
  | [] => True
  | (a, b, _) :: rest => k <= a /\ a <= b /\ b < n /\ sorted_spans n (S b) rest
  end.

Definition token_at (doc : Doc) (i : nat) : Token :=
  default (mkToken EmptyString 0 false false) (doc !! i).

Definition span_entity (doc : Doc) (sp : Span) : Entity :=
  (idx (token_at doc sp.1.1), token_end (token_at doc sp.1.2), sp.2).

Definition in_span (j : nat) (sp : Span) : bool :=
  (sp.1.1 <=? j) && (j <=? sp.1.2).

(** The span that covers token [j], if any. *)
Definition find_span (spans : list Span) (j : nat) : option Span :=
  List.find (in_span j) spans.

(** The tag expected at token [j]. *)
Definition expected_tag (spans : list Span) (outside : string) (j : nat)
  : string :=
  match find_span spans j with
  | Some (a, b, label) => bilu a b label j
  | None => outside
  end.

(** A span as [tags_to_entities] reports it. *)
Definition span_found (sp : Span) : string * option nat * nat :=
  (sp.2, Some sp.1.1, sp.1.2).

(** The number of tokens that start a sentence, and the line of a
    (tag, token) pair of the sentence-wise loop. *)
Definition starts_count (tokens : list Token) : nat :=
  length (List.filter is_sent_start tokens).

Definition pair_line (p : string * Token) : string := bilou_line p.2 p.1.

(** The lines of an annotation file up to the first entity line whose
    offsets are not integers. *)
Fixpoint good_prefix (lines : list string) : list string :=
  match lines with
  | [] => []
  | line :: rest =>
      if has_bad_offsets line then [] else line :: good_prefix rest
  end.

(** ** Example inputs *)

Definition tabs (fields : list string) : string :=
  Py.join (String tab EmptyString) fields +:+ newline.

(** The tokens of ["AI is useful."], and of ["Hi  there"] with a
    whitespace token that is marked as the start of a sentence. *)
Definition doc_ai : Doc :=
  [mkToken "AI" 0 false true; mkToken "is" 3 false false;
   mkToken "useful" 6 false false; mkToken "." 12 false false].

Definition doc_ws : Doc :=
  [mkToken "Hi" 0 false true; mkToken " " 3 true true;
   mkToken "there" 4 false false].

Definition doc_two : Doc :=
  [mkToken "Hi" 0 false true; mkToken "." 2 false false;
   mkToken " " 4 true false; mkToken "Go" 5 false true].

Definition nlp_ex (txt : string) : Doc :=
  if String.eqb txt "AI is useful." then doc_ai
  else if String.eqb txt "Hi  there" then doc_ws
  else if String.eqb txt "Hi.  Go" then doc_two
  else [].

Definition txt_ex (file_id : string) : string :=
  if String.eqb file_id "ai" then "AI is useful." +:+ newline
  else if String.eqb file_id "ws" then "Hi  there" +:+ newline
  else newline.

Definition ann_ex (file_id : string) : list string :=
  if String.eqb file_id "ai" then
    [tabs ["T1"; "Task 0 2"; "AI"]]
  else if String.eqb file_id "relations" then
    [tabs ["R1"; "Synonym-of T1 T2"]; tabs ["T1"; "Task 0 2"; "AI"]]
  else if String.eqb file_id "offsets" then
    [tabs ["T1"; "Task x 2"; "AI"]; tabs ["T2"; "Task 0 2"; "AI"]]
  else if String.eqb file_id "mixed" then
    [tabs ["T1"; "Task 0 2"; "AI"]; tabs ["R1"; "Synonym-of T1 T2"];
     tabs ["T2"; "Task 3 5;6 12"; "is useful"];
     tabs ["T3"; "Material 6 12"; "useful"];
     tabs ["T4"; "TASK 6 12"; "useful"]]
  else [].

Definition ann_ai : list Annotation :=
  [mkAnnotation 0 2 ("AI" +:+ newline) "T1" "Task"].

(** A stand-in for the generator and the splitter, for the examples:
    floats are tenths, the generator is a counter, and the splitter
    takes no account of the labels or of the values of the features,
    putting the first [floor(train_size * n)] positions in its first
    part and the last [ceil(test_size * n)] in its second part. *)
Definition rand_ex (n : nat) (g : nat) : list nat * nat :=
  (replicate n g, S g).

Definition split_ex (test_size train_size : nat) (random_state : Z)
    (X : list nat) (y : list Z) : result (list nat * list nat) :=
  let n := length X in
  let n_test := (test_size * n + 9) / 10 in
  let n_train := (train_size * n) / 10 in
  Ok (seq 0 n_train, seq (n - n_test) n_test).

Definition dataset_ex : BaseTextClassification nat unit unit :=
  mkBaseTextClassification nat unit unit "file" "train" 100 10 "vocab.json"
    false 1 None None "<SOS>" "<EOS>" "<PAD>" "<UNK>" 8 5 2 tt "vanilla" tt
    ["train"; "valid"; "test"].

Definition lines_ex : list string :=
  ["l0"; "l1"; "l2"; "l3"; "l4"; "l5"; "l6"; "l7"; "l8"; "l9"].

Definition labels_ex : list string :=
  ["a"; "b"; "a"; "b"; "a"; "b"; "a"; "b"; "a"; "b"].

Definition classname2idx_ex : gmap string Z :=
  <["a" := 0%Z]> (<["b" := 1%Z]> ∅).

(** ** Files as text *)

Definition carriage_return : ascii := ascii_of_nat 13.
Definition line_feed : ascii := ascii_of_nat 10.

(** [for line in fp] on a file opened in text mode: every line keeps
    its terminator, which universal newlines turn into a line feed; a
    last line without terminator is yielded as it is. *)
Fixpoint file_lines_from (s cur : string) : list string :=
  match s with
  | EmptyString => match cur with EmptyString => [] | _ => [cur] end
  | String c s' =>
      if Ascii.eqb c line_feed then
        (cur +:+ newline) :: file_lines_from s' EmptyString
      else if Ascii.eqb c carriage_return then
        match s' with
        | String d s'' =>
            if Ascii.eqb d line_feed
            then (cur +:+ newline) :: file_lines_from s'' EmptyString
            else (cur +:+ newline) :: file_lines_from s' EmptyString
        | EmptyString => [cur +:+ newline]
        end
      else file_lines_from s' (cur +:+ String c EmptyString)
  end.

Definition file_lines (content : string) : list string :=
  file_lines_from content EmptyString.

(** A string that can be one line of a text file: not empty, no line
    feed, no carriage return. *)
Definition one_line (s : string) : bool :=
  negb (String.eqb s EmptyString)
  && Py.free_of line_feed s && Py.free_of carriage_return s.

(** ** [str] of an integer *)

Fixpoint uint_digits (d : Decimal.uint) : string :=
  match d with
  | Decimal.Nil => EmptyString
  | Decimal.D0 d' => String "0" (uint_digits d')
  | Decimal.D1 d' => String "1" (uint_digits d')
  | Decimal.D2 d' => String "2" (uint_digits d')
  | Decimal.D3 d' => String "3" (uint_digits d')
  | Decimal.D4 d' => String "4" (uint_digits d')
  | Decimal.D5 d' => String "5" (uint_digits d')
  | Decimal.D6 d' => String "6" (uint_digits d')
  | Decimal.D7 d' => String "7" (uint_digits d')
  | Decimal.D8 d' => String "8" (uint_digits d')
  | Decimal.D9 d' => String "9" (uint_digits d')
  end.

(** [str(z)]: the decimal digits of [z] without leading zeros, after a
    minus sign when [z] is negative. *)
Definition py_str (z : Z) : string :=
  match Z.to_int z with
  | Decimal.Pos d => uint_digits d
  | Decimal.Neg d => String "-" (uint_digits d)
  end.

(** ** [write_ann_file_from_conll_file] *)

(** The outcome of a call that may also fail with [AttributeError]. *)
Inductive outcome (A : Type) : Type :=
| Returned (a : A)
| Raised (e : exn)
| RaisedAttributeError.

Arguments Returned {A} a.
Arguments Raised {A} e.
Arguments RaisedAttributeError {A}.

Definition of_result {A : Type} (r : result A) : outcome A :=
  match r with
  | Ok a => Returned a
  | Raise e => Raised e
  end.

Definition obind {A B : Type} (o : outcome A) (k : A -> outcome B)
  : outcome B :=
  match o with
  | Returned a => k a
  | Raised e => Raised e
  | RaisedAttributeError => RaisedAttributeError
  end.

Notation "'try!' x ':=' o 'in' k" := (obind o (fun x => k))
  (at level 10, x name, o at level 100, k at level 200, only parsing).

(** [Doc.char_span] of spaCy 2.1 (library code): the first token that
    begins at [start_idx], the first token that ends at [end_idx]; [None]
    when either is missing, else the span of the tokens
    [start .. end], built by [Span(doc, start, end + 1)]. *)
Module SpacyDoc.

Fixpoint token_by_start (tokens : list Token) (i : nat) (start_char : Z)
  : option nat :=
  match tokens with
  | [] => None
  | t :: rest =>
      if (idx t =? start_char)%Z then Some i
      else token_by_start rest (S i) start_char
  end.

Fixpoint token_by_end (tokens : list Token) (i : nat) (end_char : Z)
  : option nat :=
  match tokens with
  | [] => None
  | t :: rest =>
      if (token_end t =? end_char)%Z then Some i
      else token_by_end rest (S i) end_char
  end.

(** The token range [(start, end)], end excluded, of the span. *)
Definition char_span (doc : Doc) (start_idx end_idx : Z)
  : result (option (nat * nat)) :=
  match token_by_start doc 0 start_idx with
  | None => Ok None
  | Some s =>
      match token_by_end doc 0 end_idx with
      | None => Ok None
      | Some e =>
          if bool_decide (s <= S e <= length doc) then Ok (Some (s, S e))
          else Raise IndexError
      end
  end.

End SpacyDoc.

Section WriteAnnFile.

Variable nlp : string -> Doc.
(** [Span(doc, start, end).text], the text of the tokens
    [start .. end - 1] of the document *)
Variable span_text : Doc -> nat -> nat -> string.

(** [_form_ann_line] (lines 306-320) *)
Definition _form_ann_line (idx : Z) (char_offset : Entity)
    (tag_name : string) (doc : Doc) : outcome string :=
  let '(start_offset, end_offset, entity_type) := char_offset in
  try! span := of_result (SpacyDoc.char_span doc start_offset end_offset) in
  match span with
  | None => RaisedAttributeError
  | Some (s, e) =>
      let surface_form := span_text doc s e in
      let start_offset := py_str start_offset in
      let end_offset := py_str end_offset in
      let ann_line := Py.join " " [start_offset; end_offset] in
      let ann_line := Py.join (String tab EmptyString)
                        [ann_line; surface_form] in
      let ann_line := Py.join " " [tag_name; ann_line] in
      let ann_line := Py.join (String tab EmptyString)
                        ["T" +:+ py_str idx; ann_line] in
      Returned ann_line
  end.

(** The loop of lines 259-268 over the remaining lines of the CoNLL
    file. *)
Fixpoint read_conll (lines : list string)
    (words task_tags process_tags material_tags : list string)
  : result (list string * list string * list string * list string) :=
  match lines with
  | [] => Ok (words, task_tags, process_tags, material_tags)
  | line :: rest =>
      match unpack4 (Py.split_ws line) with
      | Ok (word, task_tag, process_tag, material_tag) =>
          read_conll rest (words ++ [word]) (task_tags ++ [task_tag])
            (process_tags ++ [process_tag])
            (material_tags ++ [material_tag])
      | Raise _ =>
          let word := " " in
          let! tags := unpack3 (Py.split_ws line) in
          let '(task_tag, process_tag, material_tag) := tags in
          read_conll rest (words ++ [word]) (task_tags ++ [task_tag])
            (process_tags ++ [process_tag])
            (material_tags ++ [material_tag])
      end
  end.

(** One of the three loops of lines 278-300: the lines so far and the
    next term index. *)
Fixpoint form_ann_lines (doc : Doc) (tag_name : string)
    (char_offsets : list Entity) (ann_lines : list string) (term_idx : Z)
  : outcome (list string * Z) :=
  match char_offsets with
  | [] => Returned (ann_lines, term_idx)
  | char_offset :: rest =>
      let id_ := term_idx in
      try! ann_line := _form_ann_line id_ char_offset tag_name doc in
      form_ann_lines doc tag_name rest (ann_lines ++ [ann_line])
        (term_idx + 1)%Z
  end.

(** Lines 254-300: the lines of the annotation file. *)
Definition ann_lines_from_conll (conll : list string) (txt : string)
  : outcome (list string) :=
  try! columns := of_result (read_conll conll [] [] [] []) in
  let '(words, task_tags, process_tags, material_tags) := columns in
  let doc := nlp txt in
  try! task_char_offsets :=
    of_result (Spacy.offsets_from_biluo_tags doc task_tags) in
  try! process_char_offsets :=
    of_result (Spacy.offsets_from_biluo_tags doc process_tags) in
  try! material_char_offsets :=
    of_result (Spacy.offsets_from_biluo_tags doc material_tags) in
  try! st1 := form_ann_lines doc "Task" task_char_offsets [] 0%Z in
  try! st2 := form_ann_lines doc "Process" process_char_offsets st1.1 st1.2 in
  try! st3 :=
    form_ann_lines doc "Material" material_char_offsets st2.1 st2.2 in
  Returned st3.1.

(** [write_ann_file_from_conll_file]: what is written to the
    annotation file. *)
Definition write_ann_file_from_conll_file (conll : list string)
    (txt : string) : outcome string :=
  try! ann_lines := ann_lines_from_conll conll txt in
  Returned (Py.join newline ann_lines).

End WriteAnnFile.

(** ** Vocabulary of the statements about annotation files *)

(** The line [_form_ann_line] builds, field by field. *)
Definition ann_line (idx : Z) (tag_name : string)
    (start_offset end_offset : Z) (surface_form : string) : string :=
  ("T" +:+ py_str idx)
    +:+ String tab
          ((tag_name +:+ " " +:+ py_str start_offset
              +:+ " " +:+ py_str end_offset)
             +:+ String tab surface_form).

(** The lines as read back from a file they were joined into: all but
    the last one end in a line feed. *)
Fixpoint with_terminators (ls : list string) : list string :=
  match ls with
  | [] => []
  | [l] => [l]
  | l :: ls' => (l +:+ newline) :: with_terminators ls'
  end.

(** The surface form [_form_ann_line] writes for an entity. *)
Definition surface_of (span_text : Doc -> nat -> nat -> string)
    (doc : Doc) (e : Entity) : string :=
  match SpacyDoc.char_span doc e.1.1 e.1.2 with
  | Ok (Some (s, e)) => span_text doc s e
  | _ => EmptyString
  end.

(** No tab, line feed or carriage return. *)
Definition clean_surface (s : string) : bool :=
  Py.free_of tab s && Py.free_of line_feed s
  && Py.free_of carriage_return s.

Definition retag (tag_name : string) (e : Entity) : Entity :=
  (e.1.1, e.1.2, tag_name).

(** ["T<first>"], ["T<first + 1>"], ... *)
Definition term_ids (first : Z) (n : nat) : list string :=
  map (fun i => "T" +:+ py_str i) (seqZ first (Z.of_nat n)).

(** The lines [form_ann_lines] appends for the entities, from term
    index [term_idx] on. *)
Fixpoint ann_lines_of (span_text : Doc -> nat -> nat -> string)
    (doc : Doc) (tag_name : string) (char_offsets : list Entity)
    (term_idx : Z) : list string :=
  match char_offsets with
  | [] => []
  | e :: rest =>
      ann_line term_idx tag_name e.1.1 e.1.2 (surface_of span_text doc e)
        :: ann_lines_of span_text doc tag_name rest (term_idx + 1)%Z
  end.

(** What the loader reads of an annotation, its words apart: the
    entity and its number. *)
Definition ann_key (a : Annotation) : Entity * string :=
  (ann_start a, ann_end a, ann_tag a, ann_entity_number a).

(** A span's text for the examples: the texts of its tokens, one blank
    between two of them. *)
Definition span_text_ex (doc : Doc) (s e : nat) : string :=
  Py.join " " (map text (take (e - s) (drop s doc))).

(** A CoNLL file of ["AI is useful."]: word, Task tag, Process tag,
    Material tag. *)
Definition conll_ex : list string :=
  ["AI U-Task O-Process O-Material" +:+ newline;
   "is O-Task B-Process O-Material" +:+ newline;
   "useful O-Task L-Process U-Material" +:+ newline;
   ". O-Task O-Process O-Material" +:+ newline].

(** ** [write_bilou_lines] *)

Section WriteBilouLines.

Variable nlp : string -> Doc.
Variable ignore_warning : bool.
Variable ann_file : string -> list string.
Variable txt_first_line : string -> string.
(** [self.file_ids], as the constructor fixed it *)
Variable file_ids : list string.

(** Lines 139-147: the lists of lines of one file, one list per
    sentence in sentence-wise mode, one list in all otherwise. *)
Definition bilou_groups (is_sentence_wise : bool)
    (file_id entity_type : string)
  : result (list (list string)) * list string :=
  if is_sentence_wise then
    get_sentence_wise_bilou_lines nlp ignore_warning ann_file txt_first_line
      file_id entity_type
  else
    match get_bilou_lines_for_entity nlp ignore_warning ann_file
            txt_first_line file_id entity_type with
    | (Ok bilou_lines, log) => (Ok [bilou_lines], log)
    | (Raise e, log) => (Raise e, log)
    end.

(** Lines 149-151: two writes per list of lines. *)
Definition write_lines (content : string) (bilou_lines : list (list string))
  : string :=
  foldl (fun content line =>
           (content +:+ Py.join newline line) +:+ (newline +:+ newline))
        content bilou_lines.

(** The loop over [self.file_ids] for one entity type (lines 138-151):
    whether it ended or raised, what has been written to the file, and
    what has been printed. *)
Fixpoint write_file_ids (is_sentence_wise : bool) (entity_type : string)
    (ids : list string) (content : string) (log : list string)
  : result unit * string * list string :=
  match ids with
  | [] => (Ok tt, content, log)
  | file_id :: rest =>
      match bilou_groups is_sentence_wise file_id entity_type with
      | (Ok bilou_lines, log') =>
          write_file_ids is_sentence_wise entity_type rest
            (write_lines content bilou_lines) (log ++ log')
      | (Raise e, log') => (Raise e, content, log ++ log')
      end
  end.

(** [f"{filename_stem}_{entity_type.lower()}_conll.txt"], a file of
    [DATA_DIR] *)
Definition conll_filename (filename_stem entity_type : string) : string :=
  filename_stem +:+ "_" +:+ Py.lower entity_type +:+ "_conll.txt".

(** The loop over the entity types (lines 133-151): the files opened so
    far with what has been written to them, in the order they were
    opened. *)
Fixpoint write_entity_types (filename_stem : string)
    (is_sentence_wise : bool) (types : list string)
    (files : list (string * string)) (log : list string)
  : result unit * list (string * string) * list string :=
  match types with
  | [] => (Ok tt, files, log)
  | entity_type :: rest =>
      let out_filename := conll_filename filename_stem entity_type in
      match write_file_ids is_sentence_wise entity_type file_ids
              EmptyString [] with
      | (Ok _, content, log') =>
          write_entity_types filename_stem is_sentence_wise rest
            (files ++ [(out_filename, content)]) (log ++ log')
      | (Raise e, content, log') =>
          (Raise e, files ++ [(out_filename, content)], log ++ log')
      end
  end.

(** [write_bilou_lines], given the stem of [out_filename]. *)
Definition write_bilou_lines (filename_stem : string)
    (is_sentence_wise : bool)
  : result unit * list (string * string) * list string :=
  write_entity_types filename_stem is_sentence_wise entity_types [] [].

End WriteBilouLines.

(** ** Vocabulary of the statements about the written files *)

(** The lines read back from what the two writes of lines 150-151 wrote
    for one list of lines: the lines, or one empty line when there are
    none, then an empty line. *)
Definition group_lines (g : list string) : list string :=
  map (fun l => l +:+ newline)
      (match g with [] => [EmptyString] | _ => g end ++ [EmptyString]).

(** What has been written for the lists of lines. *)
Definition chunks (groups : list (list string)) : string :=
  foldr (fun g rest =>
           Py.join newline g +:+ newline +:+ newline +:+ rest)
        EmptyString groups.

(** Lines of the three per-entity files for one token, whose text and
    tags are not empty and hold no whitespace. *)
Definition same_token (task_line process_line material_line : string)
  : Prop :=
  exists token task_tag process_tag material_tag,
    task_line = bilou_line token task_tag
    /\ process_line = bilou_line token process_tag
    /\ material_line = bilou_line token material_tag
    /\ (text token <> EmptyString /\ Py.no_space (text token) = true)
    /\ (task_tag <> EmptyString /\ Py.no_space task_tag = true)
    /\ (process_tag <> EmptyString /\ Py.no_space process_tag = true)
    /\ (material_tag <> EmptyString /\ Py.no_space material_tag = true).

(** The row [merge_files] writes for three lines read at the same
    position of the three files: an empty row for three empty lines,
    the token and its three tags for three lines of one token. *)
Definition merged_row (task_line process_line material_line row : string)
  : Prop :=
  (task_line = newline /\ process_line = newline
   /\ material_line = newline /\ row = EmptyString)
  \/ exists token task_tag process_tag material_tag,
       task_line = bilou_line token task_tag +:+ newline
       /\ process_line = bilou_line token process_tag +:+ newline
       /\ material_line = bilou_line token material_tag +:+ newline
       /\ row = Py.join " "
                  [text token; task_tag; process_tag; material_tag].

(** A token that is not whitespace holds none and is not empty. *)
Definition token_clean (token : Token) : Prop :=
  is_space token = false ->
  text token <> EmptyString /\ Py.no_space (text token) = true.

(** A tag that is not empty and holds no whitespace. *)
Definition tag_clean (tag : string) : Prop :=
  tag <> EmptyString /\ Py.no_space tag = true.

(** The annotation files of the examples, for all entity types. *)
Definition ann_all_ex (file_id : string) : list string :=
  if String.eqb file_id "ai" then
    [tabs ["T1"; "Task 0 2"; "AI"]; tabs ["T2"; "Process 3 12"; "is useful"];
     tabs ["T3"; "Material 6 12"; "useful"]]
  else [].

(** A per-entity file of the examples: the sentence of ["AI is
    useful."], then twice the lines of ["Hi  there"], as sentence-wise
    mode writes them. *)
Definition file_ex (ai is_ useful dot outside : string) : string :=
  let line w t := w +:+ " " +:+ t +:+ " " +:+ t +:+ " " +:+ t in
  chunks [[line "AI" ai; line "is" is_; line "useful" useful; line "." dot];
          [line "Hi" outside; line "there" outside];
          [line "Hi" outside; line "there" outside]].

Definition task_file_ex : string :=
  file_ex "U-Task" "O-Task" "O-Task" "O-Task" "O-Task".
Definition process_file_ex : string :=
  file_ex "O-Process" "B-Process" "L-Process" "O-Process" "O-Process".
Definition material_file_ex : string :=
  file_ex "O-Material" "O-Material" "U-Material" "O-Material" "O-Material".

(** ** [BertEmbedder.__init__]: the model and the vocabulary to load *)

(** [sub in s] on strings *)
Fixpoint str_contains (sub s : string) : bool :=
  String.prefix sub s
  || match s with
     | EmptyString => false
     | String _ s' => str_contains sub s'
     end.

(** [s.endswith(c)] for one character *)
Fixpoint ends_with (c : ascii) (s : string) : bool :=
  match s with
  | EmptyString => false
  | String d EmptyString => Ascii.eqb d c
  | String _ s' => ends_with c s'
  end.

(** [os.path.join(a, *p)] of [posixpath]: a component that begins with
    the separator replaces what came before it; the separator is put in
    unless the path so far is empty or ends with it. *)
Definition path_join (a : string) (p : list string) : string :=
  foldl (fun path b =>
           if Py.startswith b "/" then b
           else if String.eqb path EmptyString || ends_with "/" path
                then path +:+ b
                else path +:+ "/" +:+ b)
        a p.

(** [d[k]] on a dictionary of strings *)
Definition dict_getitem_str (d : gmap string string) (k : string)
  : result string :=
  match d !! k with
  | Some v => Ok v
  | None => Raise KeyError
  end.

Section BertEmbedderInit.

(** [PATHS["MODELS_CACHE_DIR"]] *)
Variable MODELS_CACHE_DIR : string.

Definition allowed_bert_types : list string :=
  ["bert-base-uncased"; "bert-large-uncased"; "bert-base-cased";
   "bert-large-cased"; "scibert-base-cased"; "scibert-sci-cased";
   "scibert-base-uncased"; "scibert-sci-uncased"].

Definition scibert_foldername_mapping : gmap string string :=
  list_to_map
    [("scibert-base-cased", "scibert_basevocab_cased");
     ("scibert-sci-cased", "scibert_scivocab_cased");
     ("scibert-base-uncased", "scibert_basevocab_uncased");
     ("scibert-sci-uncased", "scibert_scivocab_uncased")].

(** Lines 45-76 of [BertEmbedder.__init__]: the values of
    [self.model_type_or_folder_url] and [self.vocab_type_or_filename]
    that are handed to [from_pretrained]. *)
Definition bert_embedder_init (bert_type : string)
  : result (string * string) :=
  if negb (str_in bert_type allowed_bert_types) then Raise AssertionError
  else if str_contains "scibert" bert_type then
    let! foldername := dict_getitem_str scibert_foldername_mapping bert_type in
    let model_type_or_folder_url :=
      path_join MODELS_CACHE_DIR [foldername; "weights.tar.gz"] in
    let vocab_type_or_filename :=
      path_join MODELS_CACHE_DIR [foldername; "vocab.txt"] in
    Ok (model_type_or_folder_url, vocab_type_or_filename)
  else Ok (bert_type, bert_type).

End BertEmbedderInit.

(** ** Vocabulary of the statements about the outcome of writing *)

(** Nothing raises while the lines of the file are computed: no entity
    line of the annotation file has offsets that are not integers, and
    in sentence-wise mode the text has a token. *)
Definition file_loads (nlp : string -> Doc)
    (ann_file : string -> list string) (txt_first_line : string -> string)
    (is_sentence_wise : bool) (file_id : string) : Prop :=
  existsb has_bad_offsets (ann_file file_id) = false
  /\ (is_sentence_wise = true ->
      nlp (get_text_from_fileid txt_first_line file_id) <> []).

(** ** Example inputs of the split *)

(** Twenty examples, ten of each of two classes, so that test+valid has
    two of each class when a fifth is set apart; and a data set whose
    train and test sizes, 0.5 and 0.3, do not add up to the whole. *)
Definition lines20_ex : list string :=
  map (fun i => "l" +:+ py_str (Z.of_nat i)) (seq 0 20).

Definition labels20_ex : list string :=
  map (fun i => if Nat.even i then "a" else "b") (seq 0 20).

Definition dataset_gap_ex : BaseTextClassification nat unit unit :=
  mkBaseTextClassification nat unit unit "file" "train" 100 10 "vocab.json"
    false 1 None None "<SOS>" "<EOS>" "<PAD>" "<UNK>" 5 5 3 tt "vanilla" tt
    ["train"; "valid"; "test"].

(** ** Example inputs of the round trip through the lines *)

(** Two annotations of ["Hi.  Go"], the later span first, and one of
    ["Hi  there"], whose span begins after the whitespace token. *)
Definition ann_hi_ex : list Annotation :=
  [mkAnnotation 2 3 ("." +:+ newline) "T1" "Task";
   mkAnnotation 0 2 ("Hi" +:+ newline) "T2" "Task"].

Definition ann_there_ex : list Annotation :=
  [mkAnnotation 4 9 ("there" +:+ newline) "T1" "Task"].

(** * Properties *)

(** ** Padding and packing *)

Section PackToLength.

Variables (pad_token start_token end_token : string).

Lemma pack_to_length_length (tokens : list string) (max_length : nat) (add : bool) :
  length (pack_to_length tokens max_length pad_token add start_token end_token)
  = max_length.
Proof.
  unfold pack_to_length.
  rewrite length_app, length_replicate, length_take. lia.
Qed.

Lemma pack_to_length_truncates (tokens : list string) (max_length : nat) (add : bool) :
  let marked := if add then start_token :: tokens ++ [end_token] else tokens in
  max_length <= length marked ->
  pack_to_length tokens max_length pad_token add start_token end_token
  = take max_length marked.
Proof.
  intros marked Hlen. unfold pack_to_length. fold marked.
  rewrite length_take, Nat.min_l by exact Hlen.
  rewrite Nat.sub_diag. simpl. apply app_nil_r.
Qed.

Lemma pack_to_length_pads (tokens : list string) (max_length : nat) (add : bool) :
  let marked := if add then start_token :: tokens ++ [end_token] else tokens in
  length marked <= max_length ->
  pack_to_length tokens max_length pad_token add start_token end_token
  = marked ++ replicate (max_length - length marked) pad_token.
Proof.
  intros marked Hlen. unfold pack_to_length. fold marked.
  rewrite take_ge by exact Hlen. reflexivity.
Qed.

End PackToLength.

(** C5.  For every token sequence and every [max_length], the packed
    sequence has exactly [max_length] elements.  With [marked] the tokens
    (between the start and end markers when [add_start_end_token] holds,
    so that the markers count toward [max_length]): a [marked] longer than
    [max_length] is cut to its first [max_length] elements, a shorter one
    is followed by [pad_token] up to [max_length]. *)
Theorem pack_to_length_exact
    (tokens : list string) (max_length : nat) (pad_token : string)
    (add_start_end_token : bool) (start_token end_token : string) :
  let packed := pack_to_length tokens max_length pad_token
                  add_start_end_token start_token end_token in
  let marked := if add_start_end_token
                then start_token :: tokens ++ [end_token] else tokens in
  length packed = max_length
  /\ (max_length < length marked -> packed = take max_length marked)
  /\ (length marked <= max_length ->
      packed = marked ++ replicate (max_length - length marked) pad_token)
  /\ (add_start_end_token = true -> 0 < max_length ->
      head packed = Some start_token).
Proof.
  intros packed marked. repeat split.
  - apply pack_to_length_length.
  - intros H. apply pack_to_length_truncates. fold marked. lia.
  - intros H. apply pack_to_length_pads. exact H.
  - intros -> Hpos. subst packed. unfold pack_to_length.
    destruct max_length as [|n]; [lia|]. reflexivity.
Qed.


(** ** The dataset-type check of the constructor *)

Section DatasetTypeCheck.

Variables float WordTokenizer CharacterTokenizer : Type.

Lemma str_in_In (x : string) (xs : list string) :
  str_in x xs = true <-> In x xs.
Proof.
  unfold str_in. rewrite existsb_exists. split.
  - intros (y & Hin & Heq). apply String.eqb_eq in Heq. now subst.
  - intros Hin. exists x. split; [exact Hin | apply String.eqb_refl].
Qed.

Lemma check_dataset_type_allowed
    (self : BaseTextClassification float WordTokenizer CharacterTokenizer) :
  In (dataset_type _ _ _ self) (allowable_dataset_types _ _ _ self) ->
  fst (check_dataset_type _ _ _ self) = Ok self.
Proof.
  intros Hin. unfold check_dataset_type.
  apply str_in_In in Hin. now rewrite Hin.
Qed.

Lemma check_dataset_type_refused
    (self : BaseTextClassification float WordTokenizer CharacterTokenizer) :
  ~ In (dataset_type _ _ _ self) (allowable_dataset_types _ _ _ self) ->
  fst (check_dataset_type _ _ _ self) = Raise AssertionError.
Proof.
  intros Hin. unfold check_dataset_type.
  destruct (str_in _ _) eqn:E; [|reflexivity].
  apply str_in_In in E. contradiction.
Qed.

End DatasetTypeCheck.

(** C9.  Constructing a dataset with a [dataset_type] outside
    ["train"], ["valid"], ["test"] raises [AssertionError]: no object is
    returned, and whatever a subclass constructor does after the base
    initializer ([rest]) does not run.  For the three allowed values the
    initializer returns the object holding the arguments and [rest] runs
    on it. *)
Theorem init_checks_dataset_type
    (float WordTokenizer CharacterTokenizer D : Type)
    (fname dtype : string) (max_num_words max_len : Z)
    (word_vocab_store_location : string) (debug : bool)
    (debug_dataset_proportion : float)
    (word_embedding_type : option string)
    (word_embedding_dimension : option Z)
    (start_token end_token pad_token unk_token : string)
    (train_size test_size validation_size : float)
    (word_tokenizer : WordTokenizer) (word_tokenization_type : string)
    (character_tokenizer : CharacterTokenizer)
    (rest : BaseTextClassification float WordTokenizer CharacterTokenizer
            -> result D) :
  let built :=
    fst (__init__ float WordTokenizer CharacterTokenizer
           fname dtype max_num_words max_len
           word_vocab_store_location debug debug_dataset_proportion
           word_embedding_type word_embedding_dimension
           start_token end_token pad_token unk_token
           train_size test_size validation_size
           word_tokenizer word_tokenization_type character_tokenizer) in
  (~ In dtype ["train"; "valid"; "test"] ->
     built = Raise AssertionError /\ bind built rest = Raise AssertionError)
  /\ (In dtype ["train"; "valid"; "test"] ->
      exists self,
        built = Ok self /\ bind built rest = rest self
        /\ dataset_type _ _ _ self = dtype
        /\ filename _ _ _ self = fname
        /\ max_length _ _ _ self = max_len).
Proof.
  intros built. split.
  - intros Hout.
    assert (built = Raise AssertionError) as ->.
    { subst built. unfold __init__.
      now apply check_dataset_type_refused. }
    split; reflexivity.
  - intros Hin.
    assert (E : built = Ok (mkBaseTextClassification float WordTokenizer
                  CharacterTokenizer fname dtype max_num_words max_len
                  word_vocab_store_location debug debug_dataset_proportion
                  word_embedding_type word_embedding_dimension
                  start_token end_token pad_token unk_token
                  train_size validation_size test_size
                  word_tokenizer word_tokenization_type character_tokenizer
                  ["train"; "valid"; "test"])).
    { subst built. unfold __init__.
      now apply check_dataset_type_allowed. }
    eexists. split; [exact E|]. rewrite E. repeat split.
Qed.

(** ** Facts about the string primitives *)

Section StringFacts.

Lemma append_cons (c : ascii) (s t : string) :
  String c s +:+ t = String c (s +:+ t).
Proof. reflexivity. Qed.

Lemma append_nil_l (t : string) : EmptyString +:+ t = t.
Proof. reflexivity. Qed.

Lemma append_assoc (s t u : string) : (s +:+ t) +:+ u = s +:+ (t +:+ u).
Proof.
  induction s as [|c s IH]; [reflexivity|].
  rewrite !append_cons. now rewrite IH.
Qed.

Lemma split_free (sep : ascii) (s : string) :
  Py.free_of sep s = true -> Py.split sep s = [s].
Proof.
  induction s as [|c s IH]; simpl; [reflexivity|].
  intros H. apply andb_true_iff in H as [Hc Hs].
  apply negb_true_iff in Hc. rewrite Hc, (IH Hs). reflexivity.
Qed.

Lemma split_app_sep (sep : ascii) (s t : string) :
  Py.free_of sep s = true ->
  Py.split sep (s +:+ String sep t) = s :: Py.split sep t.
Proof.
  induction s as [|c s IH]; intros H.
  - rewrite append_nil_l. simpl. now rewrite Ascii.eqb_refl.
  - simpl in H. apply andb_true_iff in H as [Hc Hs].
    apply negb_true_iff in Hc.
    rewrite append_cons. simpl. rewrite Hc, (IH Hs). reflexivity.
Qed.

Lemma no_space_free_of_space (s : string) :
  Py.no_space s = true -> Py.free_of " " s = true.
Proof.
  induction s as [|c s IH]; simpl; [reflexivity|].
  intros H. apply andb_true_iff in H as [Hc Hs].
  rewrite (IH Hs), andb_true_r. apply negb_true_iff in Hc.
  apply negb_true_iff. destruct (Ascii.eqb c " ") eqn:E; [|reflexivity].
  apply Ascii.eqb_eq in E. subst c. discriminate Hc.
Qed.

Lemma no_space_app (s t : string) :
  Py.no_space (s +:+ t) = Py.no_space s && Py.no_space t.
Proof.
  induction s as [|c s IH]; [reflexivity|].
  rewrite append_cons. simpl. rewrite IH. apply andb_assoc.
Qed.

Lemma lstrip_no_space (s : string) :
  s <> EmptyString -> Py.no_space s = true ->
  forall t, Py.lstrip (s +:+ t) = s +:+ t.
Proof.
  destruct s as [|c s]; [congruence|]. simpl. intros _ H t.
  apply andb_true_iff in H as [Hc _]. apply negb_true_iff in Hc.
  rewrite append_cons. simpl. now rewrite Hc.
Qed.

Lemma rstrip_no_space_tail (t : string) :
  t <> EmptyString -> Py.no_space t = true ->
  Py.rstrip (t +:+ newline) = t.
Proof.
  induction t as [|c t IH]; [congruence|]. intros _ H.
  simpl in H. apply andb_true_iff in H as [Hc Ht].
  apply negb_true_iff in Hc. rewrite append_cons.
  destruct t as [|d t].
  - rewrite append_nil_l. simpl. now rewrite Hc.
  - cbn [Py.rstrip]. rewrite IH by (congruence || exact Ht). reflexivity.
Qed.

Lemma rstrip_app_no_space (s t : string) :
  t <> EmptyString -> Py.no_space t = true ->
  Py.rstrip (s +:+ t +:+ newline) = s +:+ t.
Proof.
  intros Hne Hns. induction s as [|c s IH].
  - rewrite !append_nil_l. now apply rstrip_no_space_tail.
  - rewrite !append_cons. cbn [Py.rstrip]. rewrite IH.
    destruct (s +:+ t) eqn:E; [|reflexivity].
    destruct s; [rewrite append_nil_l in E; congruence | discriminate E].
Qed.

End StringFacts.

(** ** The tags spaCy hands back *)

Section RawTags.

Lemma foldl_preserves {A B : Type} (P : A -> Prop) (f : A -> B -> A)
    (l : list B) (a : A) :
  (forall a x, In x l -> P a -> P (f a x)) -> P a -> P (foldl f a l).
Proof.
  revert a. induction l as [|x l IH]; intros a Hf Ha; simpl; [exact Ha|].
  apply IH.
  - intros a' y Hy. apply Hf. now right.
  - apply Hf; [now left | exact Ha].
Qed.


Lemma raw_tag_ok_prefixed (labels : list string) (p label : string) :
  In p ["U-"; "B-"; "I-"; "L-"] -> In label labels ->
  raw_tag_ok labels (p +:+ label).
Proof. intros Hp Hl. right. right. now exists p, label. Qed.

Lemma paint_entity_length st en biluo e :
  length (Spacy.paint_entity st en biluo e) = length biluo.
Proof.
  destruct e as [[s e] label]. unfold Spacy.paint_entity.
  destruct (st !! s) as [a|]; [|reflexivity].
  destruct (en !! e) as [b|]; [|reflexivity].
  destruct (decide (a = b)).
  - apply length_insert.
  - rewrite length_insert.
    apply (foldl_preserves (fun l => length l = length biluo)).
    + intros l i _ Hl. now rewrite length_insert.
    + apply length_insert.
Qed.

Lemma paint_entity_Forall (P : string -> Prop) st en biluo e :
  (forall p, In p ["U-"; "B-"; "I-"; "L-"] -> P (p +:+ e.2)) ->
  Forall P biluo -> Forall P (Spacy.paint_entity st en biluo e).
Proof.
  destruct e as [[s e] label]. simpl. intros Hl Hb. unfold Spacy.paint_entity.
  destruct (st !! s) as [a|]; [|exact Hb].
  destruct (en !! e) as [b|]; [|exact Hb].
  destruct (decide (a = b)).
  - apply Forall_insert; [exact Hb|]. apply Hl. simpl. auto.
  - apply Forall_insert; [|apply Hl; simpl; auto].
    apply (foldl_preserves (Forall P)).
    + intros l i _ Hl'. apply Forall_insert; [exact Hl'|].
      apply Hl. simpl. auto.
    + apply Forall_insert; [exact Hb|]. apply Hl. simpl. auto.
Qed.

Lemma paint_entity_ok labels st en biluo e :
  In e.2 labels ->
  Forall (raw_tag_ok labels) biluo ->
  Forall (raw_tag_ok labels) (Spacy.paint_entity st en biluo e).
Proof.
  intros Hl. apply paint_entity_Forall.
  intros p Hp. now apply raw_tag_ok_prefixed.
Qed.

(** The first loop writes no ["O"]. *)
Lemma painted_not_O (doc : Doc) (entities : list Entity) :
  Forall (fun tag => tag <> "O")
    (foldl (Spacy.paint_entity (Spacy.starts doc) (Spacy.ends doc))
       (replicate (length doc) "-") entities).
Proof.
  apply (foldl_preserves (Forall (fun tag => tag <> "O"))).
  - intros l e _ Hl. apply paint_entity_Forall; [|exact Hl].
    simpl. intros p [<-|[<-|[<-|[<-|[]]]]]; discriminate.
  - apply Forall_replicate. discriminate.
Qed.

Lemma mark_outside_length chars missing biluo it :
  length (Spacy.mark_outside chars missing biluo it) = length biluo.
Proof.
  unfold Spacy.mark_outside. destruct (Spacy.token_covered _ _);
    [reflexivity | apply length_insert].
Qed.

Lemma biluo_tags_length (doc : Doc) (entities : list Entity) :
  length (Spacy.biluo_tags_from_offsets doc entities) = length doc.
Proof.
  unfold Spacy.biluo_tags_from_offsets.
  apply (foldl_preserves (fun l => length l = length doc)).
  - intros l it _ Hl. now rewrite mark_outside_length.
  - apply (foldl_preserves (fun l => length l = length doc)).
    + intros l e _ Hl. now rewrite paint_entity_length.
    + apply length_replicate.
Qed.

Lemma biluo_tags_ok (doc : Doc) (entities : list Entity) :
  Forall (raw_tag_ok (map snd entities))
    (Spacy.biluo_tags_from_offsets doc entities).
Proof.
  unfold Spacy.biluo_tags_from_offsets.
  apply (foldl_preserves (Forall (raw_tag_ok (map snd entities)))).
  - intros l it _ Hl. unfold Spacy.mark_outside.
    destruct (Spacy.token_covered _ _); [exact Hl|].
    apply Forall_insert; [exact Hl|]. right. now left.
  - apply (foldl_preserves (Forall (raw_tag_ok (map snd entities)))).
    + intros l e He Hl. apply paint_entity_ok; [|exact Hl].
      now apply in_map.
    + apply Forall_replicate. now left.
Qed.

End RawTags.

(** ** The tag map and the written lines *)

Section TagsAndLines.

Variable nlp : string -> Doc.

Lemma outside_tag_O entity : outside_tag entity "O" = "O-" +:+ entity.
Proof. reflexivity. Qed.

Lemma outside_tag_dash entity : outside_tag entity "-" = "O-" +:+ entity.
Proof. reflexivity. Qed.

Lemma outside_tag_prefixed entity p label :
  In p ["U-"; "B-"; "I-"; "L-"] ->
  outside_tag entity (p +:+ label) = p +:+ label.
Proof.
  simpl. intros [<-|[<-|[<-|[<-|[]]]]]; reflexivity.
Qed.

Lemma outside_tag_not_bare entity tag : outside_tag entity tag <> "O".
Proof.
  unfold outside_tag.
  destruct (Py.startswith tag "O") eqn:E; simpl.
  - discriminate.
  - destruct (String.eqb tag "-"); [discriminate|].
    intros ->. discriminate E.
Qed.

Lemma bilou_tags_length text annotations entity :
  length (bilou_tags nlp text annotations entity) = length (nlp text).
Proof.
  unfold bilou_tags. rewrite length_map. apply biluo_tags_length.
Qed.

(** What the loop of lines 121-124 computes. *)
Lemma bilou_lines_loop (l : list (Token * string)) (acc : list string) :
  foldl (fun bilou_lines '(token, tag) =>
           if negb (is_space token)
           then bilou_lines ++ [bilou_line token tag]
           else bilou_lines) acc l
  = acc ++ map (fun p => bilou_line p.1 p.2)
             (List.filter (fun p => negb (is_space p.1)) l).
Proof.
  revert acc. induction l as [|[token tag] l IH]; intros acc; simpl.
  - now rewrite app_nil_r.
  - rewrite IH. destruct (is_space token); simpl; [reflexivity|].
    now rewrite <- app_assoc.
Qed.

Lemma get_bilou_lines_eq text annotations entity :
  _get_bilou_lines_for_entity nlp text annotations entity
  = map (fun p => bilou_line p.1 p.2)
      (List.filter (fun p => negb (is_space p.1))
         (zip (nlp text) (bilou_tags nlp text annotations entity))).
Proof. unfold _get_bilou_lines_for_entity. now rewrite bilou_lines_loop. Qed.

Lemma filter_zip_fst {A B : Type} (f : A -> bool) (l : list A) (k : list B) :
  length k = length l ->
  map fst (List.filter (fun p => f p.1) (zip l k)) = List.filter f l.
Proof.
  revert k. induction l as [|x l IH]; intros [|y k] Hlen; simpl in *;
    try discriminate; [reflexivity|].
  destruct (f x); simpl; rewrite IH by lia; reflexivity.
Qed.

End TagsAndLines.

Section LineFormat.

Variable nlp : string -> Doc.

Lemma In_zip {A B : Type} (l : list A) (k : list B) (x : A) (y : B) :
  In (x, y) (zip l k) -> In x l /\ In y k.
Proof.
  revert k. induction l as [|a l IH]; intros [|b k]; simpl; try tauto.
  intros [[= -> ->]|H]; [tauto|]. apply IH in H. tauto.
Qed.

(** A tag of [bilou_tags] is not empty and has no whitespace when the
    entity type and the labels of the annotations have none. *)
Lemma bilou_tag_clean text annotations entity tag :
  Py.no_space entity = true ->
  Forall (fun a => Py.no_space (ann_tag a) = true) annotations ->
  In tag (bilou_tags nlp text annotations entity) ->
  tag <> EmptyString /\ Py.no_space tag = true.
Proof.
  intros Hent Hanns Hin. unfold bilou_tags in Hin.
  apply in_map_iff in Hin as (raw & <- & Hraw).
  pose proof (biluo_tags_ok (nlp text) (entities_of annotations)) as Hok.
  rewrite List.Forall_forall in Hok. specialize (Hok raw Hraw).
  destruct Hok as [->|[->|(p & label & Hp & Hl & ->)]].
  - rewrite outside_tag_dash. split; [discriminate|].
    rewrite no_space_app. now rewrite Hent.
  - rewrite outside_tag_O. split; [discriminate|].
    rewrite no_space_app. now rewrite Hent.
  - rewrite outside_tag_prefixed by exact Hp.
    unfold entities_of in Hl. rewrite map_map in Hl. simpl in Hl.
    apply in_map_iff in Hl as (a & <- & Ha).
    rewrite List.Forall_forall in Hanns. specialize (Hanns a Ha).
    simpl in Hp.
    destruct Hp as [<-|[<-|[<-|[<-|[]]]]];
      (split; [discriminate | rewrite no_space_app; now rewrite Hanns]).
Qed.

Lemma bilou_line_unfold token tag :
  bilou_line token tag
  = text token +:+ " " +:+ tag +:+ " " +:+ tag +:+ " " +:+ tag.
Proof. reflexivity. Qed.

Lemma bilou_line_columns token tag :
  Py.no_space (text token) = true -> Py.no_space tag = true ->
  Py.split " " (bilou_line token tag) = [text token; tag; tag; tag].
Proof.
  intros Hw Ht. rewrite bilou_line_unfold.
  apply no_space_free_of_space in Hw. apply no_space_free_of_space in Ht.
  change (" " +:+ ?s) with (String " " s).
  rewrite (split_app_sep _ _ _ Hw).
  change (" " +:+ ?s) with (String " " s).
  rewrite (split_app_sep _ _ _ Ht).
  change (" " +:+ ?s) with (String " " s).
  rewrite (split_app_sep _ _ _ Ht).
  now rewrite (split_free _ _ Ht).
Qed.

Lemma bilou_line_strip token tag :
  text token <> EmptyString -> Py.no_space (text token) = true ->
  tag <> EmptyString -> Py.no_space tag = true ->
  Py.strip (bilou_line token tag +:+ newline) = bilou_line token tag.
Proof.
  intros Hw Hws Ht Hts. unfold Py.strip. rewrite bilou_line_unfold.
  rewrite !append_assoc.
  rewrite (lstrip_no_space _ Hw Hws).
  rewrite <- !append_assoc.
  rewrite (append_assoc _ tag newline).
  now rewrite rstrip_app_no_space.
Qed.

End LineFormat.

(** C10.  Every line emitted by the per-entity conversion is the token,
    then the same tag three times, separated by single spaces.  When no
    emitted token, annotation label or entity type contains whitespace,
    splitting the line at spaces gives exactly these four columns, and
    the unpacking [merge_files] performs on the stripped line succeeds
    with the word and the three tag columns. *)
Theorem bilou_lines_four_columns (nlp : string -> Doc)
    (txt : string) (annotations : list Annotation) (entity : string) :
  Forall (fun token => is_space token = false ->
            text token <> EmptyString /\ Py.no_space (text token) = true)
         (nlp txt) ->
  Py.no_space entity = true ->
  Forall (fun a => Py.no_space (ann_tag a) = true) annotations ->
  Forall (fun line =>
            exists token tag,
              In token (nlp txt) /\ is_space token = false
              /\ In tag (bilou_tags nlp txt annotations entity)
              /\ line = text token +:+ " " +:+ tag +:+ " " +:+ tag
                          +:+ " " +:+ tag
              /\ Py.split " " line = [text token; tag; tag; tag]
              /\ unpack4 (Py.split " " (Py.strip (line +:+ newline)))
                 = Ok (text token, tag, tag, tag))
         (_get_bilou_lines_for_entity nlp txt annotations entity).
Proof.
  intros Htok Hent Hanns. rewrite get_bilou_lines_eq.
  apply List.Forall_forall. intros line Hin.
  apply in_map_iff in Hin as ([token tag] & <- & Hin). simpl.
  apply filter_In in Hin as [Hin Hsp]. simpl in Hsp.
  apply negb_true_iff in Hsp. apply In_zip in Hin as [Hdoc Htag].
  rewrite List.Forall_forall in Htok.
  destruct (Htok token Hdoc Hsp) as [Hw Hws].
  destruct (bilou_tag_clean nlp txt annotations entity tag Hent Hanns Htag)
    as [Ht Hts].
  exists token, tag. repeat split; try assumption.
  - now apply bilou_line_columns.
  - rewrite bilou_line_strip by assumption.
    now rewrite bilou_line_columns.
Qed.

(** ** Which tokens get the outside tag *)

Section OutsideTokens.


Lemma entity_chars_fold (entities : list Entity) (acc : gset Z) (c : Z) :
  c ∈ foldl (fun s '(start_char, end_char, _) =>
               s ∪ list_to_set (seqZ start_char (end_char - start_char)))
            acc entities
  <-> c ∈ acc
      \/ exists s e label, In (s, e, label) entities /\ (s <= c < e)%Z.
Proof.
  revert acc. induction entities as [|[[s e] label] ents IH]; intros acc; simpl.
  - split; [now left | intros [H|(? & ? & ? & [] & _)]; exact H].
  - rewrite IH, elem_of_union, elem_of_list_to_set, elem_of_seqZ. split.
    + intros [[H|H]|(s' & e' & l' & Hin & Hc)].
      * now left.
      * right. exists s, e, label. split; [now left | lia].
      * right. exists s', e', l'. split; [now right | exact Hc].
    + intros [H|(s' & e' & l' & [Heq|Hin] & Hc)].
      * left. now left.
      * injection Heq as -> -> ->. left. right. lia.
      * right. now exists s', e', l'.
Qed.

Lemma entity_chars_spec (entities : list Entity) (c : Z) :
  c ∈ Spacy.entity_chars entities
  <-> exists s e label, In (s, e, label) entities /\ (s <= c < e)%Z.
Proof.
  unfold Spacy.entity_chars. rewrite entity_chars_fold. split.
  - intros [H|H]; [|exact H]. now apply not_elem_of_empty in H.
  - intros H. now right.
Qed.

Lemma token_covered_spec (entities : list Entity) (t : Token) :
  Spacy.token_covered (Spacy.entity_chars entities) t = true
  <-> overlaps entities t.
Proof.
  unfold Spacy.token_covered, overlaps, token_end.
  rewrite existsb_exists. split.
  - intros (c & Hin & Hc). apply bool_decide_eq_true in Hc.
    apply list_elem_of_In, elem_of_seqZ in Hin.
    apply entity_chars_spec in Hc as (s & e & label & He & Hse).
    exists c, s, e, label. auto.
  - intros (c & s & e & label & He & Hse & Ht). exists c. split.
    + apply list_elem_of_In, elem_of_seqZ. exact Ht.
    + apply bool_decide_eq_true, entity_chars_spec. now exists s, e, label.
Qed.

(** The second loop of [biluo_tags_from_offsets], position by
    position. *)
Lemma mark_outside_lookup (chars : gset Z) (missing : string) (doc : Doc)
    (biluo : list string) (j : nat) :
  foldl (Spacy.mark_outside chars missing) biluo (imap pair doc) !! j
  = match doc !! j with
    | Some t =>
        if Spacy.token_covered chars t then biluo !! j
        else (fun _ => missing) <$> biluo !! j
    | None => biluo !! j
    end.
Proof.
  revert j. induction doc as [|t doc IH] using rev_ind; intros j.
  - reflexivity.
  - rewrite imap_app, foldl_app. simpl. rewrite Nat.add_0_r.
    set (r := foldl _ biluo (imap pair doc)) in *.
    assert (Hlen : length r = length biluo).
    { subst r. apply (foldl_preserves (fun l => length l = length biluo));
        [|reflexivity].
      intros l it _ Hl. now rewrite mark_outside_length. }
    unfold Spacy.mark_outside at 1. simpl.
    destruct (decide (j = length doc)) as [->|Hne].
    + rewrite lookup_app_r, Nat.sub_diag by lia. simpl.
      specialize (IH (length doc)).
      rewrite (lookup_ge_None_2 doc (length doc)) in IH by lia.
      destruct (Spacy.token_covered chars t); [exact IH|].
      rewrite list_lookup_insert, <- IH.
      destruct (decide _) as [[_ Hlt]|Hge].
      * destruct (r !! length doc) eqn:E; [reflexivity|].
        apply lookup_ge_None in E. lia.
      * rewrite (lookup_ge_None_2 r) by lia. reflexivity.
    + assert (Hj : (doc ++ [t]) !! j = doc !! j).
      { destruct (decide (j < length doc)).
        - now rewrite lookup_app_l.
        - rewrite !lookup_ge_None_2; [reflexivity| |]; 
            rewrite ?length_app; simpl; lia. }
      rewrite Hj, <- IH.
      destruct (Spacy.token_covered chars t); [reflexivity|].
      now rewrite list_lookup_insert_ne by congruence.
Qed.

Lemma biluo_tags_outside (doc : Doc) (entities : list Entity) (i : nat)
    (t : Token) :
  doc !! i = Some t -> ~ overlaps entities t ->
  Spacy.biluo_tags_from_offsets doc entities !! i = Some "O".
Proof.
  intros Hi Hno. unfold Spacy.biluo_tags_from_offsets.
  rewrite mark_outside_lookup, Hi.
  destruct (Spacy.token_covered _ t) eqn:E.
  - apply token_covered_spec in E. contradiction.
  - set (b := foldl _ _ entities).
    assert (Hlen : length b = length doc).
    { subst b. apply (foldl_preserves (fun l => length l = length doc)).
      - intros l e _ Hl. now rewrite paint_entity_length.
      - apply length_replicate. }
    destruct (b !! i) eqn:Eb; [reflexivity|].
    apply lookup_ge_None in Eb. apply lookup_lt_Some in Hi. lia.
Qed.

Lemma biluo_tags_covered (doc : Doc) (entities : list Entity) (i : nat)
    (t : Token) (tag : string) :
  doc !! i = Some t -> overlaps entities t ->
  Spacy.biluo_tags_from_offsets doc entities !! i = Some tag ->
  tag = "-"
  \/ exists p label,
       In p ["U-"; "B-"; "I-"; "L-"] /\ In label (map snd entities)
       /\ tag = p +:+ label.
Proof.
  intros Hi Hov. unfold Spacy.biluo_tags_from_offsets.
  rewrite mark_outside_lookup, Hi.
  apply token_covered_spec in Hov. rewrite Hov.
  set (b := foldl _ _ entities). intros Hb.
  assert (Hok : Forall (raw_tag_ok (map snd entities)) b).
  { subst b. apply (foldl_preserves (Forall (raw_tag_ok (map snd entities)))).
    - intros l e He Hl. apply paint_entity_ok; [|exact Hl]. now apply in_map.
    - apply Forall_replicate. now left. }
  rewrite Forall_lookup in Hok. specialize (Hok i tag Hb).
  destruct Hok as [->|[->|H]]; [now left| |now right].
  pose proof (painted_not_O doc entities) as Hno.
  rewrite Forall_lookup in Hno. now specialize (Hno i _ Hb).
Qed.

End OutsideTokens.

Lemma bilou_tags_lookup (nlp : string -> Doc) (txt : string)
    (annotations : list Annotation) (entity : string) (i : nat) :
  bilou_tags nlp txt annotations entity !! i
  = outside_tag entity
      <$> Spacy.biluo_tags_from_offsets (nlp txt) (entities_of annotations) !! i.
Proof.
  unfold bilou_tags.
  change (map ?f ?l) with (f <$> l). apply list_lookup_fmap.
Qed.

(** C2.  One tag is assigned per token.  A token that overlaps no
    annotation interval gets ["O-" + entity]; so does a token spaCy marks
    ["-"] because its alignment with the annotation boundaries fails; no
    token ever gets the bare ["O"].  A token that overlaps an annotation
    either is such an alignment failure or keeps, unchanged, the B, I, L
    or U tag spaCy gave it. *)
Theorem outside_tokens_get_entity_tag (nlp : string -> Doc) (txt : string)
    (annotations : list Annotation) (entity : string) :
  let doc := nlp txt in
  let raw := Spacy.biluo_tags_from_offsets doc (entities_of annotations) in
  let tags := bilou_tags nlp txt annotations entity in
  length tags = length doc
  /\ (forall i tag, tags !! i = Some tag -> tag <> "O")
  /\ (forall i token,
        doc !! i = Some token ->
        ~ overlaps (entities_of annotations) token ->
        tags !! i = Some ("O-" +:+ entity))
  /\ (forall i, raw !! i = Some "-" -> tags !! i = Some ("O-" +:+ entity))
  /\ (forall i token tag,
        doc !! i = Some token ->
        overlaps (entities_of annotations) token ->
        tags !! i = Some tag ->
        (raw !! i = Some "-" /\ tag = "O-" +:+ entity)
        \/ (exists p label,
              In p ["U-"; "B-"; "I-"; "L-"]
              /\ In label (map ann_tag annotations)
              /\ raw !! i = Some (p +:+ label) /\ tag = p +:+ label)).
Proof.
  intros doc raw tags. subst doc raw tags. repeat split.
  - apply bilou_tags_length.
  - intros i tag Hi. rewrite bilou_tags_lookup in Hi.
    destruct (_ !! i) as [r|]; [|discriminate]. injection Hi as <-.
    apply outside_tag_not_bare.
  - intros i token Hi Hno. rewrite bilou_tags_lookup.
    now rewrite (biluo_tags_outside _ _ _ _ Hi Hno).
  - intros i Hi. rewrite bilou_tags_lookup. now rewrite Hi.
  - intros i token tag Hi Hov Htag.
    rewrite bilou_tags_lookup in Htag.
    destruct (Spacy.biluo_tags_from_offsets _ _ !! i) as [r|] eqn:Er;
      [|discriminate].
    injection Htag as <-.
    destruct (biluo_tags_covered _ _ i token r Hi Hov Er)
      as [->|(p & label & Hp & Hl & ->)].
    + left. split; reflexivity.
    + right. exists p, label. repeat split; try assumption.
      * unfold entities_of in Hl. now rewrite map_map in Hl.
      * now apply outside_tag_prefixed.
Qed.

(** ** Sentence-wise mode *)

Section SentenceWise.

Variable nlp : string -> Doc.


Lemma lines_of_cons token tag doc tags :
  lines_of (token :: doc) (tag :: tags)
  = (if is_space token then [] else [bilou_line token tag])
      ++ lines_of doc tags.
Proof. unfold lines_of. simpl. now destruct (is_space token). Qed.

(** While no token starts a sentence the loop only appends to the one
    list it began with. *)
Lemma sentence_loop_no_start (doc : Doc) (tags : list string)
    (sent : list string) :
  Forall (fun t => is_sent_start t = false) doc ->
  foldl sentence_step (mkSentState [sent] [] 0) (zip tags doc)
  = mkSentState [sent ++ lines_of doc tags] [] 0.
Proof.
  revert tags sent. induction doc as [|token doc IH]; intros tags sent Hns.
  - destruct tags; simpl; now rewrite app_nil_r.
  - destruct tags as [|tag tags]; [simpl; now rewrite app_nil_r|].
    inversion Hns as [|? ? Htok Hrest]; subst.
    simpl. rewrite Htok. rewrite lines_of_cons.
    destruct (is_space token); simpl.
    + now apply IH.
    + rewrite IH by exact Hrest. now rewrite <- app_assoc.
Qed.

Lemma sents_from_no_start (cur rest : list Token) :
  Forall (fun t => is_sent_start t = false) rest ->
  sents_from cur rest = [cur ++ rest].
Proof.
  revert cur. induction rest as [|t rest IH]; intros cur Hns; simpl.
  - now rewrite app_nil_r.
  - inversion Hns as [|? ? Ht Hrest]; subst. rewrite Ht.
    rewrite IH by exact Hrest. now rewrite <- app_assoc.
Qed.

Lemma sentence_wise_single (txt : string) (annotations : list Annotation)
    (entity_type : string) (doc0 : Token) (rest : list Token) :
  nlp txt = doc0 :: rest ->
  Forall (fun t => is_sent_start t = false) rest ->
  sentence_wise_state nlp txt annotations entity_type
  = Ok (mkSentState
          [lines_of (nlp txt) (bilou_tags nlp txt annotations entity_type)]
          [0] 0).
Proof.
  intros Hdoc Hns. unfold sentence_wise_state.
  pose proof (bilou_tags_length nlp txt annotations entity_type) as Hlen.
  rewrite Hdoc in *.
  destruct (bilou_tags nlp txt annotations entity_type) as [|tag0 tags];
    [discriminate Hlen|].
  simpl tail. rewrite lines_of_cons.
  destruct (is_space doc0); simpl negb; cbv iota; unfold bind.
  - rewrite sentence_loop_no_start by exact Hns. simpl.
    now rewrite sents_from_no_start by exact Hns.
  - rewrite sentence_loop_no_start by exact Hns. simpl.
    now rewrite sents_from_no_start by exact Hns.
Qed.

End SentenceWise.

(** C8.  When the document has a first token and no later token starts
    a sentence, sentence-wise mode returns exactly one sentence.  Its
    lines are those of plain mode: one line per token that is not
    whitespace, in document order. *)
Theorem sentence_wise_one_sentence (nlp : string -> Doc)
    (ignore_warning : bool) (ann_file : string -> list string)
    (txt_first_line : string -> string) (file_id entity_type : string)
    (annotations : list Annotation) (log : list string)
    (doc0 : Token) (rest : list Token) :
  let txt := get_text_from_fileid txt_first_line file_id in
  _get_annotations_for_entity ignore_warning ann_file file_id entity_type
    = (Ok annotations, log) ->
  nlp txt = doc0 :: rest ->
  Forall (fun t => is_sent_start t = false) rest ->
  exists sentence,
    get_sentence_wise_bilou_lines nlp ignore_warning ann_file txt_first_line
      file_id entity_type = (Ok [sentence], log)
    /\ sentence = _get_bilou_lines_for_entity nlp txt annotations entity_type
    /\ sentence
       = map (fun p => bilou_line p.1 p.2)
           (List.filter (fun p => negb (is_space p.1))
              (zip (nlp txt) (bilou_tags nlp txt annotations entity_type)))
    /\ map fst
         (List.filter (fun p => negb (is_space p.1))
            (zip (nlp txt) (bilou_tags nlp txt annotations entity_type)))
       = List.filter (fun t => negb (is_space t)) (nlp txt).
Proof.
  intros txt Hann Hdoc Hns.
  exists (lines_of (nlp txt) (bilou_tags nlp txt annotations entity_type)).
  repeat split.
  - unfold get_sentence_wise_bilou_lines. rewrite Hann. fold txt.
    now rewrite (sentence_wise_single nlp txt _ _ doc0 rest Hdoc Hns).
  - now rewrite get_bilou_lines_eq.
  - apply (filter_zip_fst (fun t => negb (is_space t))).
    apply bilou_tags_length.
Qed.

(** X1.  Plain mode: one tag per token, and the lines are those of the
    tokens that are not whitespace, in document order. *)
Lemma plain_mode_lines (nlp : string -> Doc) (txt : string)
    (annotations : list Annotation) (entity : string) :
  let doc := nlp txt in
  let tags := bilou_tags nlp txt annotations entity in
  length tags = length doc
  /\ _get_bilou_lines_for_entity nlp txt annotations entity
     = map (fun p => bilou_line p.1 p.2)
         (List.filter (fun p => negb (is_space p.1)) (zip doc tags))
  /\ map fst (List.filter (fun p => negb (is_space p.1)) (zip doc tags))
     = List.filter (fun t => negb (is_space t)) doc.
Proof.
  intros doc tags. subst doc tags. repeat split.
  - apply bilou_tags_length.
  - apply get_bilou_lines_eq.
  - apply (filter_zip_fst (fun t => negb (is_space t))).
    apply bilou_tags_length.
Qed.

(** C1.  On the document ["Hi  there"], whose whitespace token starts a
    sentence, plain mode emits the two lines of ["Hi"] and ["there"],
    while sentence-wise mode returns the same list object twice, so
    that both lines are emitted twice.  On an empty document plain mode
    emits no line and sentence-wise mode raises [IndexError]. *)
Theorem sentence_wise_repeats_lines :
  fst (get_bilou_lines_for_entity nlp_ex false ann_ex txt_ex "ws" "Task")
    = Ok ["Hi O-Task O-Task O-Task"; "there O-Task O-Task O-Task"]
  /\ sentence_wise_state nlp_ex "Hi  there" [] "Task"
     = Ok (mkSentState
             [["Hi O-Task O-Task O-Task"; "there O-Task O-Task O-Task"]]
             [0; 0] 0)
  /\ fst (get_sentence_wise_bilou_lines nlp_ex false ann_ex txt_ex "ws" "Task")
     = Ok [["Hi O-Task O-Task O-Task"; "there O-Task O-Task O-Task"];
           ["Hi O-Task O-Task O-Task"; "there O-Task O-Task O-Task"]]
  /\ fst (get_bilou_lines_for_entity nlp_ex false ann_ex txt_ex "empty" "Task")
     = Ok []
  /\ fst (get_sentence_wise_bilou_lines nlp_ex false ann_ex txt_ex
            "empty" "Task")
     = Raise IndexError.
Proof. vm_compute. repeat split. Qed.

Lemma sentence_wise_one_sentence_witness :
  exists sentence,
    get_sentence_wise_bilou_lines nlp_ex false ann_ex txt_ex "ai" "Task"
      = (Ok [sentence], [])
    /\ sentence = _get_bilou_lines_for_entity nlp_ex "AI is useful."
                    ann_ai "Task"
    /\ sentence
       = map (fun p => bilou_line p.1 p.2)
           (List.filter (fun p => negb (is_space p.1))
              (zip (nlp_ex "AI is useful.")
                 (bilou_tags nlp_ex "AI is useful." ann_ai "Task")))
    /\ map fst
         (List.filter (fun p => negb (is_space p.1))
            (zip (nlp_ex "AI is useful.")
               (bilou_tags nlp_ex "AI is useful." ann_ai "Task")))
       = List.filter (fun t => negb (is_space t)) (nlp_ex "AI is useful.").
Proof.
  apply (sentence_wise_one_sentence nlp_ex false ann_ex txt_ex "ai" "Task"
           ann_ai [] (mkToken "AI" 0 false true)
           [mkToken "is" 3 false false; mkToken "useful" 6 false false;
            mkToken "." 12 false false]).
  - vm_compute. reflexivity.
  - vm_compute. reflexivity.
  - repeat constructor.
Defined.

Lemma bilou_lines_four_columns_witness :
  Forall (fun line =>
            exists token tag,
              In token (nlp_ex "AI is useful.") /\ is_space token = false
              /\ In tag (bilou_tags nlp_ex "AI is useful." ann_ai "Task")
              /\ line = text token +:+ " " +:+ tag +:+ " " +:+ tag
                          +:+ " " +:+ tag
              /\ Py.split " " line = [text token; tag; tag; tag]
              /\ unpack4 (Py.split " " (Py.strip (line +:+ newline)))
                 = Ok (text token, tag, tag, tag))
         (_get_bilou_lines_for_entity nlp_ex "AI is useful." ann_ai "Task").
Proof.
  apply bilou_lines_four_columns.
  - change (nlp_ex "AI is useful.") with doc_ai. unfold doc_ai.
    repeat (apply List.Forall_cons;
            [intros _; split; [discriminate | reflexivity] |]).
    apply List.Forall_nil.
  - reflexivity.
  - apply List.Forall_cons; [reflexivity | apply List.Forall_nil].
Defined.

(** ** The annotation loader *)

Section Loader.

Variable ignore_warning : bool.
Variables file_id entity : string.

Local Abbreviation skip_warnings :=
  (skip_warnings ignore_warning file_id entity).

Lemma unpack3_length {A : Type} (xs : list A) :
  (length xs =? 3) = true ->
  exists a b c, xs = [a; b; c].
Proof.
  destruct xs as [|a [|b [|c [|d xs]]]]; try discriminate.
  intros _. now exists a, b, c.
Qed.

Lemma unpack3_not_length {A : Type} (xs : list A) :
  (length xs =? 3) = false ->
  match xs with [_; _; _] => False | _ => True end.
Proof.
  destruct xs as [|a [|b [|c [|d xs]]]]; try exact (fun _ => I).
  discriminate.
Qed.

(** The loop, whether or not it meets a line whose offsets are not
    integers: it raises [ValueError] at the first such line; the
    warnings printed are those of the lines before it. *)
Lemma annotations_loop_general (lines : list string)
    (annotations : list Annotation) (log : list string) :
  annotations_loop ignore_warning file_id entity lines annotations log
  = (if existsb has_bad_offsets lines then Raise ValueError
     else Ok (annotations ++ omap (annotation_of entity) lines),
     log ++ skip_warnings (good_prefix lines)).
Proof.
  revert annotations log.
  induction lines as [|line lines IH]; intros annotations log.
  - unfold skip_warnings. simpl. rewrite !app_nil_r.
    destruct ignore_warning; now rewrite ?app_nil_r.
  - assert (Hnil : skip_warnings [] = []).
    { unfold skip_warnings. now destruct ignore_warning. }
    assert (Hskip :
      skip_warnings (line :: good_prefix lines)
      = (if is_bad_middle line
         then (if ignore_warning then []
               else [skipping_msg line file_id entity])
         else []) ++ skip_warnings (good_prefix lines)).
    { unfold skip_warnings. simpl.
      destruct (is_bad_middle line), ignore_warning; reflexivity. }
    cbn [annotations_loop omap list_omap existsb good_prefix].
    destruct (has_bad_offsets line) eqn:Hbad;
      [rewrite Hnil | rewrite Hskip]; clear Hskip Hnil;
      destruct (is_bad_middle line) eqn:Hmid;
      unfold annotation_of at 1;
      unfold has_bad_offsets in Hbad; unfold is_bad_middle in Hmid;
      unfold classify in *;
      (destruct (is_entity_line line) eqn:Egate;
       [|try discriminate; rewrite IH; reflexivity]);
      unfold is_entity_line in Egate;
      apply andb_true_iff in Egate as [_ Elen];
      apply unpack3_length in Elen as (entity_number & middle & words & Esplit);
      rewrite Esplit in *; cbn [unpack3];
      (destruct (length (Py.split_ws middle) =? 3) eqn:Emid;
       [ apply unpack3_length in Emid as (tag & start & end_ & Ews);
         rewrite Ews in *; cbn [negb unpack3];
         destruct (Py.int start) as [s|]; try discriminate;
         try (cbn [orb]; now rewrite app_nil_r);
         destruct (Py.int end_) as [e|]; try discriminate;
         try (cbn [orb]; now rewrite app_nil_r);
         cbn [ann_tag orb];
         destruct (String.eqb (Py.lower tag) (Py.lower entity));
         rewrite IH, <- ?app_assoc; reflexivity
       | cbn [negb]; rewrite IH;
         apply unpack3_not_length in Emid;
         unfold warn;
         destruct (Py.split_ws middle) as [|a [|b [|c [|d xs]]]];
         try contradiction; try discriminate; cbn [orb];
         destruct ignore_warning; cbn [negb];
         rewrite <- ?app_assoc; reflexivity ]).
Qed.

Lemma good_prefix_all (lines : list string) :
  Forall (fun line => has_bad_offsets line = false) lines ->
  existsb has_bad_offsets lines = false /\ good_prefix lines = lines.
Proof.
  induction 1 as [|line lines Hline _ [IH1 IH2]]; [split; reflexivity|].
  simpl. rewrite Hline, IH1, IH2. split; reflexivity.
Qed.

Lemma annotations_loop_spec (lines : list string)
    (annotations : list Annotation) (log : list string) :
  Forall (fun line => has_bad_offsets line = false) lines ->
  annotations_loop ignore_warning file_id entity lines annotations log
  = (Ok (annotations ++ omap (annotation_of entity) lines),
     log ++ skip_warnings lines).
Proof.
  intros Hok. rewrite annotations_loop_general.
  destruct (good_prefix_all lines Hok) as [-> ->]. reflexivity.
Qed.

End Loader.

(** C3 (amended).  In a file whose entity lines with a three-part middle
    field all carry integer offsets, the load returns.  A line that is
    not an entity line (its stripped form does not start with ["T"], or
    it does not have exactly three tab-separated fields) is skipped and
    nothing is printed for it; an entity line whose middle field does
    not split into exactly three parts is skipped, and a warning is
    printed for it unless warnings are ignored; loading continues after
    both.  The result holds, in file order, one annotation for every
    remaining line whose tag equals the requested entity type up to
    case. *)
Theorem loader_skips_and_continues (ignore_warning : bool)
    (ann_file : string -> list string) (file_id entity : string) :
  let lines := ann_file file_id in
  let annotations := omap (annotation_of entity) lines in
  Forall (fun line => has_bad_offsets line = false) lines ->
  _get_annotations_for_entity ignore_warning ann_file file_id entity
  = (Ok annotations,
     skip_warnings ignore_warning file_id entity lines
       ++ (if (length annotations =? 0) && negb ignore_warning
           then [zero_annotations_msg file_id entity] else [])).
Proof.
  intros lines annotations Hok. unfold _get_annotations_for_entity.
  fold lines. rewrite annotations_loop_spec by exact Hok.
  simpl. fold annotations. unfold warn.
  destruct (length annotations =? 0), ignore_warning; simpl;
    now rewrite ?app_nil_r.
Qed.

Lemma loader_skips_and_continues_witness :
  _get_annotations_for_entity false ann_ex "mixed" "Task"
  = (Ok [mkAnnotation 0 2 ("AI" +:+ newline) "T1" "Task";
         mkAnnotation 6 12 ("useful" +:+ newline) "T4" "TASK"],
     [skipping_msg (tabs ["T2"; "Task 3 5;6 12"; "is useful"]) "mixed"
        "Task"]).
Proof.
  apply (loader_skips_and_continues false ann_ex "mixed" "Task").
  repeat (apply List.Forall_cons; [reflexivity|]). apply List.Forall_nil.
Defined.

(** A line with two tab-separated fields is skipped with no warning,
    although warnings are shown; with warnings ignored, the line whose
    middle field has four parts is skipped with nothing printed; a line
    of three fields whose start offset is not an integer aborts the
    load, and the well-formed line after it is not returned. *)
Lemma loader_silent_skip_and_abort :
  _get_annotations_for_entity false ann_ex "relations" "Task"
    = (Ok [mkAnnotation 0 2 ("AI" +:+ newline) "T1" "Task"], [])
  /\ classify (tabs ["R1"; "Synonym-of T1 T2"]) = NotEntityLine
  /\ length (Py.split tab (tabs ["R1"; "Synonym-of T1 T2"])) = 2
  /\ _get_annotations_for_entity true ann_ex "mixed" "Task"
     = (Ok [mkAnnotation 0 2 ("AI" +:+ newline) "T1" "Task";
            mkAnnotation 6 12 ("useful" +:+ newline) "T4" "TASK"], [])
  /\ classify (tabs ["T2"; "Task 3 5;6 12"; "is useful"]) = BadMiddleField
  /\ _get_annotations_for_entity false ann_ex "offsets" "Task"
     = (Raise ValueError, [])
  /\ annotation_of "Task" (tabs ["T2"; "Task 0 2"; "AI"])
     = Some (mkAnnotation 0 2 ("AI" +:+ newline) "T2" "Task").
Proof. vm_compute. repeat split. Qed.

(** ** The stratified split *)

Section SelectFacts.

Context {A : Type} (d : A).

Lemma collect_getitem (xs : list A) (indices : list nat) :
  Forall (fun i => i < length xs) indices ->
  collect (getitem xs) indices = Ok (select d xs indices).
Proof.
  induction indices as [|i indices IH]; intros Hin; [reflexivity|].
  inversion Hin as [|? ? Hi Hrest]; subst.
  simpl. unfold getitem at 1.
  destruct (xs !! i) as [x|] eqn:E.
  - simpl. rewrite (IH Hrest). reflexivity.
  - apply lookup_ge_None in E. lia.
Qed.

Lemma select_length (xs : list A) (indices : list nat) :
  length (select d xs indices) = length indices.
Proof. unfold select. apply length_map. Qed.

Lemma select_app (xs : list A) (l k : list nat) :
  select d xs (l ++ k) = select d xs l ++ select d xs k.
Proof. unfold select. apply map_app. Qed.

Lemma select_seq (xs : list A) : select d xs (seq 0 (length xs)) = xs.
Proof.
  induction xs as [|x xs IH] using rev_ind; [reflexivity|].
  rewrite length_app, Nat.add_comm. simpl length.
  rewrite seq_S, select_app. simpl. f_equal.
  - transitivity (select d xs (seq 0 (length xs))); [|exact IH].
    unfold select. apply map_ext_in.
    intros i Hi. apply in_seq in Hi.
    now rewrite lookup_app_l by lia.
  - unfold select. simpl.
    now rewrite lookup_app_r, Nat.sub_diag by lia.
Qed.

Lemma select_select (xs : list A) (inner outer : list nat) :
  Forall (fun i => i < length inner) outer ->
  select d (select d xs inner) outer = select d xs (select 0 inner outer).
Proof.
  intros Hin. unfold select. rewrite map_map.
  apply map_ext_in. intros i Hi.
  rewrite List.Forall_forall in Hin. specialize (Hin i Hi).
  change (map ?f ?l) with (f <$> l). rewrite list_lookup_fmap.
  destruct (inner !! i) as [j|] eqn:E; [reflexivity|].
  apply lookup_ge_None in E. lia.
Qed.

End SelectFacts.

Lemma collect_dict_getitem (classname2idx : gmap string Z)
    (labels : list string) :
  Forall (fun label => is_Some (classname2idx !! label)) labels ->
  collect (dict_getitem classname2idx) labels
  = Ok (class_ids classname2idx labels).
Proof.
  induction labels as [|label labels IH]; intros Hin; [reflexivity|].
  inversion Hin as [|? ? [v Hv] Hrest]; subst.
  simpl. unfold dict_getitem at 1. rewrite Hv. simpl.
  now rewrite (IH Hrest).
Qed.


Lemma Forall_app_inv {A : Type} (P : A -> Prop) (l k : list A) :
  Forall P (l ++ k) -> Forall P l /\ Forall P k.
Proof. intros H. now apply List.Forall_app in H. Qed.

Lemma Forall_select_is_Some (classname2idx : gmap string Z)
    (labels : list string) (indices : list nat) :
  Forall (fun label => is_Some (classname2idx !! label)) labels ->
  Forall (fun i => i < length labels) indices ->
  Forall (fun label => is_Some (classname2idx !! label))
    (select EmptyString labels indices).
Proof.
  intros Hl Hi. unfold select. apply List.Forall_forall.
  intros label Hin. apply in_map_iff in Hin as (i & <- & Hin).
  rewrite List.Forall_forall in Hi. specialize (Hi i Hin).
  destruct (labels !! i) as [x|] eqn:E.
  - simpl. rewrite Forall_lookup in Hl. exact (Hl i x E).
  - apply lookup_ge_None in E. lia.
Qed.

Section SplitParts.

Lemma select_elem_of (xs indices : list nat) (x : nat) :
  Forall (fun i => i < length xs) indices ->
  x ∈ select 0 xs indices -> x ∈ xs.
Proof.
  intros Hb Hx. unfold select in Hx.
  change (map ?f ?l) with (f <$> l) in Hx.
  apply list_elem_of_fmap in Hx as (i & -> & Hi).
  rewrite List.Forall_forall in Hb.
  apply list_elem_of_In in Hi. specialize (Hb i Hi).
  destruct (lookup_lt_is_Some_2 xs i Hb) as [y Hy]. rewrite Hy. simpl.
  eapply list_elem_of_lookup_2; eassumption.
Qed.

Lemma select_NoDup (xs indices : list nat) :
  NoDup xs -> NoDup indices ->
  Forall (fun i => i < length xs) indices ->
  NoDup (select 0 xs indices).
Proof.
  intros Hxs Hi Hb. unfold select.
  change (map ?f ?l) with (f <$> l).
  apply NoDup_fmap_2_strong; [|exact Hi].
  intros i j Hini Hinj Heq.
  rewrite List.Forall_forall in Hb.
  apply list_elem_of_In in Hini, Hinj.
  destruct (lookup_lt_is_Some_2 xs i (Hb i Hini)) as [x Hx].
  destruct (lookup_lt_is_Some_2 xs j (Hb j Hinj)) as [y Hy].
  rewrite Hx, Hy in Heq. simpl in Heq. subst y.
  exact (NoDup_lookup xs i j x Hxs Hx Hy).
Qed.

Lemma NoDup_bounded_length (l : list nat) (n : nat) :
  NoDup l -> Forall (fun i => i < n) l -> length l <= n.
Proof.
  intros Hnd Hb. apply NoDup_ListNoDup in Hnd.
  assert (Hincl : incl l (seq 0 n)).
  { intros i Hi. rewrite List.Forall_forall in Hb.
    apply in_seq. specialize (Hb i Hi). lia. }
  pose proof (NoDup_incl_length Hnd Hincl) as H.
  now rewrite length_seq in H.
Qed.

End SplitParts.

(** C6 (amended).  Whenever both calls to the splitter return index
    lists that are in range and hold no index twice, neither within a
    list nor across the two lists of a call (as scikit-learn's do), the
    function returns the lines and labels at three lists of positions
    [train], [valid] and [test] of the input, and these are pairwise
    disjoint: no example is in two of them, or twice in one.  They cover
    every example exactly when neither call left a position out, that
    is when the two lists of the first call have [n] entries together
    and the two lists of the second call as many as there are positions
    in test+valid. *)
Theorem stratified_split_parts
    (float WordTokenizer CharacterTokenizer rng : Type)
    (one_minus : float -> float)
    (np_random_rand : nat -> rng -> list float * rng)
    (stratified_shuffle_split :
       float -> float -> Z -> list float -> list Z
       -> result (list nat * list nat))
    (self : BaseTextClassification float WordTokenizer CharacterTokenizer)
    (lines labels : list string) (classname2idx : gmap string Z) (g : rng)
    (train_indices test_valid_indices test_indices validation_indices
       : list nat) :
  let n := length lines in
  let train := train_indices in
  let valid := select 0 test_valid_indices validation_indices in
  let test := select 0 test_valid_indices test_indices in
  length labels = n ->
  Forall (fun label => is_Some (classname2idx !! label)) labels ->
  stratified_shuffle_split (test_size _ _ _ self) (train_size _ _ _ self)
    1729%Z (np_random_rand n g).1 (class_ids classname2idx labels)
    = Ok (train_indices, test_valid_indices) ->
  NoDup (train_indices ++ test_valid_indices) ->
  Forall (fun i => i < n) (train_indices ++ test_valid_indices) ->
  stratified_shuffle_split (validation_size _ _ _ self)
    (one_minus (validation_size _ _ _ self)) 1729%Z
    (np_random_rand (length test_valid_indices) (np_random_rand n g).2).1
    (class_ids classname2idx
       (select EmptyString labels test_valid_indices))
    = Ok (test_indices, validation_indices) ->
  NoDup (test_indices ++ validation_indices) ->
  Forall (fun i => i < length test_valid_indices)
    (test_indices ++ validation_indices) ->
  fst (get_train_valid_test_stratified_split float WordTokenizer
         CharacterTokenizer rng one_minus np_random_rand
         stratified_shuffle_split self lines labels classname2idx g)
  = Ok ((select EmptyString lines train, select EmptyString labels train),
        (select EmptyString lines valid, select EmptyString labels valid),
        (select EmptyString lines test, select EmptyString labels test))
  /\ NoDup (train ++ valid ++ test)
  /\ Forall (fun i => i < n) (train ++ valid ++ test)
  /\ ((forall i, i < n -> In i (train ++ valid ++ test))
      <-> length train_indices + length test_valid_indices = n
          /\ length test_indices + length validation_indices
             = length test_valid_indices).
Proof.
  intros n train valid test Hlen Hcls H1 N1 B1 H2 N2 B2.
  pose proof B1 as B1'. apply Forall_app_inv in B1' as [Btrain Btv].
  pose proof B2 as B2'. apply Forall_app_inv in B2' as [Btest Bvalid].
  apply NoDup_app in N1 as N1'. destruct N1' as (Ntrain & Dtv & Ntv).
  apply NoDup_app in N2 as N2'. destruct N2' as (Ntest & Dtest & Nvalid).
  assert (Hnd : NoDup (train ++ valid ++ test)).
  { subst train valid test. apply NoDup_app. split; [exact Ntrain|]. split.
    - intros x Hx Hin. apply elem_of_app in Hin as [Hin|Hin];
        apply select_elem_of in Hin; try assumption;
        exact (Dtv x Hx Hin).
    - rewrite <- select_app. apply select_NoDup; [exact Ntv | |].
      + apply NoDup_app. split; [exact Nvalid|]. split; [|exact Ntest].
        intros x Hx Hin. exact (Dtest x Hin Hx).
      + apply List.Forall_app. split; assumption. }
  assert (Hb : Forall (fun i => i < n) (train ++ valid ++ test)).
  { subst train valid test. rewrite <- select_app.
    apply List.Forall_app. split; [exact Btrain|].
    apply List.Forall_forall. intros x Hx. apply list_elem_of_In in Hx.
    apply select_elem_of in Hx;
      [|apply List.Forall_app; split; assumption].
    rewrite List.Forall_forall in Btv. apply Btv.
    now apply list_elem_of_In. }
  split; [|split; [exact Hnd | split; [exact Hb|]]].
  - unfold get_train_valid_test_stratified_split.
    fold n. rewrite Hlen, Nat.eqb_refl. cbn [negb].
    unfold mbind at 1. unfold rand at 1.
    destruct (np_random_rand n g) as [features g1] eqn:E1.
    simpl in H1, H2.
    unfold mbind at 1, lift at 1.
    rewrite (collect_dict_getitem _ _ Hcls).
    unfold mbind at 1, lift at 1. rewrite H1.
    unfold mbind at 1, lift at 1.
    rewrite (collect_getitem EmptyString) by exact Btrain.
    unfold mbind at 1, lift at 1.
    rewrite (collect_getitem EmptyString) by (now rewrite Hlen).
    unfold mbind at 1, lift at 1.
    rewrite (collect_getitem EmptyString) by exact Btv.
    unfold mbind at 1, lift at 1.
    rewrite (collect_getitem EmptyString) by (now rewrite Hlen).
    rewrite !select_length, Nat.eqb_refl. cbn [negb].
    unfold mbind at 1. unfold rand at 1.
    destruct (np_random_rand (length test_valid_indices) g1)
      as [features' g2] eqn:E2.
    simpl in H2.
    unfold mbind at 1, lift at 1.
    rewrite collect_dict_getitem
      by (apply Forall_select_is_Some; [exact Hcls | now rewrite Hlen]).
    unfold mbind at 1, lift at 1. rewrite H2.
    unfold mbind at 1, lift at 1.
    rewrite (collect_getitem EmptyString)
      by (now rewrite select_length).
    unfold mbind at 1, lift at 1.
    rewrite (collect_getitem EmptyString)
      by (now rewrite select_length).
    unfold mbind at 1, lift at 1.
    rewrite (collect_getitem EmptyString)
      by (now rewrite select_length).
    unfold mbind at 1, lift at 1.
    rewrite (collect_getitem EmptyString)
      by (now rewrite select_length).
    unfold ret. simpl. subst train valid test.
    rewrite !(select_select EmptyString) by assumption. reflexivity.
  - assert (Ltotal : length (train ++ valid ++ test)
                     = length train_indices + length validation_indices
                       + length test_indices).
    { subst train valid test. rewrite !length_app, !select_length. lia. }
    pose proof (NoDup_bounded_length _ _ N1 B1) as L1.
    pose proof (NoDup_bounded_length _ _ N2 B2) as L2.
    rewrite length_app in L1, L2.
    split.
    + intros Hcover.
      assert (Hincl : incl (seq 0 n) (train ++ valid ++ test)).
      { intros i Hi. apply in_seq in Hi. apply Hcover. lia. }
      pose proof (NoDup_incl_length
                    (proj1 (NoDup_ListNoDup _) (NoDup_seq 0 n)) Hincl) as H.
      rewrite length_seq in H. lia.
    + intros [E1 E2] i Hi.
      apply NoDup_ListNoDup in Hnd.
      apply (NoDup_length_incl Hnd (l' := seq 0 n)).
      * rewrite length_seq. lia.
      * intros j Hj. rewrite List.Forall_forall in Hb.
        apply in_seq. specialize (Hb j Hj). lia.
      * apply in_seq. lia.
Qed.

Lemma stratified_split_parts_witness :
  fst (get_train_valid_test_stratified_split nat unit unit nat
         (fun x => 10 - x) rand_ex split_ex dataset_ex lines20_ex labels20_ex
         classname2idx_ex 0)
  = Ok ((select EmptyString lines20_ex (seq 0 16),
         select EmptyString labels20_ex (seq 0 16)),
        (select EmptyString lines20_ex (select 0 (seq 16 4) [2; 3]),
         select EmptyString labels20_ex (select 0 (seq 16 4) [2; 3])),
        (select EmptyString lines20_ex (select 0 (seq 16 4) [0; 1]),
         select EmptyString labels20_ex (select 0 (seq 16 4) [0; 1])))
  /\ NoDup (seq 0 16 ++ select 0 (seq 16 4) [2; 3]
              ++ select 0 (seq 16 4) [0; 1])
  /\ Forall (fun i => i < length lines20_ex)
       (seq 0 16 ++ select 0 (seq 16 4) [2; 3]
          ++ select 0 (seq 16 4) [0; 1])
  /\ ((forall i, i < length lines20_ex ->
         In i (seq 0 16 ++ select 0 (seq 16 4) [2; 3]
                 ++ select 0 (seq 16 4) [0; 1]))
      <-> length (seq 0 16) + length (seq 16 4) = length lines20_ex
          /\ length [0; 1] + length [2; 3] = length (seq 16 4)).
Proof.
  apply (stratified_split_parts nat unit unit nat (fun x => 10 - x)
           rand_ex split_ex dataset_ex lines20_ex labels20_ex
           classname2idx_ex 0 (seq 0 16) (seq 16 4) [0; 1] [2; 3]).
  - reflexivity.
  - repeat (apply List.Forall_cons; [eexists; vm_compute; reflexivity|]).
    apply List.Forall_nil.
  - vm_compute. reflexivity.
  - apply (NoDup_seq 0 20).
  - apply List.Forall_forall. intros i Hi.
    change (seq 0 16 ++ seq 16 4) with (seq 0 20) in Hi.
    apply in_seq in Hi. simpl. lia.
  - vm_compute. reflexivity.
  - apply (NoDup_seq 0 4).
  - apply List.Forall_forall. intros i Hi.
    change ([0; 1] ++ [2; 3]) with (seq 0 4) in Hi.
    apply in_seq in Hi. simpl. lia.
Defined.

(** With a train size of 0.5 and a test size of 0.3 the first call
    leaves four of twenty examples out: the function returns, and the
    three parts hold sixteen positions, none of them one of 10 to 13. *)
Lemma stratified_split_leaves_out :
  fst (get_train_valid_test_stratified_split nat unit unit nat
         (fun x => 10 - x) rand_ex split_ex dataset_gap_ex lines20_ex
         labels20_ex classname2idx_ex 0)
  = Ok ((select EmptyString lines20_ex (seq 0 10),
         select EmptyString labels20_ex (seq 0 10)),
        (select EmptyString lines20_ex [17; 18; 19],
         select EmptyString labels20_ex [17; 18; 19]),
        (select EmptyString lines20_ex [14; 15; 16],
         select EmptyString labels20_ex [14; 15; 16]))
  /\ length lines20_ex = length labels20_ex
  /\ existsb (Nat.eqb 10) (seq 0 10 ++ [17; 18; 19] ++ [14; 15; 16]) = false
  /\ length (seq 0 10 ++ [17; 18; 19] ++ [14; 15; 16]) = 16
  /\ length lines20_ex = 20.
Proof. vm_compute. repeat split; reflexivity. Qed.

Section SplitMonad.

Context {float rng : Type} (np_random_rand : nat -> rng -> list float * rng).

Lemma fst_mbind_lift {A B : Type} (r : result A) (k : A -> M rng B) (g : rng) :
  fst (mbind rng (lift rng r) k g)
  = match r with
    | Ok a => fst (k a g)
    | Raise e => Raise e
    end.
Proof. unfold mbind, lift. now destruct r. Qed.

Lemma mbind_rand {B : Type} (n : nat) (k : list float -> M rng B) (g : rng) :
  mbind rng (rand float rng np_random_rand n) k g
  = k (np_random_rand n g).1 (np_random_rand n g).2.
Proof. unfold mbind, rand. now destruct (np_random_rand n g). Qed.

End SplitMonad.

(** C7.  The features drawn from NumPy's global generator do not reach
    the result: when the splitter reads nothing of its first argument
    but the number of samples (its own generator is seeded afresh with
    1729 at every call), two runs on the same lines, labels and class
    mapping return the same partitions, or raise the same exception,
    whatever the state of the global generator. *)
Theorem stratified_split_deterministic
    (float WordTokenizer CharacterTokenizer rng : Type)
    (one_minus : float -> float)
    (np_random_rand : nat -> rng -> list float * rng)
    (stratified_shuffle_split :
       float -> float -> Z -> list float -> list Z
       -> result (list nat * list nat))
    (self : BaseTextClassification float WordTokenizer CharacterTokenizer)
    (lines labels : list string) (classname2idx : gmap string Z)
    (g g' : rng) :
  (forall test_size train_size random_state X X' y,
      length X = length X' ->
      stratified_shuffle_split test_size train_size random_state X y
      = stratified_shuffle_split test_size train_size random_state X' y) ->
  (forall n g0, length (np_random_rand n g0).1 = n) ->
  fst (get_train_valid_test_stratified_split float WordTokenizer
         CharacterTokenizer rng one_minus np_random_rand
         stratified_shuffle_split self lines labels classname2idx g)
  = fst (get_train_valid_test_stratified_split float WordTokenizer
           CharacterTokenizer rng one_minus np_random_rand
           stratified_shuffle_split self lines labels classname2idx g').
Proof.
  intros Hsplit Hrand.
  unfold get_train_valid_test_stratified_split.
  destruct (negb (length lines =? length labels)); [reflexivity|].
  rewrite !mbind_rand. cbv beta.
  pose proof (Hrand (length lines) g) as L1.
  pose proof (Hrand (length lines) g') as L1'.
  destruct (np_random_rand (length lines) g) as [X g1].
  destruct (np_random_rand (length lines) g') as [X' g1'].
  cbn [fst snd] in *.
  rewrite !fst_mbind_lift. cbv beta.
  destruct (collect (dict_getitem classname2idx) labels);
    [|reflexivity].
  rewrite !fst_mbind_lift. cbv beta.
  rewrite (Hsplit _ _ _ X X') by congruence.
  destruct (stratified_shuffle_split _ _ _ X' _) as [[tr tv]|];
    [|reflexivity].
  rewrite !fst_mbind_lift. cbv beta.
  destruct (collect (getitem lines) tr); [|reflexivity].
  rewrite !fst_mbind_lift. cbv beta.
  destruct (collect (getitem labels) tr); [|reflexivity].
  rewrite !fst_mbind_lift. cbv beta.
  destruct (collect (getitem lines) tv) as [tvl|]; [|reflexivity].
  rewrite !fst_mbind_lift. cbv beta.
  destruct (collect (getitem labels) tv) as [tvb|]; [|reflexivity].
  destruct (negb (length tvb =? length tvl)); [reflexivity|].
  rewrite !mbind_rand. cbv beta.
  pose proof (Hrand (length tvl) g1) as L2.
  pose proof (Hrand (length tvl) g1') as L2'.
  destruct (np_random_rand (length tvl) g1) as [Y g2].
  destruct (np_random_rand (length tvl) g1') as [Y' g2'].
  cbn [fst snd] in *.
  rewrite !fst_mbind_lift. cbv beta.
  destruct (collect (dict_getitem classname2idx) tvb);
    [|reflexivity].
  rewrite !fst_mbind_lift. cbv beta.
  rewrite (Hsplit _ _ _ Y Y') by congruence.
  destruct (stratified_shuffle_split _ _ _ Y' _) as [[te va]|];
    [|reflexivity].
  rewrite !fst_mbind_lift. cbv beta.
  destruct (collect (getitem tvl) te); [|reflexivity].
  rewrite !fst_mbind_lift. cbv beta.
  destruct (collect (getitem tvb) te); [|reflexivity].
  rewrite !fst_mbind_lift. cbv beta.
  destruct (collect (getitem tvl) va); [|reflexivity].
  rewrite !fst_mbind_lift. cbv beta.
  destruct (collect (getitem tvb) va); reflexivity.
Qed.

Lemma stratified_split_deterministic_witness :
  fst (get_train_valid_test_stratified_split nat unit unit nat
         (fun x => 10 - x) rand_ex split_ex dataset_ex lines_ex labels_ex
         classname2idx_ex 0)
  = fst (get_train_valid_test_stratified_split nat unit unit nat
           (fun x => 10 - x) rand_ex split_ex dataset_ex lines_ex labels_ex
           classname2idx_ex 7).
Proof.
  apply stratified_split_deterministic.
  - intros test_size train_size random_state X X' y Hlen.
    unfold split_ex. now rewrite Hlen.
  - intros n g0. apply length_replicate.
Defined.

(** ** The round trip through BILOU tags *)

Section IndexMaps.

Variable key : Token -> Z.

(** The dictionary from [key token] to [token.i], when [key] tells the
    tokens of the document apart. *)
Lemma index_map_lookup (doc : Doc) (a : nat) (ta : Token) :
  (forall i j ti tj,
      doc !! i = Some ti -> doc !! j = Some tj -> key ti = key tj -> i = j) ->
  doc !! a = Some ta ->
  foldl (fun (m : gmap Z nat) '(i, t) => <[key t := i]> m) ∅ (imap pair doc)
    !! key ta = Some a.
Proof.
  revert a ta. induction doc as [|t doc IH] using rev_ind; intros a ta Hinj Ha.
  - discriminate Ha.
  - rewrite imap_app, foldl_app. simpl. rewrite Nat.add_0_r.
    destruct (decide (a = length doc)) as [->|Hne].
    + rewrite lookup_app_r, Nat.sub_diag in Ha by lia.
      injection Ha as ->. apply lookup_insert_eq.
    + assert (Hlt : a < length doc).
      { apply lookup_lt_Some in Ha. rewrite length_app in Ha. simpl in Ha. lia. }
      rewrite lookup_app_l in Ha by exact Hlt.
      rewrite lookup_insert_ne.
      * apply IH; [|exact Ha].
        intros i j ti tj Hi Hj. apply Hinj.
        -- rewrite lookup_app_l; [exact Hi | now apply lookup_lt_Some in Hi].
        -- rewrite lookup_app_l; [exact Hj | now apply lookup_lt_Some in Hj].
      * intros Heq. apply Hne.
        apply (Hinj a (length doc) ta t).
        -- now rewrite lookup_app_l.
        -- now rewrite lookup_app_r, Nat.sub_diag by lia.
        -- now symmetry.
Qed.

End IndexMaps.

Section WellFormedDoc.

Variable doc : Doc.
Hypothesis Hwf : doc_wf doc.

Lemma token_len_pos (i : nat) (t : Token) :
  doc !! i = Some t -> (0 < token_len t)%Z.
Proof.
  intros Hi. destruct Hwf as [Hne _].
  rewrite Forall_lookup in Hne. specialize (Hne i t Hi).
  unfold token_len. destruct (text t); [congruence | simpl; lia].
Qed.

Lemma token_order (i j : nat) (ti tj : Token) :
  doc !! i = Some ti -> doc !! j = Some tj -> i < j ->
  (token_end ti <= idx tj)%Z.
Proof. destruct Hwf as [_ H]. apply H. Qed.

Lemma idx_le (i j : nat) (ti tj : Token) :
  doc !! i = Some ti -> doc !! j = Some tj -> i <= j ->
  (idx ti <= idx tj)%Z.
Proof.
  intros Hi Hj Hle. destruct (decide (i = j)) as [->|Hne].
  - rewrite Hi in Hj. injection Hj as ->. lia.
  - pose proof (token_order i j ti tj Hi Hj ltac:(lia)).
    pose proof (token_len_pos i ti Hi). unfold token_end in *. lia.
Qed.

Lemma end_le (i j : nat) (ti tj : Token) :
  doc !! i = Some ti -> doc !! j = Some tj -> i <= j ->
  (token_end ti <= token_end tj)%Z.
Proof.
  intros Hi Hj Hle. destruct (decide (i = j)) as [->|Hne].
  - rewrite Hi in Hj. injection Hj as ->. lia.
  - pose proof (token_order i j ti tj Hi Hj ltac:(lia)).
    pose proof (token_len_pos j tj Hj). unfold token_end in *. lia.
Qed.

Lemma idx_inj (i j : nat) (ti tj : Token) :
  doc !! i = Some ti -> doc !! j = Some tj -> idx ti = idx tj -> i = j.
Proof.
  intros Hi Hj Heq.
  destruct (Nat.lt_trichotomy i j) as [Hlt|[->|Hlt]]; [|reflexivity|].
  - pose proof (token_order i j ti tj Hi Hj Hlt).
    pose proof (token_len_pos i ti Hi). unfold token_end in *. lia.
  - pose proof (token_order j i tj ti Hj Hi Hlt).
    pose proof (token_len_pos j tj Hj). unfold token_end in *. lia.
Qed.

Lemma end_inj (i j : nat) (ti tj : Token) :
  doc !! i = Some ti -> doc !! j = Some tj ->
  token_end ti = token_end tj -> i = j.
Proof.
  intros Hi Hj Heq.
  destruct (Nat.lt_trichotomy i j) as [Hlt|[->|Hlt]]; [|reflexivity|].
  - pose proof (token_order i j ti tj Hi Hj Hlt).
    pose proof (token_len_pos j tj Hj). unfold token_end in *. lia.
  - pose proof (token_order j i tj ti Hj Hi Hlt).
    pose proof (token_len_pos i ti Hi). unfold token_end in *. lia.
Qed.

Lemma starts_lookup (a : nat) (ta : Token) :
  doc !! a = Some ta -> Spacy.starts doc !! idx ta = Some a.
Proof. intros Ha. apply (index_map_lookup idx); [apply idx_inj | exact Ha]. Qed.

Lemma ends_lookup (b : nat) (tb : Token) :
  doc !! b = Some tb -> Spacy.ends doc !! token_end tb = Some b.
Proof.
  intros Hb. apply (index_map_lookup token_end); [apply end_inj | exact Hb].
Qed.

End WellFormedDoc.

Section Painting.

Lemma foldl_insert_seq_lookup (v : string) (len : nat) :
  forall (b1 : list string) (s j : nat),
    foldl (fun b i => <[i := v]> b) b1 (seq s len) !! j
    = if decide (s <= j < s + len /\ j < length b1) then Some v else b1 !! j.
Proof.
  induction len as [|len IH]; intros b1 s j; simpl.
  - case_decide; [lia | reflexivity].
  - rewrite IH, length_insert, list_lookup_insert.
    repeat case_decide; try reflexivity; try lia.
Qed.

Lemma foldl_insert_length (v : string) (l : list nat) (b1 : list string) :
  length (foldl (fun b i => <[i := v]> b) b1 l) = length b1.
Proof.
  apply (foldl_preserves (fun b => length b = length b1)); [|reflexivity].
  intros b i _ Hb. now rewrite length_insert.
Qed.

Variable doc : Doc.
Hypothesis Hwf : doc_wf doc.

Lemma token_at_lookup (i : nat) (t : Token) :
  doc !! i = Some t -> token_at doc i = t.
Proof. unfold token_at. now intros ->. Qed.

(** One entity on token boundaries writes its tags on the tokens it
    covers and nothing else. *)
Lemma paint_span_lookup (arr : list string) (sp : Span) (j : nat) :
  sp.1.1 <= sp.1.2 -> sp.1.2 < length doc -> length arr = length doc ->
  Spacy.paint_entity (Spacy.starts doc) (Spacy.ends doc) arr
    (span_entity doc sp) !! j
  = if in_span j sp then Some (bilu sp.1.1 sp.1.2 sp.2 j) else arr !! j.
Proof.
  destruct sp as [[a b] label]. simpl. intros Hab Hb Hlen.
  destruct (doc !! a) as [ta|] eqn:Ea;
    [|apply lookup_ge_None in Ea; lia].
  destruct (doc !! b) as [tb|] eqn:Eb;
    [|apply lookup_ge_None in Eb; lia].
  unfold span_entity, Spacy.paint_entity. simpl.
  rewrite (token_at_lookup a ta Ea), (token_at_lookup b tb Eb).
  rewrite (starts_lookup doc Hwf a ta Ea), (ends_lookup doc Hwf b tb Eb).
  unfold in_span, bilu. simpl.
  destruct (decide (a = b)) as [->|Hne].
  - rewrite list_lookup_insert.
    destruct (b <=? j) eqn:E1, (j <=? b) eqn:E2; simpl;
      try apply Nat.leb_le in E1; try apply Nat.leb_le in E2;
      try apply Nat.leb_gt in E1; try apply Nat.leb_gt in E2;
      case_decide; try reflexivity; lia.
  - rewrite list_lookup_insert, foldl_insert_seq_lookup, list_lookup_insert.
    rewrite foldl_insert_length, !length_insert.
    destruct (a <=? j) eqn:E1, (j <=? b) eqn:E2; simpl;
      try apply Nat.leb_le in E1; try apply Nat.leb_le in E2;
      try apply Nat.leb_gt in E1; try apply Nat.leb_gt in E2;
      repeat case_decide; try reflexivity; try lia.
Qed.

Lemma find_span_below (n k : nat) (spans : list Span) (j : nat) :
  sorted_spans n k spans -> j < k -> find_span spans j = None.
Proof.
  revert k. induction spans as [|[[a b] label] rest IH]; intros k Hs Hj;
    [reflexivity|].
  simpl in Hs. destruct Hs as (Hka & Hab & Hbn & Hrest).
  unfold find_span. simpl. unfold in_span at 1. simpl.
  replace (a <=? j) with false by (symmetry; apply Nat.leb_gt; lia).
  simpl. apply (IH (S b)); [exact Hrest | lia].
Qed.

(** All the entities of a tiling, position by position. *)
Lemma painted_lookup (n : nat) (spans : list Span) :
  forall (k : nat) (arr : list string) (j : nat),
    n = length doc -> sorted_spans n k spans -> length arr = n ->
    foldl (Spacy.paint_entity (Spacy.starts doc) (Spacy.ends doc)) arr
      (map (span_entity doc) spans) !! j
    = match find_span spans j with
      | Some (a, b, label) => Some (bilu a b label j)
      | None => arr !! j
      end.
Proof.
  induction spans as [|[[a b] label] rest IH]; intros k arr j Hn Hs Hlen;
    [reflexivity|].
  simpl in Hs. destruct Hs as (Hka & Hab & Hbn & Hrest).
  cbn [map foldl].
  rewrite (IH (S b)); [|exact Hn|exact Hrest|].
  2:{ rewrite paint_entity_length. exact Hlen. }
  unfold find_span at 2. cbn [List.find].
  rewrite paint_span_lookup; simpl; [|lia|lia|lia].
  destruct (in_span j (a, b, label)) eqn:Ein.
  - rewrite (find_span_below n (S b) rest j Hrest); [reflexivity|].
    unfold in_span in Ein. simpl in Ein.
    apply andb_true_iff in Ein as [_ E]. apply Nat.leb_le in E. lia.
  - reflexivity.
Qed.

Lemma find_span_in (spans : list Span) (j : nat) (sp : Span) :
  find_span spans j = Some sp -> In sp spans /\ sp.1.1 <= j <= sp.1.2.
Proof.
  unfold find_span. intros H. apply find_some in H as [Hin Hsp].
  split; [exact Hin|]. unfold in_span in Hsp.
  apply andb_true_iff in Hsp as [H1 H2].
  apply Nat.leb_le in H1. apply Nat.leb_le in H2. lia.
Qed.

Lemma sorted_spans_in (n k : nat) (spans : list Span) (sp : Span) :
  sorted_spans n k spans -> In sp spans -> sp.1.1 <= sp.1.2 /\ sp.1.2 < n.
Proof.
  revert k. induction spans as [|[[a b] label] rest IH]; intros k Hs Hin;
    [destruct Hin|].
  simpl in Hs. destruct Hs as (Hka & Hab & Hbn & Hrest).
  destruct Hin as [<-|Hin]; [simpl; lia|]. now apply (IH (S b)).
Qed.

(** A token inside a span is covered by the characters of its entity. *)
Lemma span_token_covered (spans : list Span) (sp : Span) (j : nat)
    (t : Token) :
  In sp spans -> sp.1.1 <= j <= sp.1.2 -> sp.1.2 < length doc ->
  doc !! j = Some t ->
  Spacy.token_covered (Spacy.entity_chars (map (span_entity doc) spans)) t
  = true.
Proof.
  destruct sp as [[a b] label]. simpl. intros Hin Hj Hb Ht.
  destruct (doc !! a) as [ta|] eqn:Ea;
    [|apply lookup_ge_None in Ea; lia].
  destruct (doc !! b) as [tb|] eqn:Eb;
    [|apply lookup_ge_None in Eb; lia].
  apply token_covered_spec.
  exists (idx t), (idx ta), (token_end tb), label. split; [|split].
  - apply (in_map (span_entity doc)) in Hin.
    unfold span_entity in Hin. simpl in Hin.
    now rewrite (token_at_lookup a ta Ea), (token_at_lookup b tb Eb) in Hin.
  - pose proof (idx_le doc Hwf a j ta t Ea Ht ltac:(lia)).
    pose proof (end_le doc Hwf j b t tb Ht Eb ltac:(lia)).
    pose proof (token_len_pos doc Hwf j t Ht). unfold token_end in *. lia.
  - pose proof (token_len_pos doc Hwf j t Ht). unfold token_end. lia.
Qed.

(** The tags of a tiling, as spaCy returns them and after the tag map:
    inside a span the B, I, L or U tag, elsewhere ["O-" + entity]. *)
Lemma tiling_tags_lookup (spans : list Span) (entity : string) (j : nat) :
  sorted_spans (length doc) 0 spans -> j < length doc ->
  map (outside_tag entity)
    (Spacy.biluo_tags_from_offsets doc (map (span_entity doc) spans)) !! j
  = Some (expected_tag spans ("O-" +:+ entity) j).
Proof.
  intros Hs Hj. change (map ?f ?l) with (f <$> l).
  rewrite list_lookup_fmap. unfold Spacy.biluo_tags_from_offsets.
  rewrite mark_outside_lookup.
  destruct (doc !! j) as [t|] eqn:Et; [|apply lookup_ge_None in Et; lia].
  rewrite (painted_lookup (length doc) spans 0 _ j eq_refl Hs)
    by apply length_replicate.
  unfold expected_tag.
  destruct (find_span spans j) as [[[a b] label]|] eqn:Ef.
  - apply find_span_in in Ef as [Hin Hab]. simpl in Hab.
    pose proof (sorted_spans_in _ _ _ _ Hs Hin) as [_ Hb]. simpl in Hb.
    rewrite (span_token_covered spans (a, b, label) j t Hin Hab Hb Et).
    simpl. f_equal. unfold bilu.
    repeat case_decide; now apply outside_tag_prefixed; simpl; auto.
  - rewrite lookup_replicate_2 by exact Hj.
    now destruct (Spacy.token_covered _ t).
Qed.

End Painting.

Section Scanning.

Variable tags : list string.

Lemma scan_outside_run (acc : list (string * option nat * nat)) (d : nat) :
  forall k a,
    k + d = a -> a <= length tags ->
    (forall j, k <= j < a ->
       exists tag, tags !! j = Some tag /\ Py.startswith tag "O" = true) ->
    Spacy.tags_to_entities_from (drop k tags) k None acc
    = Spacy.tags_to_entities_from (drop a tags) a None acc.
Proof.
  induction d as [|d IH]; intros k a Hka Ha Hrun.
  - now replace a with k by lia.
  - destruct (Hrun k ltac:(lia)) as (tag & Hk & HO).
    rewrite (drop_S _ _ _ Hk). cbn [Spacy.tags_to_entities_from].
    rewrite HO. apply IH; [lia | exact Ha |].
    intros j Hj. apply Hrun. lia.
Qed.

Lemma scan_inside_run (acc : list (string * option nat * nat))
    (label : string) (s : nat) (d : nat) :
  forall k b,
    k + d = b -> b <= length tags ->
    (forall j, k <= j < b -> tags !! j = Some ("I-" +:+ label)) ->
    Spacy.tags_to_entities_from (drop k tags) k (Some s) acc
    = Spacy.tags_to_entities_from (drop b tags) b (Some s) acc.
Proof.
  induction d as [|d IH]; intros k b Hkb Hb Hrun.
  - now replace b with k by lia.
  - rewrite (drop_S _ _ _ (Hrun k ltac:(lia))).
    change (Spacy.tags_to_entities_from (("I-" +:+ label) :: ?r) k (Some s) acc)
      with (Spacy.tags_to_entities_from r (S k) (Some s) acc).
    apply IH; [lia | exact Hb |].
    intros j Hj. apply Hrun. lia.
Qed.

Lemma expected_tag_skip (sp : Span) (rest : list Span) (outside : string)
    (j : nat) :
  in_span j sp = false ->
  expected_tag (sp :: rest) outside j = expected_tag rest outside j.
Proof.
  intros H. unfold expected_tag, find_span. simpl. now rewrite H.
Qed.

Lemma expected_tag_here (a b : nat) (label : string) (rest : list Span)
    (outside : string) (j : nat) :
  a <= j <= b ->
  expected_tag ((a, b, label) :: rest) outside j = bilu a b label j.
Proof.
  intros H. unfold expected_tag, find_span, in_span. simpl.
  replace (a <=? j) with true by (symmetry; apply Nat.leb_le; lia).
  replace (j <=? b) with true by (symmetry; apply Nat.leb_le; lia).
  reflexivity.
Qed.

(** Scanning the tags of a tiling finds its spans, in order. *)
Lemma scan_spans (outside : string) (spans : list Span) :
  Py.startswith outside "O" = true ->
  forall (k : nat) (acc : list (string * option nat * nat)),
    sorted_spans (length tags) k spans ->
    (forall j, k <= j < length tags ->
       tags !! j = Some (expected_tag spans outside j)) ->
    Spacy.tags_to_entities_from (drop k tags) k None acc
    = Ok (acc ++ map span_found spans).
Proof.
  intros HO. induction spans as [|[[a b] label] rest IH]; intros k acc Hs Htags.
  - destruct (decide (k <= length tags)) as [Hk|Hk].
    + rewrite (scan_outside_run acc (length tags - k) k (length tags));
        [|lia|lia|].
      * rewrite drop_all. simpl. now rewrite app_nil_r.
      * intros j Hj. exists outside. split; [now apply Htags | exact HO].
    + rewrite drop_ge by lia. simpl. now rewrite app_nil_r.
  - simpl in Hs. destruct Hs as (Hka & Hab & Hbn & Hrest).
    rewrite (scan_outside_run acc (a - k) k a); [|lia|lia|].
    2:{ intros j Hj. exists outside. split; [|exact HO].
        rewrite Htags by lia. f_equal.
        rewrite expected_tag_skip.
        - unfold expected_tag.
          now rewrite (find_span_below _ (S b) rest j Hrest) by lia.
        - unfold in_span. simpl.
          replace (a <=? j) with false by (symmetry; apply Nat.leb_gt; lia).
          reflexivity. }
    assert (Hnext : forall acc',
      Spacy.tags_to_entities_from (drop (S b) tags) (S b) None acc'
      = Ok (acc' ++ map span_found rest)).
    { intros acc'. apply IH; [exact Hrest|].
      intros j Hj. rewrite Htags by lia. f_equal.
      apply expected_tag_skip. unfold in_span. simpl.
      replace (j <=? b) with false by (symmetry; apply Nat.leb_gt; lia).
      apply andb_false_r. }
    assert (Hin : forall j, a <= j <= b ->
                    tags !! j = Some (bilu a b label j)).
    { intros j Hj. rewrite Htags by lia. f_equal.
      now apply expected_tag_here. }
    cbn [map]. unfold span_found at 1. simpl.
    destruct (decide (a = b)) as [->|Hne].
    + pose proof (Hin b ltac:(lia)) as Hb. unfold bilu in Hb.
      rewrite decide_True in Hb by reflexivity.
      rewrite (drop_S _ _ _ Hb).
      change (Spacy.tags_to_entities_from (("U-" +:+ label) :: ?r) b None acc)
        with (Spacy.tags_to_entities_from r (S b) None
                (acc ++ [(label, Some b, b)])).
      rewrite Hnext. now rewrite <- app_assoc.
    + pose proof (Hin a ltac:(lia)) as Ha. unfold bilu in Ha.
      rewrite decide_False, decide_True in Ha by (reflexivity || exact Hne).
      rewrite (drop_S _ _ _ Ha).
      change (Spacy.tags_to_entities_from (("B-" +:+ label) :: ?r) a None acc)
        with (Spacy.tags_to_entities_from r (S a) (Some a) acc).
      rewrite (scan_inside_run acc label a (b - S a) (S a) b); [|lia|lia|].
      2:{ intros j Hj. rewrite (Hin j) by lia. unfold bilu.
          rewrite !decide_False by lia. reflexivity. }
      pose proof (Hin b ltac:(lia)) as Hb. unfold bilu in Hb.
      rewrite !decide_False in Hb by lia.
      rewrite decide_True in Hb by reflexivity.
      rewrite (drop_S _ _ _ Hb).
      change (Spacy.tags_to_entities_from (("L-" +:+ label) :: ?r) b (Some a) acc)
        with (Spacy.tags_to_entities_from r (S b) None
                (acc ++ [(label, Some a, b)])).
      rewrite Hnext. now rewrite <- app_assoc.
Qed.

End Scanning.

Section RoundTrip.

Lemma foldl_permutation_inv {A B : Type} (P : A -> Prop) (f : A -> B -> A)
    (l l' : list B) :
  (forall a x, P a -> P (f a x)) ->
  (forall x y a, In x l -> In y l -> P a -> f (f a x) y = f (f a y) x) ->
  Permutation l l' ->
  forall a, P a -> foldl f a l = foldl f a l'.
Proof.
  intros HP Hcomm Hperm. induction Hperm as [|x l l' Hp IH|x y l|l l' l'' H1 IH1 H2 IH2];
    intros a Ha.
  - reflexivity.
  - simpl. apply IH; [|now apply HP].
    intros u v a' Hu Hv. apply Hcomm; now right.
  - simpl. f_equal. apply Hcomm; simpl; auto.
  - rewrite IH1 by assumption. apply IH2; [|exact Ha].
    intros u v a' Hu Hv. apply Hcomm.
    + apply (Permutation_in _ (Permutation_sym H1)), Hu.
    + apply (Permutation_in _ (Permutation_sym H1)), Hv.
Qed.

Variable doc : Doc.
Hypothesis Hwf : doc_wf doc.

Lemma sorted_spans_from (n k : nat) (spans : list Span) (sp : Span) :
  sorted_spans n k spans -> In sp spans -> k <= sp.1.1.
Proof.
  revert k. induction spans as [|[[a b] label] rest IH]; intros k Hs Hin;
    [destruct Hin|].
  simpl in Hs. destruct Hs as (Hka & Hab & Hbn & Hrest).
  destruct Hin as [<-|Hin]; [exact Hka|].
  specialize (IH (S b) Hrest Hin). lia.
Qed.

Lemma sorted_spans_apart (n k : nat) (spans : list Span) (sp1 sp2 : Span) :
  sorted_spans n k spans -> In sp1 spans -> In sp2 spans ->
  sp1 = sp2 \/ sp1.1.2 < sp2.1.1 \/ sp2.1.2 < sp1.1.1.
Proof.
  revert k. induction spans as [|[[a b] label] rest IH]; intros k Hs H1 H2;
    [destruct H1|].
  simpl in Hs. destruct Hs as (Hka & Hab & Hbn & Hrest).
  assert (Hafter : forall sp, In sp rest -> b < sp.1.1).
  { intros sp Hin. apply (sorted_spans_from n (S b) rest sp Hrest Hin). }
  destruct H1 as [<-|H1], H2 as [<-|H2].
  - now left.
  - right. left. simpl. now apply Hafter.
  - right. right. simpl. now apply Hafter.
  - now apply (IH (S b)).
Qed.

Lemma paint_spans_commute (n : nat) (spans : list Span) (sp1 sp2 : Span)
    (arr : list string) :
  n = length doc -> sorted_spans n 0 spans ->
  In sp1 spans -> In sp2 spans -> length arr = length doc ->
  Spacy.paint_entity (Spacy.starts doc) (Spacy.ends doc)
    (Spacy.paint_entity (Spacy.starts doc) (Spacy.ends doc) arr
       (span_entity doc sp1)) (span_entity doc sp2)
  = Spacy.paint_entity (Spacy.starts doc) (Spacy.ends doc)
      (Spacy.paint_entity (Spacy.starts doc) (Spacy.ends doc) arr
         (span_entity doc sp2)) (span_entity doc sp1).
Proof.
  intros -> Hs H1 H2 Hlen.
  destruct (sorted_spans_in _ _ _ _ Hs H1) as [Hab1 Hb1].
  destruct (sorted_spans_in _ _ _ _ Hs H2) as [Hab2 Hb2].
  destruct (sorted_spans_apart _ _ _ _ _ Hs H1 H2) as [->|Hapart];
    [reflexivity|].
  apply list_eq. intros j.
  rewrite !(paint_span_lookup doc Hwf)
    by (rewrite ?paint_entity_length; assumption).
  unfold in_span.
  destruct (sp1.1.1 <=? j) eqn:E1, (j <=? sp1.1.2) eqn:E2,
           (sp2.1.1 <=? j) eqn:E3, (j <=? sp2.1.2) eqn:E4; simpl;
    try reflexivity.
  apply Nat.leb_le in E1, E2, E3, E4. lia.
Qed.

Lemma entity_chars_permutation (l l' : list Entity) :
  Permutation l l' -> Spacy.entity_chars l = Spacy.entity_chars l'.
Proof.
  intros Hp. unfold Spacy.entity_chars.
  apply (foldl_permutation_inv (fun _ => True)); auto.
  intros [[s1 e1] l1] [[s2 e2] l2] a _ _ _.
  apply set_eq. intros x. rewrite !elem_of_union. tauto.
Qed.

(** spaCy's tags do not depend on the order in which the entities of a
    tiling are listed. *)
Lemma biluo_tags_permutation (spans : list Span) (entities : list Entity) :
  sorted_spans (length doc) 0 spans ->
  Permutation (map (span_entity doc) spans) entities ->
  Spacy.biluo_tags_from_offsets doc entities
  = Spacy.biluo_tags_from_offsets doc (map (span_entity doc) spans).
Proof.
  intros Hs Hp. unfold Spacy.biluo_tags_from_offsets.
  rewrite <- (entity_chars_permutation _ _ Hp). f_equal.
  symmetry.
  apply (foldl_permutation_inv (fun arr => length arr = length doc));
    [| |exact Hp|apply length_replicate].
  - intros arr e Harr. now rewrite paint_entity_length.
  - intros e1 e2 arr He1 He2 Harr.
    apply in_map_iff in He1 as (sp1 & <- & H1).
    apply in_map_iff in He2 as (sp2 & <- & H2).
    now apply (paint_spans_commute (length doc) spans).
Qed.

Lemma collect_span_offsets (k : nat) (spans : list Span) :
  sorted_spans (length doc) k spans ->
  collect (Spacy.span_offsets doc) (map span_found spans)
  = Ok (map (span_entity doc) spans).
Proof.
  revert k. induction spans as [|[[a b] label] rest IH]; intros k Hs;
    [reflexivity|].
  simpl in Hs. destruct Hs as (Hka & Hab & Hbn & Hrest).
  cbn [map collect]. rewrite (IH _ Hrest).
  unfold span_found, Spacy.span_offsets. simpl.
  rewrite bool_decide_eq_true_2 by lia.
  destruct (doc !! a) as [ta|] eqn:Ea;
    [|apply lookup_ge_None in Ea; lia].
  destruct (doc !! b) as [tb|] eqn:Eb;
    [|apply lookup_ge_None in Eb; lia].
  simpl. unfold span_entity. simpl.
  now rewrite (token_at_lookup doc a ta Ea), (token_at_lookup doc b tb Eb).
Qed.

Lemma tiles_spans (k : nat) (entities : list Entity) :
  tiles doc k entities ->
  exists spans,
    sorted_spans (length doc) k spans
    /\ entities = map (span_entity doc) spans.
Proof.
  induction 1 as [k|k a b ta tb label rest Hka Hab Ha Hb Hrest IH].
  - now exists [].
  - destruct IH as (spans & Hs & ->).
    exists ((a, b, label) :: spans). split.
    + simpl. apply lookup_lt_Some in Hb. auto.
    + cbn [map]. f_equal. unfold span_entity. cbn [fst snd].
      now rewrite (token_at_lookup doc a ta Ha), (token_at_lookup doc b tb Hb).
Qed.

Lemma tiling_round_trip (spans : list Span) (entity : string) :
  sorted_spans (length doc) 0 spans ->
  Spacy.offsets_from_biluo_tags doc
    (map (outside_tag entity)
       (Spacy.biluo_tags_from_offsets doc (map (span_entity doc) spans)))
  = Ok (map (span_entity doc) spans).
Proof.
  intros Hs. unfold Spacy.offsets_from_biluo_tags, Spacy.tags_to_entities.
  set (tags := map _ _).
  assert (Hlen : length tags = length doc).
  { subst tags. rewrite length_map. apply biluo_tags_length. }
  change tags with (drop 0 tags) at 1.
  rewrite (scan_spans tags ("O-" +:+ entity) spans eq_refl 0 []).
  - simpl. now apply (collect_span_offsets 0).
  - now rewrite Hlen.
  - intros j Hj. subst tags. apply (tiling_tags_lookup doc Hwf); [exact Hs|lia].
Qed.

End RoundTrip.

(** The conversion in memory: when the annotation spans lie on token
    boundaries, one after the other without overlap ([sorted] lists them
    in document order), the tags computed for all tokens of the document
    give these spans back through [offsets_from_biluo_tags], whatever
    the order the annotations were listed in. *)
Lemma tags_round_trip (nlp : string -> Doc) (txt : string)
    (annotations : list Annotation) (entity : string)
    (sorted : list Entity) :
  doc_wf (nlp txt) ->
  tiles (nlp txt) 0 sorted ->
  Permutation sorted (entities_of annotations) ->
  Spacy.offsets_from_biluo_tags (nlp txt)
    (bilou_tags nlp txt annotations entity)
  = Ok sorted.
Proof.
  intros Hwf Htiles Hperm.
  apply (tiles_spans (nlp txt)) in Htiles as (spans & Hs & ->).
  unfold bilou_tags.
  rewrite (biluo_tags_permutation (nlp txt) Hwf spans _ Hs Hperm).
  now apply tiling_round_trip.
Qed.

Lemma doc_ai_wf : doc_wf doc_ai.
Proof.
  split.
  - repeat (apply List.Forall_cons; [discriminate|]). apply List.Forall_nil.
  - intros i j ti tj Hi Hj Hlt. unfold doc_ai in *.
    destruct i as [|[|[|[|i]]]]; simpl in Hi; try discriminate Hi;
      injection Hi as <-;
      destruct j as [|[|[|[|j]]]]; simpl in Hj; try discriminate Hj;
      injection Hj as <-; try lia; vm_compute; discriminate.
Qed.


(** ** Sentence-wise mode when no whitespace token starts a sentence *)

Section SentenceWiseGeneral.

Variable nlp : string -> Doc.

Lemma alter_last {A : Type} (f : A -> A) (l : list A) :
  l <> [] ->
  exists init last,
    l = init ++ [last] /\ alter f (length l - 1) l = init ++ [f last].
Proof.
  intros Hne. destruct l as [|x l] using rev_ind; [congruence|].
  exists l, x. split; [reflexivity|].
  rewrite length_app. simpl.
  replace (length l + 1 - 1) with (length l + 0) by lia.
  now rewrite alter_app_r.
Qed.

(** One round of the loop keeps one list per sentence begun so far;
    [sentences] refers to all but the last, [current_sent] to the
    last. *)
Lemma sentence_step_invariant (st : SentState) (p : string * Token) :
  (is_sent_start p.2 = true -> is_space p.2 = false) ->
  heap st <> [] ->
  sentences st = seq 0 (length (heap st) - 1) ->
  current_sent st = length (heap st) - 1 ->
  let st' := sentence_step st p in
  heap st' <> []
  /\ sentences st' = seq 0 (length (heap st') - 1)
  /\ current_sent st' = length (heap st') - 1
  /\ concat (heap st')
     = concat (heap st)
         ++ (if negb (is_space p.2) then [pair_line p] else [])
  /\ length (heap st')
     = length (heap st) + (if is_sent_start p.2 then 1 else 0).
Proof.
  destruct p as [tag token]. simpl. intros Hp Hne Hsent Hcur.
  assert (Hlen : 0 < length (heap st)).
  { destruct (heap st); [congruence | simpl; lia]. }
  destruct (is_sent_start token) eqn:Estart.
  - rewrite (Hp eq_refl). simpl. rewrite length_app. simpl.
    repeat split.
    + now destruct (heap st).
    + rewrite Hsent, Hcur.
      replace (length (heap st) + 1 - 1) with (S (length (heap st) - 1))
        by lia.
      now rewrite seq_S.
    + lia.
    + rewrite concat_app. simpl. reflexivity.
  - destruct (is_space token) eqn:Espace; simpl.
    + rewrite app_nil_r. repeat split; try assumption. lia.
    + rewrite Hcur.
      destruct (alter_last (fun sent => sent ++ [bilou_line token tag])
                  (heap st) Hne) as (init & last & Hheap & Halter).
      rewrite Halter. rewrite Hsent, Hheap, !length_app. simpl.
      repeat split; try (now destruct init); try lia.
      rewrite !concat_app. simpl. rewrite !app_nil_r, <- !app_assoc.
      reflexivity.
Qed.

Lemma sentence_loop_invariant (ps : list (string * Token)) :
  forall st,
    Forall (fun p => is_sent_start p.2 = true -> is_space p.2 = false) ps ->
    heap st <> [] ->
    sentences st = seq 0 (length (heap st) - 1) ->
    current_sent st = length (heap st) - 1 ->
    let st' := foldl sentence_step st ps in
    heap st' <> []
    /\ sentences st' = seq 0 (length (heap st') - 1)
    /\ current_sent st' = length (heap st') - 1
    /\ concat (heap st')
       = concat (heap st)
           ++ map pair_line (List.filter (fun p => negb (is_space p.2)) ps)
    /\ length (heap st') = length (heap st) + starts_count (map snd ps).
Proof.
  induction ps as [|p ps IH]; intros st Hps Hne Hsent Hcur.
  - simpl. rewrite app_nil_r. unfold starts_count. simpl.
    repeat split; try assumption. lia.
  - inversion Hps as [|? ? Hp Hrest]; subst.
    destruct (sentence_step_invariant st p Hp Hne Hsent Hcur)
      as (S1 & S2 & S3 & S4 & S5).
    destruct (IH (sentence_step st p) Hrest S1 S2 S3)
      as (I1 & I2 & I3 & I4 & I5).
    cbn [foldl]. repeat split; try assumption.
    + rewrite I4, S4, <- app_assoc. f_equal. simpl.
      now destruct (negb (is_space p.2)).
    + rewrite I5, S5. unfold starts_count. simpl.
      destruct (is_sent_start p.2); simpl; lia.
Qed.

Lemma sents_from_length (rest cur : list Token) :
  length (sents_from cur rest) = S (starts_count rest).
Proof.
  revert cur. induction rest as [|t rest IH]; intros cur; [reflexivity|].
  unfold starts_count in *. simpl.
  destruct (is_sent_start t); simpl; now rewrite IH.
Qed.

Lemma zip_snd {A B : Type} (l : list A) (k : list B) :
  length l = length k -> map snd (zip l k) = k.
Proof.
  revert k. induction l as [|x l IH]; intros [|y k] Hlen; simpl in *;
    try discriminate; [reflexivity|].
  f_equal. apply IH. lia.
Qed.

Lemma pair_lines_of (tags : list string) (doc : Doc) :
  map pair_line (List.filter (fun p => negb (is_space p.2)) (zip tags doc))
  = lines_of doc tags.
Proof.
  revert tags. induction doc as [|t doc IH]; intros [|tag tags];
    try reflexivity.
  rewrite lines_of_cons. simpl.
  destruct (is_space t); simpl; now rewrite IH.
Qed.

(** X2.  On a document that has a first token and in which no whitespace
    token after the first starts a sentence, sentence-wise mode returns
    one list per sentence of the document, the lists are distinct
    objects, and together they hold the lines of plain mode, in order. *)
Theorem sentence_wise_lines (txt : string) (annotations : list Annotation)
    (entity_type : string) (doc0 : Token) (rest : list Token) :
  nlp txt = doc0 :: rest ->
  Forall (fun t => is_sent_start t = true -> is_space t = false) rest ->
  exists st,
    sentence_wise_state nlp txt annotations entity_type = Ok st
    /\ sentences st = seq 0 (length (heap st))
    /\ read_sentences st = heap st
    /\ length (read_sentences st) = length (sents (nlp txt))
    /\ concat (read_sentences st)
       = _get_bilou_lines_for_entity nlp txt annotations entity_type.
Proof.
  intros Hdoc Hrest. unfold sentence_wise_state.
  pose proof (bilou_tags_length nlp txt annotations entity_type) as Hlen.
  rewrite get_bilou_lines_eq. fold (lines_of (nlp txt)
    (bilou_tags nlp txt annotations entity_type)).
  rewrite Hdoc in *.
  destruct (bilou_tags nlp txt annotations entity_type) as [|tag0 tags];
    [discriminate Hlen|].
  simpl in Hlen. cbn [tail].
  set (st0 := if negb (is_space doc0)
              then mkSentState [[bilou_line doc0 tag0]] [] 0
              else mkSentState [[]] [] 0).
  assert (Hst0 : (if negb (is_space doc0)
                  then Ok (mkSentState
                             [[text doc0 +:+ " "
                                 +:+ Py.join _conll_col_sep (replicate 3 tag0)]]
                             [] 0)
                  else Ok (mkSentState [[]] [] 0)) = Ok st0).
  { subst st0. now destruct (is_space doc0). }
  rewrite Hst0. cbn [bind].
  assert (Hps : Forall (fun p : string * Token =>
                          is_sent_start p.2 = true -> is_space p.2 = false)
                  (zip tags rest)).
  { apply List.Forall_forall. intros [tag t] Hin. simpl.
    apply In_zip in Hin as [_ Hin].
    rewrite List.Forall_forall in Hrest. now apply Hrest. }
  destruct (sentence_loop_invariant (zip tags rest) st0 Hps)
    as (I1 & I2 & I3 & I4 & I5).
  { subst st0. now destruct (is_space doc0). }
  { subst st0. now destruct (is_space doc0). }
  { subst st0. now destruct (is_space doc0). }
  set (st := foldl sentence_step st0 (zip tags rest)) in *.
  assert (Hpos : 0 < length (heap st)).
  { destruct (heap st); [congruence | simpl; lia]. }
  assert (Hall : sentences st ++ [current_sent st]
                 = seq 0 (length (heap st))).
  { rewrite I2, I3.
    replace (length (heap st)) with (S (length (heap st) - 1)) at 3 by lia.
    now rewrite seq_S. }
  assert (Hcount : length (heap st) = length (sents (doc0 :: rest))).
  { rewrite I5. simpl. rewrite sents_from_length.
    rewrite zip_snd by lia.
    subst st0. now destruct (is_space doc0). }
  cbv zeta. fold st. cbn [sentences].
  rewrite Hall, length_seq, <- Hcount, Nat.eqb_refl.
  eexists. split; [reflexivity|].
  unfold read_sentences. cbn [sentences heap].
  fold (select [] (heap st) (seq 0 (length (heap st)))).
  rewrite select_seq.
  repeat split.
  rewrite I4, pair_lines_of, lines_of_cons.
  subst st0. destruct (is_space doc0); reflexivity.
Qed.

End SentenceWiseGeneral.

(** ** Further properties of the loader and of the two modes *)

(** X4.  When some entity line with a three-part middle field carries
    an offset that is not an integer, the load raises [ValueError]; what
    has been printed by then are the warnings for the lines before the
    first such line. *)
Theorem loader_raises_on_bad_offsets (ignore_warning : bool)
    (ann_file : string -> list string) (file_id entity : string) :
  existsb has_bad_offsets (ann_file file_id) = true ->
  _get_annotations_for_entity ignore_warning ann_file file_id entity
  = (Raise ValueError,
     skip_warnings ignore_warning file_id entity
       (good_prefix (ann_file file_id))).
Proof.
  intros Hbad. unfold _get_annotations_for_entity.
  rewrite annotations_loop_general, Hbad. reflexivity.
Qed.

Lemma loader_raises_on_bad_offsets_witness :
  _get_annotations_for_entity false ann_ex "offsets" "Task"
  = (Raise ValueError, []).
Proof.
  apply (loader_raises_on_bad_offsets false ann_ex "offsets" "Task").
  reflexivity.
Defined.

Lemma sentence_wise_lines_witness :
  exists st,
    sentence_wise_state nlp_ex "Hi.  Go" [] "Task" = Ok st
    /\ sentences st = seq 0 (length (heap st))
    /\ read_sentences st = heap st
    /\ length (read_sentences st) = length (sents (nlp_ex "Hi.  Go"))
    /\ concat (read_sentences st)
       = _get_bilou_lines_for_entity nlp_ex "Hi.  Go" [] "Task".
Proof.
  apply (sentence_wise_lines nlp_ex "Hi.  Go" [] "Task"
           (mkToken "Hi" 0 false true)
           [mkToken "." 2 false false; mkToken " " 4 true false;
            mkToken "Go" 5 false true]).
  - reflexivity.
  - repeat (apply List.Forall_cons; [intros _; reflexivity|]).
    apply List.Forall_cons; [discriminate|].
    apply List.Forall_cons; [intros _; reflexivity|].
    apply List.Forall_nil.
Defined.


(** ** The line format along the pipeline *)

Section PipelineLines.

Lemma split_ws_from_no_space (s cur : string) :
  Py.no_space cur = true ->
  Forall (fun w => Py.no_space w = true) (Py.split_ws_from s cur).
Proof.
  revert cur. induction s as [|c s IH]; intros cur Hcur; simpl.
  - destruct cur; [apply List.Forall_nil|].
    apply List.Forall_cons; [exact Hcur | apply List.Forall_nil].
  - destruct (Py.isspace c) eqn:Ec.
    + destruct cur.
      * now apply IH.
      * apply List.Forall_cons; [exact Hcur | now apply IH].
    + apply IH. rewrite no_space_app, Hcur. simpl. now rewrite Ec.
Qed.

Lemma split_ws_no_space (s : string) :
  Forall (fun w => Py.no_space w = true) (Py.split_ws s).
Proof. now apply split_ws_from_no_space. Qed.

(** The tag of a parsed annotation has no whitespace: it is a field of
    [str.split()]. *)
Lemma annotation_of_tag_clean (entity line : string) (a : Annotation) :
  annotation_of entity line = Some a -> Py.no_space (ann_tag a) = true.
Proof.
  unfold annotation_of, classify.
  destruct (is_entity_line line); [|discriminate].
  destruct (Py.split tab line) as [|f1 [|f2 [|f3 [|f4 fs]]]];
    try discriminate.
  pose proof (split_ws_no_space f2) as Hws.
  destruct (Py.split_ws f2) as [|tag [|start [|end_ [|x xs]]]];
    try discriminate.
  destruct (Py.int start); [|discriminate].
  destruct (Py.int end_); [|discriminate]. simpl.
  destruct (String.eqb _ _); [|discriminate].
  intros [= <-]. simpl. now inversion Hws.
Qed.

Lemma loader_annotations_clean (ignore_warning : bool)
    (ann_file : string -> list string) (file_id entity : string)
    (annotations : list Annotation) (log : list string) :
  _get_annotations_for_entity ignore_warning ann_file file_id entity
    = (Ok annotations, log) ->
  Forall (fun a => Py.no_space (ann_tag a) = true) annotations.
Proof.
  unfold _get_annotations_for_entity. rewrite annotations_loop_general.
  destruct (existsb has_bad_offsets (ann_file file_id)); [discriminate|].
  simpl. intros H.
  assert (annotations = omap (annotation_of entity) (ann_file file_id)) as ->.
  { destruct (length _ =? 0); now injection H as <- _. }
  apply List.Forall_forall. intros a Ha.
  apply list_elem_of_In, list_elem_of_omap in Ha as (line & _ & Hline).
  now apply (annotation_of_tag_clean entity line).
Qed.

End PipelineLines.

(** X5.  Along the pipeline of [write_bilou_lines], where the annotations
    come from the loader and the entity type is one of the three of
    [entity_types], every emitted line has exactly four space-separated
    columns (the token, then the same tag three times), provided the
    tokens that are not whitespace contain none. *)
Theorem pipeline_lines_four_columns (nlp : string -> Doc)
    (ignore_warning : bool) (ann_file : string -> list string)
    (txt_first_line : string -> string) (file_id entity : string)
    (lines log : list string) :
  In entity entity_types ->
  Forall (fun token => is_space token = false ->
            text token <> EmptyString /\ Py.no_space (text token) = true)
         (nlp (get_text_from_fileid txt_first_line file_id)) ->
  get_bilou_lines_for_entity nlp ignore_warning ann_file txt_first_line
    file_id entity = (Ok lines, log) ->
  Forall (fun line =>
            exists word tag,
              line = word +:+ " " +:+ tag +:+ " " +:+ tag +:+ " " +:+ tag
              /\ Py.split " " line = [word; tag; tag; tag]
              /\ unpack4 (Py.split " " (Py.strip (line +:+ newline)))
                 = Ok (word, tag, tag, tag))
         lines.
Proof.
  intros Hent Htok. unfold get_bilou_lines_for_entity.
  destruct (_get_annotations_for_entity _ _ _ _) as [[annotations|e] log']
    eqn:Hload; [|discriminate].
  intros [= <- <-].
  pose proof (loader_annotations_clean _ _ _ _ _ _ Hload) as Hanns.
  assert (Hclean : Py.no_space entity = true).
  { simpl in Hent. destruct Hent as [<-|[<-|[<-|[]]]]; reflexivity. }
  rewrite get_bilou_lines_eq.
  apply List.Forall_forall. intros line Hin.
  apply in_map_iff in Hin as ([token tag] & <- & Hin). simpl.
  apply filter_In in Hin as [Hin Hsp]. simpl in Hsp.
  apply negb_true_iff in Hsp. apply In_zip in Hin as [Hdoc Htag].
  rewrite List.Forall_forall in Htok.
  destruct (Htok token Hdoc Hsp) as [Hw Hws].
  destruct (bilou_tag_clean nlp _ annotations entity tag Hclean Hanns Htag)
    as [Ht Hts].
  exists (text token), tag. repeat split.
  - now apply bilou_line_columns.
  - rewrite bilou_line_strip by assumption.
    now rewrite bilou_line_columns.
Qed.

Lemma pipeline_lines_four_columns_witness :
  Forall (fun line =>
            exists word tag,
              line = word +:+ " " +:+ tag +:+ " " +:+ tag +:+ " " +:+ tag
              /\ Py.split " " line = [word; tag; tag; tag]
              /\ unpack4 (Py.split " " (Py.strip (line +:+ newline)))
                 = Ok (word, tag, tag, tag))
         ["AI U-Task U-Task U-Task"; "is O-Task O-Task O-Task";
          "useful O-Task O-Task O-Task"; ". O-Task O-Task O-Task"].
Proof.
  apply (pipeline_lines_four_columns nlp_ex false ann_ex txt_ex "ai" "Task"
           _ []).
  - simpl. auto.
  - change (nlp_ex (get_text_from_fileid txt_ex "ai")) with doc_ai.
    unfold doc_ai.
    repeat (apply List.Forall_cons;
            [intros _; split; [discriminate | reflexivity] |]).
    apply List.Forall_nil.
  - vm_compute. reflexivity.
Defined.

(** X6.  [merge_files] on the three per-entity lines of one token, as
    read back from the files, writes the token followed by its Task,
    Process and Material tags. *)
Theorem merge_line_of_bilou_lines (token : Token)
    (task_tag process_tag material_tag : string) :
  text token <> EmptyString -> Py.no_space (text token) = true ->
  task_tag <> EmptyString -> Py.no_space task_tag = true ->
  process_tag <> EmptyString -> Py.no_space process_tag = true ->
  material_tag <> EmptyString -> Py.no_space material_tag = true ->
  merge_line (bilou_line token task_tag +:+ newline)
    (bilou_line token process_tag +:+ newline)
    (bilou_line token material_tag +:+ newline)
  = Ok (text token +:+ " " +:+ task_tag +:+ " " +:+ process_tag
          +:+ " " +:+ material_tag).
Proof.
  intros Hw Hws Ht Hts Hp Hps Hm Hms. unfold merge_line.
  rewrite !bilou_line_strip by assumption.
  rewrite !bilou_line_columns by assumption.
  destruct (String.eqb (bilou_line token task_tag) EmptyString) eqn:E.
  - apply String.eqb_eq in E. rewrite bilou_line_unfold in E.
    destruct (text token); [congruence | discriminate E].
  - reflexivity.
Qed.

Lemma merge_line_of_bilou_lines_witness :
  merge_line
    (bilou_line (mkToken "AI" 0 false true) "U-Task" +:+ newline)
    (bilou_line (mkToken "AI" 0 false true) "O-Process" +:+ newline)
    (bilou_line (mkToken "AI" 0 false true) "O-Material" +:+ newline)
  = Ok "AI U-Task O-Process O-Material".
Proof.
  apply (merge_line_of_bilou_lines (mkToken "AI" 0 false true)
           "U-Task" "O-Process" "O-Material");
    (discriminate || reflexivity).
Defined.

(** ** The number of sentences returned *)

Section SentenceCount.

Variable nlp : string -> Doc.

Lemma sentence_step_sentences (st : SentState) (p : string * Token) :
  length (sentences (sentence_step st p))
  = length (sentences st) + (if is_sent_start p.2 then 1 else 0).
Proof.
  destruct p as [tag token]. simpl.
  destruct (is_sent_start token), (is_space token); simpl;
    rewrite ?length_app; simpl; lia.
Qed.

Lemma sentence_loop_sentences (ps : list (string * Token)) (st : SentState) :
  length (sentences (foldl sentence_step st ps))
  = length (sentences st) + starts_count (map snd ps).
Proof.
  revert st. induction ps as [|p ps IH]; intros st.
  - unfold starts_count. simpl. lia.
  - cbn [foldl]. rewrite IH, sentence_step_sentences.
    unfold starts_count. simpl. destruct (is_sent_start p.2); simpl; lia.
Qed.

End SentenceCount.

(** X7.  On every document that has a first token, whatever its tokens
    and annotations, sentence-wise mode returns: the assertion of line
    204 cannot fail, and the list returned has one entry per sentence of
    [doc.sents], that is one more than the number of later tokens that
    start a sentence. *)
Theorem sentence_wise_count (nlp : string -> Doc) (txt : string)
    (annotations : list Annotation) (entity_type : string)
    (doc0 : Token) (rest : list Token) :
  nlp txt = doc0 :: rest ->
  exists st,
    sentence_wise_state nlp txt annotations entity_type = Ok st
    /\ length (read_sentences st) = length (sents (nlp txt))
    /\ length (read_sentences st) = S (starts_count rest).
Proof.
  intros Hdoc. unfold sentence_wise_state.
  pose proof (bilou_tags_length nlp txt annotations entity_type) as Hlen.
  rewrite Hdoc in *.
  destruct (bilou_tags nlp txt annotations entity_type) as [|tag0 tags];
    [discriminate Hlen|].
  simpl in Hlen. cbn [tail].
  set (st0 := if negb (is_space doc0)
              then mkSentState [[bilou_line doc0 tag0]] [] 0
              else mkSentState [[]] [] 0).
  assert (Hst0 : (if negb (is_space doc0)
                  then Ok (mkSentState
                             [[text doc0 +:+ " "
                                 +:+ Py.join _conll_col_sep (replicate 3 tag0)]]
                             [] 0)
                  else Ok (mkSentState [[]] [] 0)) = Ok st0).
  { subst st0. now destruct (is_space doc0). }
  rewrite Hst0. cbn [bind]. cbv zeta. cbn [sentences].
  assert (Hcount : length (sentences (foldl sentence_step st0 (zip tags rest))
                             ++ [current_sent
                                   (foldl sentence_step st0 (zip tags rest))])
                   = S (starts_count rest)).
  { rewrite length_app, sentence_loop_sentences, zip_snd by lia.
    subst st0. destruct (is_space doc0); simpl; lia. }
  assert (Hsents : length (sents (doc0 :: rest)) = S (starts_count rest)).
  { simpl. apply sents_from_length. }
  rewrite Hcount, Hsents, Nat.eqb_refl.
  eexists. split; [reflexivity|].
  unfold read_sentences. cbn [sentences]. rewrite length_map, Hcount.
  split; reflexivity.
Qed.

Lemma sentence_wise_count_witness :
  exists st,
    sentence_wise_state nlp_ex "Hi  there" [] "Task" = Ok st
    /\ length (read_sentences st) = length (sents (nlp_ex "Hi  there"))
    /\ length (read_sentences st)
       = S (starts_count [mkToken " " 3 true true;
                          mkToken "there" 4 false false]).
Proof.
  apply (sentence_wise_count nlp_ex "Hi  there" [] "Task"
           (mkToken "Hi" 0 false true)).
  reflexivity.
Defined.

(** ** Lines and labels stay paired through the split *)

Lemma collect_getitem_inv {A : Type} (d : A) (xs : list A)
    (indices : list nat) (ys : list A) :
  collect (getitem xs) indices = Ok ys ->
  ys = select d xs indices /\ Forall (fun i => i < length xs) indices.
Proof.
  revert ys. induction indices as [|i indices IH]; intros ys H.
  - injection H as <-. split; [reflexivity | apply List.Forall_nil].
  - simpl in H. unfold getitem at 1 in H.
    destruct (xs !! i) as [x|] eqn:E; [|discriminate H]. simpl in H.
    destruct (collect (getitem xs) indices) as [ys'|]; [|discriminate H].
    injection H as <-. destruct (IH ys' eq_refl) as [-> Hin]. split.
    + unfold select. simpl. now rewrite E.
    + apply List.Forall_cons; [now apply lookup_lt_Some in E | exact Hin].
Qed.



(** ** Decimal numerals *)

Section Numerals.

Lemma no_space_free_of (c : ascii) (s : string) :
  Py.isspace c = true -> Py.no_space s = true -> Py.free_of c s = true.
Proof.
  intros Hc. induction s as [|d s IH]; simpl; [reflexivity|].
  intros [Hd Hs]%andb_true_iff. rewrite (IH Hs), andb_true_r.
  destruct (Ascii.eqb_spec d c) as [->|_]; [|reflexivity].
  rewrite Hc in Hd. discriminate.
Qed.

Lemma rstrip_no_space (s : string) :
  Py.no_space s = true -> Py.rstrip s = s.
Proof.
  induction s as [|c s IH]; simpl; [reflexivity|].
  intros [Hc Hs]%andb_true_iff. rewrite (IH Hs).
  destruct s; [|reflexivity].
  apply negb_true_iff in Hc. now rewrite Hc.
Qed.

Lemma strip_no_space (s : string) :
  Py.no_space s = true -> Py.strip s = s.
Proof.
  intros Hs. unfold Py.strip.
  assert (Hl : Py.lstrip s = s).
  { destruct s as [|c s]; [reflexivity|]. simpl in *.
    apply andb_true_iff in Hs as [Hc _].
    apply negb_true_iff in Hc. now rewrite Hc. }
  rewrite Hl. now apply rstrip_no_space.
Qed.

Lemma uint_digits_no_space (d : Decimal.uint) :
  Py.no_space (uint_digits d) = true.
Proof. induction d; simpl; auto. Qed.

Lemma uint_digits_nonempty (d : Decimal.uint) :
  d <> Decimal.Nil -> uint_digits d <> EmptyString.
Proof. destruct d; simpl; congruence. Qed.

Lemma parse_uint_acc (d : Decimal.uint) (acc : positive) :
  Py.parse_digits (uint_digits d) (Z.pos acc) true
  = Some (Z.pos (Pos.of_uint_acc d acc)).
Proof.
  revert acc. induction d as [|d IH|d IH|d IH|d IH|d IH|d IH|d IH|d IH|d IH|d IH];
    intros acc; [reflexivity|..];
    cbn [uint_digits Py.parse_digits Pos.of_uint_acc];
    match goal with
    | |- context [Py.digit_val ?c] =>
        let v := eval vm_compute in (Py.digit_val c) in
        change (Py.digit_val c) with v
    end; cbv iota beta; rewrite <- IH; f_equal; lia.
Qed.

Lemma parse_uint (d : Decimal.uint) (after_digit : bool) :
  d <> Decimal.Nil \/ after_digit = true ->
  Py.parse_digits (uint_digits d) 0%Z after_digit = Some (Z.of_uint d).
Proof.
  revert after_digit.
  induction d as [|d IH|d IH|d IH|d IH|d IH|d IH|d IH|d IH|d IH|d IH];
    intros after_digit H.
  - destruct H as [H| ->]; [congruence | reflexivity].
  - cbn [uint_digits Py.parse_digits].
    change (Py.digit_val "0") with (Some 0%Z). cbv iota beta.
    change (10 * 0 + 0)%Z with 0%Z. rewrite IH by now right. reflexivity.
  - apply (parse_uint_acc d 1).
  - apply (parse_uint_acc d 2).
  - apply (parse_uint_acc d 3).
  - apply (parse_uint_acc d 4).
  - apply (parse_uint_acc d 5).
  - apply (parse_uint_acc d 6).
  - apply (parse_uint_acc d 7).
  - apply (parse_uint_acc d 8).
  - apply (parse_uint_acc d 9).
Qed.

Lemma to_uint_nonnil (p : positive) : Pos.to_uint p <> Decimal.Nil.
Proof.
  intros H. pose proof (DecimalZ.of_to (Z.pos p)) as Hz.
  simpl in Hz. rewrite H in Hz. discriminate.
Qed.

Lemma py_str_no_space (z : Z) : Py.no_space (py_str z) = true.
Proof.
  unfold py_str. destruct (Z.to_int z); simpl; apply uint_digits_no_space.
Qed.

Lemma py_str_nonempty (z : Z) : py_str z <> EmptyString.
Proof.
  unfold py_str. destruct z; simpl; try discriminate.
  apply uint_digits_nonempty, to_uint_nonnil.
Qed.

(** [int(str(z)) == z] *)
Lemma int_py_str (z : Z) : Py.int (py_str z) = Some z.
Proof.
  unfold Py.int. rewrite strip_no_space by apply py_str_no_space.
  pose proof (DecimalZ.of_to z) as Hz. unfold py_str.
  destruct (Z.to_int z) as [d|d] eqn:Hd; simpl in Hz.
  - assert (Hnn : d <> Decimal.Nil).
    { destruct z; simpl in Hd; try discriminate;
        assert (Hd' := f_equal (fun x => match x with
                                         | Decimal.Pos u => u
                                         | Decimal.Neg u => u end) Hd);
        simpl in Hd'; subst d; [discriminate | apply to_uint_nonnil]. }
    pose proof (parse_uint d false (or_introl Hnn)) as Hp.
    rewrite Hz in Hp.
    destruct d; try congruence; exact Hp.
  - assert (Hnn : d <> Decimal.Nil).
    { destruct z; simpl in Hd; try discriminate.
      assert (Hd' := f_equal (fun x => match x with
                                       | Decimal.Pos u => u
                                       | Decimal.Neg u => u end) Hd).
      simpl in Hd'. subst d. apply to_uint_nonnil. }
    rewrite (parse_uint d false (or_introl Hnn)). simpl. f_equal. lia.
Qed.

End Numerals.

(** ** Text files and the lines of an annotation file *)

Section TextFiles.

Lemma append_nil_r (s : string) : s +:+ EmptyString = s.
Proof.
  induction s as [|c s IH]; [reflexivity|]. now rewrite append_cons, IH.
Qed.

Lemma free_of_app (c : ascii) (s t : string) :
  Py.free_of c (s +:+ t) = Py.free_of c s && Py.free_of c t.
Proof.
  induction s as [|d s IH]; [reflexivity|].
  rewrite append_cons. simpl. now rewrite IH, andb_assoc.
Qed.

Lemma file_lines_from_app (s rest cur : string) :
  Py.free_of line_feed s = true -> Py.free_of carriage_return s = true ->
  file_lines_from (s +:+ rest) cur = file_lines_from rest (cur +:+ s).
Proof.
  revert cur. induction s as [|c s IH]; intros cur Hlf Hcr.
  - now rewrite append_nil_l, append_nil_r.
  - simpl in Hlf, Hcr.
    apply andb_true_iff in Hlf as [Hc1 Hlf].
    apply andb_true_iff in Hcr as [Hc2 Hcr].
    apply negb_true_iff in Hc1. apply negb_true_iff in Hc2.
    rewrite append_cons. cbn [file_lines_from]. rewrite Hc1, Hc2.
    rewrite IH by assumption. f_equal.
    now rewrite append_assoc, append_cons, append_nil_l.
Qed.

Lemma one_line_inv (l : string) :
  one_line l = true ->
  l <> EmptyString /\ Py.free_of line_feed l = true
  /\ Py.free_of carriage_return l = true.
Proof.
  unfold one_line. intros [[H1 H2]%andb_true_iff H3]%andb_true_iff.
  repeat split; try assumption.
  intros ->. discriminate.
Qed.

(** Reading back what ["\n".join(lines)] wrote. *)
Lemma file_lines_join (ls : list string) :
  Forall (fun l => one_line l = true) ls ->
  file_lines (Py.join newline ls) = with_terminators ls.
Proof.
  unfold file_lines.
  induction 1 as [|l ls Hl Hls IH]; [reflexivity|].
  apply one_line_inv in Hl as (Hne & Hlf & Hcr).
  destruct ls as [|l' ls].
  - cbn [Py.join with_terminators].
    rewrite <- (append_nil_r l) at 1.
    rewrite file_lines_from_app, append_nil_l by assumption.
    destruct l; [congruence | reflexivity].
  - change (Py.join newline (l :: l' :: ls))
      with (l +:+ newline +:+ Py.join newline (l' :: ls)).
    rewrite file_lines_from_app, append_nil_l by assumption.
    change (newline +:+ Py.join newline (l' :: ls))
      with (String line_feed (Py.join newline (l' :: ls))).
    cbn [file_lines_from].
    change (Ascii.eqb line_feed line_feed) with true. cbv iota.
    change (with_terminators (l :: l' :: ls))
      with ((l +:+ newline) :: with_terminators (l' :: ls)).
    now rewrite IH.
Qed.

Lemma split_ws_from_word (w rest cur : string) :
  Py.no_space w = true ->
  Py.split_ws_from (w +:+ rest) cur = Py.split_ws_from rest (cur +:+ w).
Proof.
  revert cur. induction w as [|c w IH]; intros cur Hw.
  - now rewrite append_nil_l, append_nil_r.
  - simpl in Hw. apply andb_true_iff in Hw as [Hc Hw].
    apply negb_true_iff in Hc.
    rewrite append_cons. cbn [Py.split_ws_from]. rewrite Hc.
    rewrite IH by assumption. f_equal.
    now rewrite append_assoc, append_cons, append_nil_l.
Qed.

Lemma split_ws_three (a b c : string) :
  a <> EmptyString -> b <> EmptyString -> c <> EmptyString ->
  Py.no_space a = true -> Py.no_space b = true -> Py.no_space c = true ->
  Py.split_ws (a +:+ " " +:+ b +:+ " " +:+ c) = [a; b; c].
Proof.
  intros Ha Hb Hc Na Nb Nc. unfold Py.split_ws.
  rewrite split_ws_from_word, append_nil_l by assumption.
  change (" " +:+ b +:+ " " +:+ c) with (String " " (b +:+ " " +:+ c)).
  cbn [Py.split_ws_from]. change (Py.isspace " ") with true. cbv iota.
  destruct a as [|a0 a]; [congruence|]. f_equal.
  rewrite split_ws_from_word, append_nil_l by assumption.
  change (" " +:+ c) with (String " " c).
  cbn [Py.split_ws_from]. change (Py.isspace " ") with true. cbv iota.
  destruct b as [|b0 b]; [congruence|]. f_equal.
  rewrite <- (append_nil_r c) at 1.
  rewrite split_ws_from_word, append_nil_l by assumption.
  destruct c; [congruence | reflexivity].
Qed.

Lemma rstrip_head (c : ascii) (s : string) :
  Py.isspace c = false -> exists r, Py.rstrip (String c s) = String c r.
Proof.
  intros Hc. cbn [Py.rstrip]. rewrite Hc.
  destruct (Py.rstrip s); eauto.
Qed.

Section AnnLine.

Variables (term_idx start_offset end_offset : Z).
Variables (tag_name surface_form nl : string).
Hypothesis Htag_ne : tag_name <> EmptyString.
Hypothesis Htag : Py.no_space tag_name = true.
Hypothesis Hsurface : clean_surface surface_form = true.
Hypothesis Hnl : nl = EmptyString \/ nl = newline.

Local Abbreviation line :=
  (ann_line term_idx tag_name start_offset end_offset surface_form).

Lemma clean_surface_inv :
  Py.free_of tab surface_form = true
  /\ Py.free_of line_feed surface_form = true
  /\ Py.free_of carriage_return surface_form = true.
Proof.
  unfold clean_surface in Hsurface.
  apply andb_true_iff in Hsurface as [[H1 H2]%andb_true_iff H3]. auto.
Qed.

Lemma middle_free_of (c : ascii) :
  Py.isspace c = true -> c <> " "%char ->
  Py.free_of c (tag_name +:+ " " +:+ py_str start_offset
                  +:+ " " +:+ py_str end_offset) = true.
Proof.
  intros Hc Hsp.
  assert (Hs : Py.free_of c " " = true).
  { cbn [Py.free_of]. destruct (Ascii.eqb_spec " " c);
      [congruence | reflexivity]. }
  rewrite !free_of_app, Hs.
  rewrite !no_space_free_of by (try apply py_str_no_space; assumption).
  reflexivity.
Qed.

Lemma ann_line_split :
  Py.split tab (line +:+ nl)
  = ["T" +:+ py_str term_idx;
     tag_name +:+ " " +:+ py_str start_offset +:+ " " +:+ py_str end_offset;
     surface_form +:+ nl].
Proof.
  destruct clean_surface_inv as (Ht & _ & _).
  unfold ann_line.
  rewrite append_assoc.
  change (String tab ?s +:+ nl) with (String tab (s +:+ nl)).
  rewrite split_app_sep.
  2:{ change ("T" +:+ py_str term_idx) with (String "T" (py_str term_idx)).
      cbn [Py.free_of]. rewrite no_space_free_of;
        [reflexivity | reflexivity | apply py_str_no_space]. }
  f_equal. rewrite append_assoc.
  change (String tab ?s +:+ nl) with (String tab (s +:+ nl)).
  rewrite split_app_sep by (apply middle_free_of; [reflexivity|discriminate]).
  f_equal. apply split_free. rewrite free_of_app, Ht.
  destruct Hnl as [-> | ->]; reflexivity.
Qed.

Lemma ann_line_gate : is_entity_line (line +:+ nl) = true.
Proof.
  unfold is_entity_line. rewrite ann_line_split.
  rewrite andb_true_r. unfold Py.strip, ann_line.
  change ("T" +:+ py_str term_idx) with (String "T" (py_str term_idx)).
  rewrite !append_cons.
  cbn [Py.lstrip]. change (Py.isspace "T") with false. cbv iota.
  match goal with
  | |- context [Py.rstrip (String "T" ?s)] =>
      destruct (rstrip_head "T" s eq_refl) as [r ->]
  end.
  destruct r; reflexivity.
Qed.

Lemma classify_ann_line :
  classify (line +:+ nl)
  = Parsed (mkAnnotation start_offset end_offset (surface_form +:+ nl)
              ("T" +:+ py_str term_idx) tag_name).
Proof.
  unfold classify. rewrite ann_line_gate, ann_line_split.
  rewrite split_ws_three
    by (try apply py_str_no_space; try apply py_str_nonempty; assumption).
  now rewrite !int_py_str.
Qed.

Lemma ann_line_free_of (c : ascii) :
  Py.isspace c = true -> c <> " "%char -> c <> tab ->
  Py.free_of c surface_form = true -> Py.free_of c line = true.
Proof.
  intros Hc Hsp Htab Hs. unfold ann_line.
  rewrite free_of_app.
  change ("T" +:+ py_str term_idx) with (String "T" (py_str term_idx)).
  cbn [Py.free_of]. rewrite free_of_app. cbn [Py.free_of].
  rewrite middle_free_of, Hs by assumption.
  rewrite no_space_free_of by (try apply py_str_no_space; assumption).
  destruct (Ascii.eqb_spec tab c) as [E|_]; [congruence|].
  destruct (Ascii.eqb_spec "T" c) as [<-|_]; [discriminate Hc|].
  reflexivity.
Qed.

Lemma ann_line_one_line : one_line line = true.
Proof.
  destruct clean_surface_inv as (_ & Hlf & Hcr).
  unfold one_line.
  rewrite !ann_line_free_of by (first [assumption | reflexivity | discriminate]).
  unfold ann_line.
  change ("T" +:+ py_str term_idx) with (String "T" (py_str term_idx)).
  rewrite append_cons. reflexivity.
Qed.

End AnnLine.

End TextFiles.

(** ** [Doc.char_span] on the offsets of [offsets_from_biluo_tags] *)

Section CharSpan.

Variable doc : Doc.
Hypothesis Hwf : doc_wf doc.

Lemma token_by_start_first (tokens : list Token) (k i : nat) (t : Token) :
  tokens !! i = Some t ->
  (forall j tj, j < i -> tokens !! j = Some tj -> idx tj <> idx t) ->
  SpacyDoc.token_by_start tokens k (idx t) = Some (k + i).
Proof.
  revert k i. induction tokens as [|t0 tokens IH]; intros k i Hi Hfirst.
  - rewrite lookup_nil in Hi. discriminate.
  - destruct i as [|i]; cbn [SpacyDoc.token_by_start].
    + injection Hi as ->. rewrite Z.eqb_refl. f_equal. lia.
    + simpl in Hi. destruct (Z.eqb_spec (idx t0) (idx t)) as [E|_].
      * exfalso. apply (Hfirst 0 t0); [lia | reflexivity | exact E].
      * rewrite (IH (S k) i); [f_equal; lia | exact Hi |].
        intros j tj Hj Hl. apply (Hfirst (S j) tj); [lia | exact Hl].
Qed.

Lemma token_by_end_first (tokens : list Token) (k i : nat) (t : Token) :
  tokens !! i = Some t ->
  (forall j tj, j < i -> tokens !! j = Some tj ->
                token_end tj <> token_end t) ->
  SpacyDoc.token_by_end tokens k (token_end t) = Some (k + i).
Proof.
  revert k i. induction tokens as [|t0 tokens IH]; intros k i Hi Hfirst.
  - rewrite lookup_nil in Hi. discriminate.
  - destruct i as [|i]; cbn [SpacyDoc.token_by_end].
    + injection Hi as ->. rewrite Z.eqb_refl. f_equal. lia.
    + simpl in Hi.
      destruct (Z.eqb_spec (token_end t0) (token_end t)) as [E|_].
      * exfalso. apply (Hfirst 0 t0); [lia | reflexivity | exact E].
      * rewrite (IH (S k) i); [f_equal; lia | exact Hi |].
        intros j tj Hj Hl. apply (Hfirst (S j) tj); [lia | exact Hl].
Qed.

(** In a well-formed document the span from the start of token [i] to
    the end of token [j] is found, and is the span of the tokens
    [i .. j]. *)
Lemma char_span_tokens (i j : nat) (ti tj : Token) :
  doc !! i = Some ti -> doc !! j = Some tj -> i <= S j ->
  SpacyDoc.char_span doc (idx ti) (token_end tj) = Ok (Some (i, S j)).
Proof.
  intros Hi Hj Hle. unfold SpacyDoc.char_span.
  rewrite (token_by_start_first doc 0 i ti Hi).
  2:{ intros k tk Hk Hlk E.
      pose proof (idx_inj doc Hwf k i tk ti Hlk Hi E). lia. }
  rewrite (token_by_end_first doc 0 j tj Hj).
  2:{ intros k tk Hk Hlk E.
      pose proof (end_inj doc Hwf k j tk tj Hlk Hj E). lia. }
  cbn [Nat.add]. apply lookup_lt_Some in Hj.
  rewrite bool_decide_eq_true_2 by lia. reflexivity.
Qed.

Lemma span_offsets_char_span (x : string * option nat * nat) (e : Entity) :
  Spacy.span_offsets doc x = Ok e ->
  exists i j, SpacyDoc.char_span doc e.1.1 e.1.2 = Ok (Some (i, j)).
Proof.
  destruct x as [[label [s|]] end_idx]; cbn [Spacy.span_offsets];
    [|discriminate].
  destruct (bool_decide _) eqn:Hb; [|discriminate].
  apply bool_decide_eq_true_1 in Hb.
  destruct (doc !! s) as [ts|] eqn:Hs; [|discriminate].
  destruct (doc !! end_idx) as [te|] eqn:He; [|discriminate].
  intros [= <-]. exists s, (S end_idx). cbn [fst snd].
  apply char_span_tokens; [assumption | assumption | lia].
Qed.

Lemma collect_ok_Forall {A B : Type} (f : A -> result B) (xs : list A)
    (ys : list B) :
  collect f xs = Ok ys -> Forall (fun y => exists x, f x = Ok y) ys.
Proof.
  revert ys. induction xs as [|x xs IH]; intros ys; cbn [collect].
  - intros [= <-]. constructor.
  - destruct (f x) as [y|] eqn:Hy; cbn [bind]; [|discriminate].
    destruct (collect f xs) as [ys'|]; cbn [bind]; [|discriminate].
    intros [= <-]. constructor; [eauto | now apply IH].
Qed.

Lemma offsets_char_span (tags : list string) (ents : list Entity) :
  Spacy.offsets_from_biluo_tags doc tags = Ok ents ->
  Forall (fun e => exists i j,
            SpacyDoc.char_span doc e.1.1 e.1.2 = Ok (Some (i, j))) ents.
Proof.
  unfold Spacy.offsets_from_biluo_tags.
  destruct (Spacy.tags_to_entities tags) as [xs|]; cbn [bind]; [|discriminate].
  intros H%collect_ok_Forall.
  eapply Forall_impl; [exact H|].
  intros e [x Hx]. now apply (span_offsets_char_span x).
Qed.

End CharSpan.

(** ** The annotation file written from a CoNLL file, read back *)

Section AnnFile.

Variable span_text : Doc -> nat -> nat -> string.
Variable doc : Doc.

Lemma form_ann_line_ok (term_idx : Z) (e : Entity) (tag_name : string) :
  (exists i j, SpacyDoc.char_span doc e.1.1 e.1.2 = Ok (Some (i, j))) ->
  _form_ann_line span_text term_idx e tag_name doc
  = Returned (ann_line term_idx tag_name e.1.1 e.1.2
                (surface_of span_text doc e)).
Proof.
  intros (i & j & H). destruct e as [[s e'] label].
  unfold _form_ann_line, surface_of. cbn [fst snd] in *. rewrite H.
  cbn [of_result obind Py.join]. unfold ann_line. do 2 f_equal.
  change (String tab EmptyString +:+ ?x) with (String tab x).
  now rewrite !append_assoc.
Qed.

Lemma form_ann_lines_ok (tag_name : string) (char_offsets : list Entity)
    (ann_lines : list string) (term_idx : Z) :
  Forall (fun e => exists i j,
            SpacyDoc.char_span doc e.1.1 e.1.2 = Ok (Some (i, j)))
    char_offsets ->
  form_ann_lines span_text doc tag_name char_offsets ann_lines term_idx
  = Returned
      (ann_lines ++ ann_lines_of span_text doc tag_name char_offsets term_idx,
       (term_idx + Z.of_nat (length char_offsets))%Z).
Proof.
  intros H. revert ann_lines term_idx.
  induction H as [|e rest He _ IH]; intros ann_lines term_idx.
  - cbn [form_ann_lines ann_lines_of length]. rewrite app_nil_r.
    do 2 f_equal. lia.
  - cbn [form_ann_lines ann_lines_of length].
    rewrite (form_ann_line_ok _ _ _ He). cbn [obind].
    rewrite IH, <- app_assoc. do 2 f_equal. lia.
Qed.

(** The property of a line that makes the loader read it. *)
Local Abbreviation written_line l :=
  (exists term_idx tag_name start_offset end_offset surface_form,
     l = ann_line term_idx tag_name start_offset end_offset surface_form
     /\ tag_name <> EmptyString /\ Py.no_space tag_name = true
     /\ clean_surface surface_form = true).

Lemma ann_lines_of_written (tag_name : string) (char_offsets : list Entity)
    (term_idx : Z) :
  tag_name <> EmptyString -> Py.no_space tag_name = true ->
  Forall (fun e => clean_surface (surface_of span_text doc e) = true)
    char_offsets ->
  Forall (fun l => written_line l)
    (ann_lines_of span_text doc tag_name char_offsets term_idx).
Proof.
  intros Hne Hns H. revert term_idx.
  induction H as [|e rest He _ IH]; intros term_idx; cbn [ann_lines_of];
    constructor; [|apply IH].
  eexists _, _, _, _, _. repeat split; eauto.
Qed.

Lemma written_one_line (ls : list string) :
  Forall (fun l => written_line l) ls ->
  Forall (fun l => one_line l = true) ls.
Proof.
  intros H. eapply Forall_impl; [exact H|]. cbv beta.
  intros l (k & tag & s & e & surf & -> & _ & Hns & Hc).
  now apply ann_line_one_line.
Qed.

Lemma annotation_of_written (entity l nl : string) :
  written_line l -> nl = EmptyString \/ nl = newline ->
  has_bad_offsets (l +:+ nl) = false
  /\ ann_key <$> annotation_of entity (l +:+ nl)
     = ann_key <$> annotation_of entity l.
Proof.
  intros (k & tag & s & e & surf & -> & Hne & Hns & Hc) Hnl.
  unfold has_bad_offsets, annotation_of.
  rewrite (classify_ann_line k s e tag surf nl Hne Hns Hc Hnl).
  split; [reflexivity|].
  rewrite <- (append_nil_r (ann_line k tag s e surf)).
  rewrite (classify_ann_line k s e tag surf EmptyString Hne Hns Hc
             (or_introl eq_refl)).
  cbn [ann_tag]. destruct (String.eqb _ _); reflexivity.
Qed.

Lemma omap_key_cons (entity l : string) (ls : list string) :
  ann_key <$> omap (annotation_of entity) (l :: ls)
  = match ann_key <$> annotation_of entity l with
    | Some k => [k]
    | None => []
    end ++ (ann_key <$> omap (annotation_of entity) ls).
Proof.
  cbn [omap list_omap]. destruct (annotation_of entity l); reflexivity.
Qed.

(** The loader reads the file as it reads the lines that were joined
    into it. *)
Lemma loader_reads_written (entity : string) (ls : list string) :
  Forall (fun l => written_line l) ls ->
  Forall (fun l => has_bad_offsets l = false) (with_terminators ls)
  /\ ann_key <$> omap (annotation_of entity) (with_terminators ls)
     = ann_key <$> omap (annotation_of entity) ls.
Proof.
  induction 1 as [|l ls Hl Hls [IH1 IH2]]; [split; [constructor|reflexivity]|].
  destruct ls as [|l' ls].
  - cbn [with_terminators].
    destruct (annotation_of_written entity l EmptyString Hl
                (or_introl eq_refl)) as [Hb _].
    rewrite append_nil_r in Hb. split; [|reflexivity].
    constructor; [exact Hb | constructor].
  - change (with_terminators (l :: l' :: ls))
      with ((l +:+ newline) :: with_terminators (l' :: ls)).
    destruct (annotation_of_written entity l newline Hl
                (or_intror eq_refl)) as [Hb Hk].
    split; [constructor; assumption|].
    rewrite (omap_key_cons entity (l +:+ newline)),
      (omap_key_cons entity l (l' :: ls)), Hk, IH2. reflexivity.
Qed.

Lemma term_ids_cons (first : Z) (n : nat) :
  term_ids first (S n)
  = ("T" +:+ py_str first) :: term_ids (first + 1) n.
Proof.
  unfold term_ids. rewrite seqZ_cons by lia. cbn [map].
  do 3 f_equal; lia.
Qed.

(** What the loader reads of the lines written for one tag name. *)
Lemma omap_ann_lines_of (entity tag_name : string)
    (char_offsets : list Entity) (term_idx : Z) :
  tag_name <> EmptyString -> Py.no_space tag_name = true ->
  Forall (fun e => clean_surface (surface_of span_text doc e) = true)
    char_offsets ->
  ann_key <$> omap (annotation_of entity)
                (ann_lines_of span_text doc tag_name char_offsets term_idx)
  = if String.eqb (Py.lower tag_name) (Py.lower entity)
    then zip (map (retag tag_name) char_offsets)
           (term_ids term_idx (length char_offsets))
    else [].
Proof.
  intros Hne Hns H. revert term_idx.
  induction H as [|e rest He _ IH]; intros term_idx.
  - cbn. now destruct (String.eqb _ _).
  - cbn [ann_lines_of length]. rewrite omap_key_cons, IH, term_ids_cons.
    unfold annotation_of.
    rewrite <- (append_nil_r (ann_line _ _ _ _ _)).
    rewrite (classify_ann_line term_idx e.1.1 e.1.2 tag_name _ EmptyString
               Hne Hns He (or_introl eq_refl)).
    cbn [ann_tag]. destruct (String.eqb _ _); reflexivity.
Qed.

End AnnFile.

Section AnnFileRoundTrip.

Variable nlp : string -> Doc.
Variable span_text : Doc -> nat -> nat -> string.
Variable ignore_warning : bool.
Variables (conll : list string) (txt file_id : string).
Variables (words task_tags process_tags material_tags : list string).
Variables (task process material : list Entity).

Hypothesis Hwf : doc_wf (nlp txt).
Hypothesis Hread :
  read_conll conll [] [] [] []
  = Ok (words, task_tags, process_tags, material_tags).
Hypothesis Htask :
  Spacy.offsets_from_biluo_tags (nlp txt) task_tags = Ok task.
Hypothesis Hprocess :
  Spacy.offsets_from_biluo_tags (nlp txt) process_tags = Ok process.
Hypothesis Hmaterial :
  Spacy.offsets_from_biluo_tags (nlp txt) material_tags = Ok material.
Hypothesis Hclean :
  Forall (fun e => clean_surface (surface_of span_text (nlp txt) e) = true)
    (task ++ process ++ material).

Local Abbreviation first_process := (0 + Z.of_nat (length task))%Z.
Local Abbreviation first_material :=
  (0 + Z.of_nat (length task) + Z.of_nat (length process))%Z.

Local Abbreviation written :=
  (ann_lines_of span_text (nlp txt) "Task" task 0
   ++ ann_lines_of span_text (nlp txt) "Process" process first_process
   ++ ann_lines_of span_text (nlp txt) "Material" material first_material).

Lemma ann_lines_from_conll_ok :
  ann_lines_from_conll nlp span_text conll txt = Returned written.
Proof.
  unfold ann_lines_from_conll. rewrite Hread. cbn [of_result obind].
  rewrite Htask, Hprocess, Hmaterial. cbn [of_result obind].
  rewrite form_ann_lines_ok by (eapply offsets_char_span; eassumption).
  cbn [obind fst snd].
  rewrite form_ann_lines_ok by (eapply offsets_char_span; eassumption).
  cbn [obind fst snd].
  rewrite form_ann_lines_ok by (eapply offsets_char_span; eassumption).
  cbn [obind fst snd app]. now rewrite <- app_assoc.
Qed.

Lemma clean_parts :
  Forall (fun e => clean_surface (surface_of span_text (nlp txt) e) = true)
    task
  /\ Forall (fun e => clean_surface (surface_of span_text (nlp txt) e) = true)
       process
  /\ Forall (fun e => clean_surface (surface_of span_text (nlp txt) e) = true)
       material.
Proof.
  pose proof Hclean as H.
  apply Forall_app in H as [H1 H]. apply Forall_app in H as [H2 H3]. auto.
Qed.

Lemma written_lines : Forall
  (fun l => exists term_idx tag_name start_offset end_offset surface_form,
     l = ann_line term_idx tag_name start_offset end_offset surface_form
     /\ tag_name <> EmptyString /\ Py.no_space tag_name = true
     /\ clean_surface surface_form = true) written.
Proof.
  destruct clean_parts as (H1 & H2 & H3).
  repeat apply Forall_app_2;
    apply ann_lines_of_written; (discriminate || reflexivity || assumption).
Qed.

(** Loading an entity type from the written file. *)
Lemma load_written (entity : string) :
  exists annotations,
    (_get_annotations_for_entity ignore_warning
       (fun _ => file_lines (Py.join newline written)) file_id entity).1
    = Ok annotations
    /\ ann_key <$> annotations
       = (if String.eqb (Py.lower "Task") (Py.lower entity)
          then zip (map (retag "Task") task) (term_ids 0 (length task))
          else [])
         ++ (if String.eqb (Py.lower "Process") (Py.lower entity)
             then zip (map (retag "Process") process)
                    (term_ids first_process (length process))
             else [])
         ++ (if String.eqb (Py.lower "Material") (Py.lower entity)
             then zip (map (retag "Material") material)
                    (term_ids first_material (length material))
             else []).
Proof.
  destruct clean_parts as (H1 & H2 & H3).
  pose proof written_lines as Hw.
  destruct (loader_reads_written entity _ Hw) as [Hbad Hkeys].
  unfold _get_annotations_for_entity.
  rewrite file_lines_join by (apply written_one_line, Hw).
  rewrite annotations_loop_spec by exact Hbad.
  cbn [app].
  exists (omap (annotation_of entity) (with_terminators written)).
  split; [destruct (length _ =? 0); reflexivity|].
  rewrite Hkeys, !omap_app, !fmap_app.
  rewrite !omap_ann_lines_of by (discriminate || reflexivity || assumption).
  reflexivity.
Qed.

Lemma term_ids_length (first : Z) (n : nat) :
  length (term_ids first n) = n.
Proof. unfold term_ids. rewrite length_map, length_seqZ. lia. Qed.

Lemma keys_split (annotations : list Annotation) (tag_name : string)
    (char_offsets : list Entity) (first : Z) :
  ann_key <$> annotations
  = zip (map (retag tag_name) char_offsets)
      (term_ids first (length char_offsets)) ->
  entities_of annotations = map (retag tag_name) char_offsets
  /\ map ann_entity_number annotations
     = term_ids first (length char_offsets).
Proof.
  intros H. split.
  - transitivity ((ann_key <$> annotations).*1).
    + unfold entities_of.
      change (map ?f ?l) with (f <$> l).
      rewrite <- list_fmap_compose. reflexivity.
    + rewrite H. apply fst_zip.
      rewrite length_map, term_ids_length. lia.
  - transitivity ((ann_key <$> annotations).*2).
    + change (map ?f ?l) with (f <$> l).
      rewrite <- list_fmap_compose. reflexivity.
    + rewrite H. apply snd_zip.
      rewrite length_map, term_ids_length. lia.
Qed.

End AnnFileRoundTrip.

(** X9.  [write_ann_file_from_conll_file] followed by
    [_get_annotations_for_entity].  Let the document of the text be well
    formed (tokens not empty, one after the other), let every line of the
    CoNLL file unpack, let [offsets_from_biluo_tags] return for each of
    the three tag columns, and let no surface form hold a tab, a line
    feed or a carriage return.  Then the annotation file is written, and
    loading it gives back, for each of Task, Process and Material, the
    spans of that column in order, tagged with the entity type; the
    entity numbers are T0, T1, ... through the Task spans, then the
    Process spans, then the Material spans. *)
Theorem ann_file_round_trip (nlp : string -> Doc)
    (span_text : Doc -> nat -> nat -> string) (ignore_warning : bool)
    (conll : list string) (txt file_id : string)
    (words task_tags process_tags material_tags : list string)
    (task process material : list Entity) :
  let doc := nlp txt in
  doc_wf doc ->
  read_conll conll [] [] [] []
    = Ok (words, task_tags, process_tags, material_tags) ->
  Spacy.offsets_from_biluo_tags doc task_tags = Ok task ->
  Spacy.offsets_from_biluo_tags doc process_tags = Ok process ->
  Spacy.offsets_from_biluo_tags doc material_tags = Ok material ->
  Forall (fun e => clean_surface (surface_of span_text doc e) = true)
    (task ++ process ++ material) ->
  exists content,
    write_ann_file_from_conll_file nlp span_text conll txt = Returned content
    /\ let load entity :=
         (_get_annotations_for_entity ignore_warning
            (fun _ => file_lines content) file_id entity).1 in
       exists task_anns process_anns material_anns,
         load "Task" = Ok task_anns
         /\ load "Process" = Ok process_anns
         /\ load "Material" = Ok material_anns
         /\ entities_of task_anns = map (retag "Task") task
         /\ entities_of process_anns = map (retag "Process") process
         /\ entities_of material_anns = map (retag "Material") material
         /\ map ann_entity_number task_anns = term_ids 0 (length task)
         /\ map ann_entity_number process_anns
            = term_ids (Z.of_nat (length task)) (length process)
         /\ map ann_entity_number material_anns
            = term_ids (Z.of_nat (length task + length process))
                (length material).
Proof.
  intros doc Hwf Hread Htask Hprocess Hmaterial Hclean. subst doc.
  eexists. split.
  { unfold write_ann_file_from_conll_file.
    rewrite (ann_lines_from_conll_ok nlp span_text conll txt words
               task_tags process_tags material_tags task process material)
      by assumption.
    reflexivity. }
  cbv zeta.
  destruct (load_written nlp span_text ignore_warning txt file_id
              task process material Hclean "Task") as (ta & Hta & Kta).
  destruct (load_written nlp span_text ignore_warning txt file_id
              task process material Hclean "Process") as (pa & Hpa & Kpa).
  destruct (load_written nlp span_text ignore_warning txt file_id
              task process material Hclean "Material") as (ma & Hma & Kma).
  exists ta, pa, ma.
  change (String.eqb (Py.lower "Task") (Py.lower "Task")) with true in Kta.
  change (String.eqb (Py.lower "Process") (Py.lower "Task"))
    with false in Kta.
  change (String.eqb (Py.lower "Material") (Py.lower "Task"))
    with false in Kta.
  change (String.eqb (Py.lower "Task") (Py.lower "Process"))
    with false in Kpa.
  change (String.eqb (Py.lower "Process") (Py.lower "Process"))
    with true in Kpa.
  change (String.eqb (Py.lower "Material") (Py.lower "Process"))
    with false in Kpa.
  change (String.eqb (Py.lower "Task") (Py.lower "Material"))
    with false in Kma.
  change (String.eqb (Py.lower "Process") (Py.lower "Material"))
    with false in Kma.
  change (String.eqb (Py.lower "Material") (Py.lower "Material"))
    with true in Kma.
  cbv iota in Kta, Kpa, Kma.
  rewrite app_nil_r in Kta, Kpa. cbn [app] in Kpa, Kma.
  apply keys_split in Kta as [E1 N1].
  apply keys_split in Kpa as [E2 N2].
  apply keys_split in Kma as [E3 N3].
  rewrite Z.add_0_l in N2.
  replace (0 + Z.of_nat (length task) + Z.of_nat (length process))%Z
    with (Z.of_nat (length task + length process)) in N3 by lia.
  repeat split; assumption.
Qed.

Lemma ann_file_round_trip_witness :
  exists content,
    write_ann_file_from_conll_file nlp_ex span_text_ex conll_ex
      "AI is useful." = Returned content
    /\ let load entity :=
         (_get_annotations_for_entity false
            (fun _ => file_lines content) "ai" entity).1 in
       exists task_anns process_anns material_anns,
         load "Task" = Ok task_anns
         /\ load "Process" = Ok process_anns
         /\ load "Material" = Ok material_anns
         /\ entities_of task_anns = map (retag "Task") [(0, 2, "Task")%Z]
         /\ entities_of process_anns
            = map (retag "Process") [(3, 12, "Process")%Z]
         /\ entities_of material_anns
            = map (retag "Material") [(6, 12, "Material")%Z]
         /\ map ann_entity_number task_anns = term_ids 0 1
         /\ map ann_entity_number process_anns = term_ids 1 1
         /\ map ann_entity_number material_anns = term_ids 2 1.
Proof.
  apply (ann_file_round_trip nlp_ex span_text_ex false conll_ex
           "AI is useful." "ai"
           ["AI"; "is"; "useful"; "."]
           ["U-Task"; "O-Task"; "O-Task"; "O-Task"]
           ["O-Process"; "B-Process"; "L-Process"; "O-Process"]
           ["O-Material"; "O-Material"; "U-Material"; "O-Material"]
           [(0, 2, "Task")%Z] [(3, 12, "Process")%Z]
           [(6, 12, "Material")%Z]).
  - exact doc_ai_wf.
  - reflexivity.
  - reflexivity.
  - reflexivity.
  - reflexivity.
  - repeat constructor.
Defined.

(** ** Lines of a CoNLL file that do not unpack *)

Lemma read_conll_bad_line (lines : list string) (line : string)
    (words task_tags process_tags material_tags : list string) :
  In line lines ->
  length (Py.split_ws line) <> 3 -> length (Py.split_ws line) <> 4 ->
  read_conll lines words task_tags process_tags material_tags
  = Raise ValueError.
Proof.
  intros Hin H3 H4.
  revert words task_tags process_tags material_tags.
  induction lines as [|l lines IH]; [destruct Hin|].
  intros words task_tags process_tags material_tags.
  cbn [read_conll].
  destruct Hin as [->|Hin].
  - destruct (Py.split_ws line) as [|a [|b [|c [|d [|x xs]]]]];
      cbn in *; congruence.
  - destruct (Py.split_ws l) as [|a [|b [|c [|d [|x xs]]]]];
      cbn [unpack4 unpack3 bind]; try reflexivity; now apply IH.
Qed.

(** X10.  [write_ann_file_from_conll_file] on a CoNLL file with a line
    that splits into neither four nor three fields, a blank line for
    one: the call raises [ValueError], whatever the other lines and the
    text are; nothing is written. *)
Theorem conll_bad_line_raises (nlp : string -> Doc)
    (span_text : Doc -> nat -> nat -> string)
    (conll : list string) (txt line : string) :
  In line conll ->
  length (Py.split_ws line) <> 3 -> length (Py.split_ws line) <> 4 ->
  write_ann_file_from_conll_file nlp span_text conll txt = Raised ValueError.
Proof.
  intros Hin H3 H4.
  unfold write_ann_file_from_conll_file, ann_lines_from_conll.
  now rewrite (read_conll_bad_line conll line [] [] [] [] Hin H3 H4).
Qed.

Lemma conll_bad_line_raises_witness :
  write_ann_file_from_conll_file nlp_ex span_text_ex
    ["AI U-Task O-Process O-Material" +:+ newline; newline;
     "is O-Task B-Process O-Material" +:+ newline] "AI is useful."
  = Raised ValueError.
Proof.
  apply (conll_bad_line_raises nlp_ex span_text_ex _ _ newline).
  - right. left. reflexivity.
  - discriminate.
  - discriminate.
Defined.

(** ** What [write_bilou_lines] writes, read back *)

Section WrittenText.

Lemma chunks_cons (g : list string) (gs : list (list string)) :
  chunks (g :: gs)
  = Py.join newline g +:+ newline +:+ newline +:+ chunks gs.
Proof. reflexivity. Qed.

Lemma chunks_app (gs1 gs2 : list (list string)) :
  chunks (gs1 ++ gs2) = chunks gs1 +:+ chunks gs2.
Proof.
  induction gs1 as [|g gs1 IH]; [reflexivity|].
  cbn [app]. rewrite !chunks_cons, IH, !append_assoc. reflexivity.
Qed.

Lemma write_lines_chunks (content : string) (groups : list (list string)) :
  write_lines content groups = content +:+ chunks groups.
Proof.
  unfold write_lines. revert content.
  induction groups as [|g gs IH]; intros content.
  - cbn. now rewrite append_nil_r.
  - cbn [foldl]. rewrite IH, chunks_cons, !append_assoc. reflexivity.
Qed.

Lemma file_lines_from_lines (l : string) (g : list string) (rest : string) :
  Forall (fun l => one_line l = true) (l :: g) ->
  file_lines_from
    (Py.join newline (l :: g) +:+ newline +:+ newline +:+ rest) EmptyString
  = map (fun l => l +:+ newline) ((l :: g) ++ [EmptyString])
      ++ file_lines_from rest EmptyString.
Proof.
  revert l. induction g as [|l' g IH]; intros l Hall.
  - apply Forall_inv in Hall. apply one_line_inv in Hall as (_ & Hlf & Hcr).
    cbn [Py.join]. rewrite file_lines_from_app, append_nil_l by assumption.
    reflexivity.
  - pose proof (Forall_inv Hall) as Hl.
    apply one_line_inv in Hl as (_ & Hlf & Hcr).
    apply Forall_inv_tail in Hall.
    change (Py.join newline (l :: l' :: g))
      with (l +:+ newline +:+ Py.join newline (l' :: g)).
    rewrite !append_assoc.
    rewrite file_lines_from_app, append_nil_l by assumption.
    change (newline +:+ ?s) with (String line_feed s).
    cbn [file_lines_from].
    change (Ascii.eqb line_feed line_feed) with true. cbv iota.
    rewrite (IH l' Hall). reflexivity.
Qed.

Lemma file_lines_from_group (g : list string) (rest : string) :
  Forall (fun l => one_line l = true) g ->
  file_lines_from
    (Py.join newline g +:+ newline +:+ newline +:+ rest) EmptyString
  = group_lines g ++ file_lines_from rest EmptyString.
Proof.
  destruct g as [|l g]; [reflexivity|]. apply file_lines_from_lines.
Qed.

(** Reading back what the writes of lines 150-151 wrote. *)
Lemma file_lines_chunks (groups : list (list string)) :
  Forall (Forall (fun l => one_line l = true)) groups ->
  file_lines (chunks groups) = concat (map group_lines groups).
Proof.
  unfold file_lines. induction 1 as [|g gs Hg _ IH]; [reflexivity|].
  rewrite chunks_cons, (file_lines_from_group g _ Hg), IH. reflexivity.
Qed.

Lemma bilou_line_one_line (token : Token) (tag : string) :
  text token <> EmptyString -> Py.no_space (text token) = true ->
  Py.no_space tag = true -> one_line (bilou_line token tag) = true.
Proof.
  intros Hne Hw Ht. unfold one_line. rewrite bilou_line_unfold.
  rewrite !free_of_app.
  rewrite !(no_space_free_of _ (text token)) by (reflexivity || assumption).
  rewrite !(no_space_free_of _ tag) by (reflexivity || assumption).
  destruct (text token) as [|c w]; [congruence | reflexivity].
Qed.

Lemma same_token_one_line (lt lp lm : string) :
  same_token lt lp lm ->
  one_line lt = true /\ one_line lp = true /\ one_line lm = true.
Proof.
  intros (token & tt & tp & tm & -> & -> & -> & [Hne Hw] & [_ Ht] & [_ Hp]
          & [_ Hm]).
  repeat split; now apply bilou_line_one_line.
Qed.

End WrittenText.

Section Aligned.

Context {A B C : Type}.
Variable P : A -> B -> C -> Prop.

Lemma Forall3_concat (ls : list (list A)) (ks : list (list B))
    (ms : list (list C)) :
  Forall3 (Forall3 P) ls ks ms ->
  Forall3 P (concat ls) (concat ks) (concat ms).
Proof.
  induction 1; cbn [concat]; [constructor | now apply Forall3_app].
Qed.

Lemma Forall3_default_lookup (ls : list (list A)) (ks : list (list B))
    (ms : list (list C)) (i : nat) :
  Forall3 (Forall3 P) ls ks ms ->
  Forall3 P (default [] (ls !! i)) (default [] (ks !! i))
    (default [] (ms !! i)).
Proof.
  intros H. revert i. induction H as [|x y z l k m Hxyz _ IH]; intros i.
  - rewrite !lookup_nil. constructor.
  - destruct i as [|i]; [exact Hxyz | apply IH].
Qed.

Lemma Forall3_alter (f : A -> A) (g : B -> B) (h : C -> C) (i : nat)
    (l : list A) (k : list B) (m : list C) :
  (forall x y z, P x y z -> P (f x) (g y) (h z)) ->
  Forall3 P l k m ->
  Forall3 P (alter f i l) (alter g i k) (alter h i m).
Proof.
  intros Hf H. revert i.
  induction H as [|x y z l k m Hxyz Hrest IH]; intros i.
  - constructor.
  - destruct i as [|i].
    + constructor; [now apply Hf | assumption].
    + constructor; [assumption | apply IH].
Qed.

Lemma Forall3_of_Forall2 {I : Type} (Q1 : I -> A -> Prop)
    (Q2 : I -> B -> Prop) (Q3 : I -> C -> Prop) (ids : list I)
    (l : list A) (k : list B) (m : list C) :
  (forall i x y z, In i ids -> Q1 i x -> Q2 i y -> Q3 i z -> P x y z) ->
  Forall2 Q1 ids l -> Forall2 Q2 ids k -> Forall2 Q3 ids m ->
  Forall3 P l k m.
Proof.
  intros HP H1. revert k m. induction H1 as [|i x ids l Hx _ IH];
    intros k m H2 H3.
  - apply Forall2_nil_inv_l in H2 as ->.
    apply Forall2_nil_inv_l in H3 as ->. constructor.
  - apply Forall2_cons_inv_l in H2 as (y & k' & Hy & H2 & ->).
    apply Forall2_cons_inv_l in H3 as (z & m' & Hz & H3 & ->).
    constructor.
    + apply (HP i); [now left | assumption..].
    + apply IH; [|assumption..].
      intros j ? ? ? Hj. apply HP. now right.
Qed.

End Aligned.

(** ** The three per-entity files line up *)

Section ThreeFiles.

Variable nlp : string -> Doc.
Variable ignore_warning : bool.
Variable ann_file : string -> list string.
Variable txt_first_line : string -> string.

Lemma same_token_intro (token : Token) (ta tb tc : string) :
  is_space token = false -> token_clean token ->
  tag_clean ta -> tag_clean tb -> tag_clean tc ->
  same_token (bilou_line token ta) (bilou_line token tb)
    (bilou_line token tc).
Proof.
  intros Hsp Htok [Ha1 Ha2] [Hb1 Hb2] [Hc1 Hc2]. exists token, ta, tb, tc.
  destruct (Htok Hsp) as [Hw1 Hw2].
  repeat split; (reflexivity || assumption).
Qed.

Lemma lines_of_aligned (doc : Doc) (ta tb tc : list string) :
  length ta = length doc -> length tb = length doc ->
  length tc = length doc ->
  Forall token_clean doc ->
  Forall tag_clean ta ->
  Forall tag_clean tb ->
  Forall tag_clean tc ->
  Forall3 same_token (lines_of doc ta) (lines_of doc tb) (lines_of doc tc).
Proof.
  revert ta tb tc. induction doc as [|t doc IH]; intros ta tb tc La Lb Lc Hd.
  - destruct ta, tb, tc; try discriminate. constructor.
  - destruct ta as [|a ta], tb as [|b tb], tc as [|c tc]; try discriminate.
    intros Ha Hb Hc. rewrite !lines_of_cons.
    apply Forall3_app.
    + destruct (is_space t) eqn:Hsp; [constructor|].
      constructor; [|constructor].
      apply same_token_intro;
        [assumption | eapply Forall_inv; eassumption..].
    + apply IH; try (eapply Forall_inv_tail; eassumption).
      all: cbn in *; lia.
Qed.

Local Abbreviation aligned_states sa sb sc :=
  (sentences sb = sentences sa /\ sentences sc = sentences sa
   /\ current_sent sb = current_sent sa /\ current_sent sc = current_sent sa
   /\ Forall3 (Forall3 same_token) (heap sa) (heap sb) (heap sc)).

Lemma sentence_step_aligned (sa sb sc : SentState) (t : Token)
    (ta tb tc : string) :
  aligned_states sa sb sc -> token_clean t ->
  tag_clean ta -> tag_clean tb -> tag_clean tc ->
  aligned_states (sentence_step sa (ta, t)) (sentence_step sb (tb, t))
    (sentence_step sc (tc, t)).
Proof.
  intros (E1 & E2 & E3 & E4 & H) Ht Ha Hb Hc. unfold sentence_step.
  pose proof (Forall3_length_lm _ _ _ _ H) as L1.
  pose proof (Forall3_length_lr _ _ _ _ H) as L2.
  destruct (is_sent_start t), (is_space t) eqn:Hsp;
    cbn [negb heap sentences current_sent];
    rewrite ?E1, ?E2, ?E3, ?E4, <- ?L1, <- ?L2;
    repeat split; try assumption.
  - apply Forall3_app; [assumption|].
    constructor; [|constructor]. constructor; [|constructor].
    now apply same_token_intro.
  - apply Forall3_alter; [|assumption].
    intros x y z Hxyz. apply Forall3_app; [assumption|].
    constructor; [|constructor]. now apply same_token_intro.
Qed.

Lemma sentence_loop_aligned (ts : list Token) :
  forall (ta tb tc : list string) (sa sb sc : SentState),
    length ta = length ts -> length tb = length ts ->
    length tc = length ts ->
    Forall token_clean ts ->
    Forall tag_clean ta ->
    Forall tag_clean tb ->
    Forall tag_clean tc ->
    aligned_states sa sb sc ->
    aligned_states (foldl sentence_step sa (zip ta ts))
      (foldl sentence_step sb (zip tb ts))
      (foldl sentence_step sc (zip tc ts)).
Proof.
  induction ts as [|t ts IH]; intros ta tb tc sa sb sc La Lb Lc Hd.
  - destruct ta, tb, tc; try discriminate. intros _ _ _ H. exact H.
  - destruct ta as [|a ta], tb as [|b tb], tc as [|c tc]; try discriminate.
    intros Ha Hb Hc H. cbn [zip zip_with foldl].
    apply IH; try (eapply Forall_inv_tail; eassumption);
      try (cbn in *; lia).
    apply sentence_step_aligned;
      [assumption | eapply Forall_inv; eassumption..].
Qed.

Lemma read_sentences_aligned (sa sb sc : SentState) :
  aligned_states sa sb sc ->
  Forall3 (Forall3 same_token) (read_sentences sa) (read_sentences sb)
    (read_sentences sc).
Proof.
  intros (E1 & E2 & _ & _ & H). unfold read_sentences. rewrite E1, E2.
  clear E1 E2. induction (sentences sa) as [|r rs IH]; cbn [map]; [constructor|].
  constructor; [now apply Forall3_default_lookup | exact IH].
Qed.

(** The final state of the sentence-wise loop, read off
    [sentence_wise_state] when it returns. *)
Lemma sentence_wise_state_inv (txt : string) (annotations : list Annotation)
    (entity_type : string) (st : SentState) :
  sentence_wise_state nlp txt annotations entity_type = Ok st ->
  exists doc0 rest tag0 tags st0,
    nlp txt = doc0 :: rest
    /\ bilou_tags nlp txt annotations entity_type = tag0 :: tags
    /\ st0 = (if negb (is_space doc0)
              then mkSentState [[bilou_line doc0 tag0]] [] 0
              else mkSentState [[]] [] 0)
    /\ st = (let s := foldl sentence_step st0 (zip tags rest) in
             mkSentState (heap s) (sentences s ++ [current_sent s])
               (current_sent s)).
Proof.
  unfold sentence_wise_state.
  pose proof (bilou_tags_length nlp txt annotations entity_type) as Hlen.
  destruct (nlp txt) as [|doc0 rest]; [discriminate|].
  destruct (bilou_tags nlp txt annotations entity_type) as [|tag0 tags];
    [discriminate|].
  intros H. exists doc0, rest, tag0, tags. eexists.
  split; [reflexivity|]. split; [reflexivity|]. split; [reflexivity|].
  destruct (negb (is_space doc0)); cbn [bind tail] in H |- *;
    (destruct (_ =? _); [|discriminate]); injection H as <-; reflexivity.
Qed.

Lemma sentence_wise_aligned (txt : string) (aa ab ac : list Annotation)
    (ea eb ec : string) (sa sb sc : SentState) :
  Forall token_clean (nlp txt) ->
  Forall tag_clean (bilou_tags nlp txt aa ea) ->
  Forall tag_clean (bilou_tags nlp txt ab eb) ->
  Forall tag_clean (bilou_tags nlp txt ac ec) ->
  sentence_wise_state nlp txt aa ea = Ok sa ->
  sentence_wise_state nlp txt ab eb = Ok sb ->
  sentence_wise_state nlp txt ac ec = Ok sc ->
  Forall3 (Forall3 same_token) (read_sentences sa) (read_sentences sb)
    (read_sentences sc).
Proof.
  intros Hd Ha Hb Hc Sa Sb Sc.
  pose proof (bilou_tags_length nlp txt aa ea) as La.
  pose proof (bilou_tags_length nlp txt ab eb) as Lb.
  pose proof (bilou_tags_length nlp txt ac ec) as Lc.
  apply sentence_wise_state_inv in Sa
    as (d0 & rest & a0 & ta & s0a & Ed & Ea & -> & ->).
  apply sentence_wise_state_inv in Sb
    as (d0' & rest' & b0 & tb & s0b & Ed' & Eb & -> & ->).
  apply sentence_wise_state_inv in Sc
    as (d0'' & rest'' & c0 & tc & s0c & Ed'' & Ec & -> & ->).
  rewrite Ed in Ed', Ed''. injection Ed' as <- <-. injection Ed'' as <- <-.
  rewrite Ed in *. rewrite Ea in *. rewrite Eb in *. rewrite Ec in *.
  apply read_sentences_aligned. cbv zeta.
  cbn [heap sentences current_sent].
  assert (H : aligned_states
                (foldl sentence_step
                   (if negb (is_space d0)
                    then mkSentState [[bilou_line d0 a0]] [] 0
                    else mkSentState [[]] [] 0) (zip ta rest))
                (foldl sentence_step
                   (if negb (is_space d0)
                    then mkSentState [[bilou_line d0 b0]] [] 0
                    else mkSentState [[]] [] 0) (zip tb rest))
                (foldl sentence_step
                   (if negb (is_space d0)
                    then mkSentState [[bilou_line d0 c0]] [] 0
                    else mkSentState [[]] [] 0) (zip tc rest))).
  { apply sentence_loop_aligned;
      try (eapply Forall_inv_tail; eassumption); try (cbn in *; lia).
    destruct (is_space d0) eqn:Hsp; cbn [negb sentences current_sent heap];
      repeat split; constructor; constructor; try constructor.
    apply same_token_intro;
      [assumption | eapply Forall_inv; eassumption..]. }
  destruct H as (E1 & E2 & E3 & E4 & H).
  rewrite E1, E2, E3, E4. repeat split. exact H.
Qed.

Lemma loaded_tags_clean (file_id entity txt : string)
    (annotations : list Annotation) (log : list string) :
  Py.no_space entity = true ->
  _get_annotations_for_entity ignore_warning ann_file file_id entity
    = (Ok annotations, log) ->
  Forall tag_clean (bilou_tags nlp txt annotations entity).
Proof.
  intros He Hload.
  pose proof (loader_annotations_clean _ _ _ _ _ _ Hload) as Hanns.
  apply List.Forall_forall. intros tag Htag.
  exact (bilou_tag_clean nlp txt annotations entity tag He Hanns Htag).
Qed.

(** The lists of lines of one file for the three entity types. *)
Lemma bilou_groups_aligned (is_sentence_wise : bool) (file_id : string)
    (ea eb ec : string) (ga gb gc : list (list string)) :
  Py.no_space ea = true -> Py.no_space eb = true -> Py.no_space ec = true ->
  Forall token_clean (nlp (get_text_from_fileid txt_first_line file_id)) ->
  (bilou_groups nlp ignore_warning ann_file txt_first_line is_sentence_wise
     file_id ea).1 = Ok ga ->
  (bilou_groups nlp ignore_warning ann_file txt_first_line is_sentence_wise
     file_id eb).1 = Ok gb ->
  (bilou_groups nlp ignore_warning ann_file txt_first_line is_sentence_wise
     file_id ec).1 = Ok gc ->
  Forall3 (Forall3 same_token) ga gb gc.
Proof.
  intros Na Nb Nc Hd. unfold bilou_groups.
  destruct is_sentence_wise.
  - unfold get_sentence_wise_bilou_lines.
    destruct (_get_annotations_for_entity _ _ _ ea) as [[aa|?] la] eqn:Ha;
      [|discriminate].
    destruct (_get_annotations_for_entity _ _ _ eb) as [[ab|?] lb] eqn:Hb;
      [|intros _; discriminate].
    destruct (_get_annotations_for_entity _ _ _ ec) as [[ac|?] lc] eqn:Hc;
      [|intros _ _; discriminate].
    cbn [fst].
    destruct (sentence_wise_state _ _ aa ea) as [sa|] eqn:Sa;
      [|discriminate].
    destruct (sentence_wise_state _ _ ab eb) as [sb|] eqn:Sb;
      [|intros _; discriminate].
    destruct (sentence_wise_state _ _ ac ec) as [sc|] eqn:Sc;
      [|intros _ _; discriminate].
    cbn [bind]. intros [= <-] [= <-] [= <-].
    eapply sentence_wise_aligned; try eassumption;
      eapply loaded_tags_clean; eassumption.
  - unfold get_bilou_lines_for_entity.
    destruct (_get_annotations_for_entity _ _ _ ea) as [[aa|?] la] eqn:Ha;
      [|discriminate].
    destruct (_get_annotations_for_entity _ _ _ eb) as [[ab|?] lb] eqn:Hb;
      [|intros _; discriminate].
    destruct (_get_annotations_for_entity _ _ _ ec) as [[ac|?] lc] eqn:Hc;
      [|intros _ _; discriminate].
    cbn [fst]. intros [= <-] [= <-] [= <-].
    constructor; [|constructor]. rewrite !get_bilou_lines_eq.
    apply lines_of_aligned; try apply bilou_tags_length; try assumption;
      eapply loaded_tags_clean; eassumption.
Qed.

(** What the loop over the file ids has written when it ends. *)
Lemma write_file_ids_inv (is_sentence_wise : bool) (entity_type : string)
    (ids : list string) :
  forall (content : string) (log : list string) (u : unit)
         (content' : string) (log' : list string),
    write_file_ids nlp ignore_warning ann_file txt_first_line
      is_sentence_wise entity_type ids content log = (Ok u, content', log') ->
    exists groups,
      Forall2 (fun file_id gs =>
                 (bilou_groups nlp ignore_warning ann_file txt_first_line
                    is_sentence_wise file_id entity_type).1 = Ok gs)
        ids groups
      /\ content' = content +:+ chunks (concat groups).
Proof.
  induction ids as [|file_id ids IH]; intros content log u content' log'.
  - intros [= _ <- _]. exists []. split; [constructor|].
    cbn. now rewrite append_nil_r.
  - cbn [write_file_ids].
    destruct (bilou_groups _ _ _ _ _ file_id entity_type) as [[gs|e] l]
      eqn:Hg; [|discriminate].
    intros H. apply IH in H as (groups & Hall & ->).
    exists (gs :: groups). split.
    + constructor; [now rewrite Hg | exact Hall].
    + cbn [concat]. now rewrite write_lines_chunks, chunks_app, append_assoc.
Qed.

End ThreeFiles.

(** ** [merge_files] on the files of [write_bilou_lines] *)

Section Merging.

(** Three lines at the same position of the three files: all of them
    empty, or the lines of one token. *)
Local Abbreviation file_row a b c :=
  ((a = newline /\ b = newline /\ c = newline)
   \/ exists la lb lc,
        same_token la lb lc
        /\ a = la +:+ newline /\ b = lb +:+ newline /\ c = lc +:+ newline).

Lemma lines_rows (l k m : list string) :
  Forall3 same_token l k m ->
  Forall3 (fun a b c => file_row a b c)
    (map (fun l => l +:+ newline) (l ++ [EmptyString]))
    (map (fun l => l +:+ newline) (k ++ [EmptyString]))
    (map (fun l => l +:+ newline) (m ++ [EmptyString])).
Proof.
  induction 1 as [|x y z l k m Hxyz _ IH]; cbn [app map].
  - constructor; [|constructor]. left. repeat split; reflexivity.
  - constructor; [|exact IH]. right. exists x, y, z. auto.
Qed.

Lemma group_lines_aligned (ga gb gc : list string) :
  Forall3 same_token ga gb gc ->
  Forall3 (fun a b c => file_row a b c)
    (group_lines ga) (group_lines gb) (group_lines gc).
Proof.
  intros H. destruct H as [|x y z l k m Hxyz H].
  - constructor; [left; repeat split; reflexivity|].
    constructor; [left; repeat split; reflexivity|]. constructor.
  - apply (lines_rows (x :: l) (y :: k) (z :: m)). now constructor.
Qed.

Lemma file_rows_aligned (ga gb gc : list (list string)) :
  Forall3 (Forall3 same_token) ga gb gc ->
  Forall3 (fun a b c => file_row a b c)
    (concat (map group_lines ga)) (concat (map group_lines gb))
    (concat (map group_lines gc)).
Proof.
  induction 1 as [|x y z l k m Hxyz _ IH]; cbn [map concat]; [constructor|].
  apply Forall3_app; [now apply group_lines_aligned | exact IH].
Qed.

Lemma groups_one_line (ga gb gc : list (list string)) :
  Forall3 (Forall3 same_token) ga gb gc ->
  Forall (Forall (fun l => one_line l = true)) ga
  /\ Forall (Forall (fun l => one_line l = true)) gb
  /\ Forall (Forall (fun l => one_line l = true)) gc.
Proof.
  assert (Hin : forall l k m, Forall3 same_token l k m ->
            Forall (fun l => one_line l = true) l
            /\ Forall (fun l => one_line l = true) k
            /\ Forall (fun l => one_line l = true) m).
  { induction 1 as [|x y z l k m Hxyz _ (IH1 & IH2 & IH3)];
      [repeat split; constructor|].
    apply same_token_one_line in Hxyz as (H1 & H2 & H3).
    repeat split; constructor; assumption. }
  induction 1 as [|x y z l k m Hxyz _ (IH1 & IH2 & IH3)];
    [repeat split; constructor|].
  apply Hin in Hxyz as (H1 & H2 & H3).
  repeat split; constructor; assumption.
Qed.

Lemma merge_line_row (a b c : string) :
  file_row a b c ->
  exists row, merge_line a b c = Ok row /\ merged_row a b c row.
Proof.
  intros [(-> & -> & ->) | (la & lb & lc & Hs & -> & -> & ->)].
  - exists EmptyString. split; [reflexivity|]. left. auto.
  - destruct Hs as (token & tt & tp & tm & -> & -> & -> & [Hw Hws]
                    & [Ht Hts] & [Hp Hps] & [Hm Hms]).
    exists (Py.join " " [text token; tt; tp; tm]). split.
    + unfold merge_line.
      rewrite !bilou_line_strip by assumption.
      rewrite !bilou_line_columns by assumption.
      destruct (String.eqb (bilou_line token tt) EmptyString) eqn:E;
        [|reflexivity].
      apply String.eqb_eq in E. rewrite bilou_line_unfold in E.
      destruct (text token); [congruence | discriminate E].
    + right. exists token, tt, tp, tm. auto.
Qed.

Lemma merge_files_rows (a b c : list string) :
  Forall3 (fun a b c => file_row a b c) a b c ->
  exists rows,
    merge_files a b c = Ok rows
    /\ Forall2 (fun lines row => merged_row lines.1.1 lines.1.2 lines.2 row)
         (zip (zip a b) c) rows.
Proof.
  induction 1 as [|x y z l k m Hxyz _ (rows & Hrows & IH)].
  - exists []. split; [reflexivity | constructor].
  - apply merge_line_row in Hxyz as (row & Hrow & Hm).
    exists (row :: rows). split.
    + cbn [merge_files]. rewrite Hrow. cbn [bind]. rewrite Hrows. reflexivity.
    + cbn [zip zip_with]. constructor; [exact Hm | exact IH].
Qed.

End Merging.

(** X11.  [write_bilou_lines] followed by [merge_files], in either
    mode.  Let the tokens that are not whitespace be not empty and hold
    no whitespace.  When [write_bilou_lines] ends without an exception,
    the three files it wrote have the same number of lines, and
    [merge_files] on them ends without an exception (no unpacking
    fails).  It writes one row per line: an empty row where the three
    files hold an empty line, and else the three lines are the lines of
    one and the same token, and the row is that token followed by its
    Task, its Process and its Material tag. *)
Theorem merge_written_files (nlp : string -> Doc) (ignore_warning : bool)
    (ann_file : string -> list string) (txt_first_line : string -> string)
    (file_ids : list string) (filename_stem : string)
    (is_sentence_wise : bool) (process material task : string)
    (log : list string) :
  (forall file_id, In file_id file_ids ->
     Forall token_clean (nlp (get_text_from_fileid txt_first_line file_id))) ->
  write_bilou_lines nlp ignore_warning ann_file txt_first_line file_ids
    filename_stem is_sentence_wise
  = (Ok tt,
     [(conll_filename filename_stem "Process", process);
      (conll_filename filename_stem "Material", material);
      (conll_filename filename_stem "Task", task)], log) ->
  exists rows,
    merge_files (file_lines task) (file_lines process) (file_lines material)
    = Ok rows
    /\ length (file_lines process) = length (file_lines task)
    /\ length (file_lines material) = length (file_lines task)
    /\ Forall2
         (fun lines row => merged_row lines.1.1 lines.1.2 lines.2 row)
         (zip (zip (file_lines task) (file_lines process))
            (file_lines material))
         rows.
Proof.
  intros Htok Hwrite.
  unfold write_bilou_lines, entity_types in Hwrite.
  cbn [write_entity_types] in Hwrite.
  destruct (write_file_ids _ _ _ _ _ "Process" _ _ _) as [[[u1|e1] c1] l1]
    eqn:W1; [|discriminate].
  destruct (write_file_ids _ _ _ _ _ "Material" _ _ _) as [[[u2|e2] c2] l2]
    eqn:W2; [|discriminate].
  destruct (write_file_ids _ _ _ _ _ "Task" _ _ _) as [[[u3|e3] c3] l3]
    eqn:W3; [|discriminate].
  cbn [app] in Hwrite.
  assert (c1 = process /\ c2 = material /\ c3 = task) as (-> & -> & ->).
  { inversion Hwrite. auto. }
  clear Hwrite.
  apply write_file_ids_inv in W1 as (gp & Fp & ->).
  apply write_file_ids_inv in W2 as (gm & Fm & ->).
  apply write_file_ids_inv in W3 as (gt & Ft & ->).
  rewrite !append_nil_l.
  assert (HA : Forall3 (Forall3 same_token) (concat gt) (concat gp)
                 (concat gm)).
  { apply Forall3_concat.
    eapply (Forall3_of_Forall2 _ _ _ _ file_ids); [|exact Ft|exact Fp|exact Fm].
    cbv beta. intros file_id ga gb gc Hin Ha Hb Hc.
    eapply (bilou_groups_aligned nlp ignore_warning ann_file txt_first_line
              is_sentence_wise file_id "Task" "Process" "Material");
      try eassumption; try reflexivity.
    now apply Htok. }
  destruct (groups_one_line _ _ _ HA) as (O1 & O2 & O3).
  rewrite !file_lines_chunks by assumption.
  pose proof (file_rows_aligned _ _ _ HA) as HR.
  destruct (merge_files_rows _ _ _ HR) as (rows & Hrows & Hall).
  exists rows. repeat split; try assumption.
  - symmetry. exact (Forall3_length_lm _ _ _ _ HR).
  - symmetry. exact (Forall3_length_lr _ _ _ _ HR).
Qed.

Lemma merge_written_files_witness :
  exists rows,
    merge_files (file_lines task_file_ex) (file_lines process_file_ex)
      (file_lines material_file_ex) = Ok rows
    /\ length (file_lines process_file_ex) = length (file_lines task_file_ex)
    /\ length (file_lines material_file_ex)
       = length (file_lines task_file_ex)
    /\ Forall2
         (fun lines row => merged_row lines.1.1 lines.1.2 lines.2 row)
         (zip (zip (file_lines task_file_ex) (file_lines process_file_ex))
            (file_lines material_file_ex))
         rows.
Proof.
  apply (merge_written_files nlp_ex true ann_all_ex txt_ex ["ai"; "ws"]
           "train" true process_file_ex material_file_ex task_file_ex []).
  - intros file_id [<-|[<-|[]]].
    + change (nlp_ex (get_text_from_fileid txt_ex "ai")) with doc_ai.
      unfold doc_ai.
      repeat (apply List.Forall_cons;
              [intros _; split; [discriminate | reflexivity] |]).
      apply List.Forall_nil.
    + change (nlp_ex (get_text_from_fileid txt_ex "ws")) with doc_ws.
      unfold doc_ws.
      repeat (apply List.Forall_cons;
              [intros Hsp; split;
               [try discriminate Hsp; discriminate
               | try discriminate Hsp; reflexivity] |]).
      apply List.Forall_nil.
  - vm_compute. reflexivity.
Defined.

(** ** The number of rows [merge_files] writes *)

(** X12.  When [merge_files] ends without an exception it has written
    one row per line of the shortest of the three files: the lines a
    longer file holds beyond that are dropped without a message. *)
Theorem merge_files_length (task process material rows : list string) :
  merge_files task process material = Ok rows ->
  length rows
  = Nat.min (length task) (Nat.min (length process) (length material)).
Proof.
  revert process material rows.
  induction task as [|t task IH]; intros process material rows.
  - intros [= <-]. reflexivity.
  - destruct process as [|p process];
      [intros [= <-]; reflexivity|].
    destruct material as [|m material];
      [intros [= <-]; reflexivity|].
    cbn [merge_files].
    destruct (merge_line t p m) as [row|]; cbn [bind]; [|discriminate].
    destruct (merge_files task process material) as [rows'|] eqn:E;
      cbn [bind]; [|discriminate].
    intros [= <-]. cbn [length]. rewrite (IH _ _ _ E).
    rewrite <- !Nat.succ_min_distr. reflexivity.
Qed.

Lemma merge_files_length_witness :
  length ["AI U-Task O-Process O-Material"; EmptyString]
  = Nat.min 3 (Nat.min 2 3).
Proof.
  apply (merge_files_length
           ["AI U-Task U-Task U-Task" +:+ newline; newline;
            "is O-Task O-Task O-Task" +:+ newline]
           ["AI O-Process O-Process O-Process" +:+ newline; newline]
           ["AI O-Material O-Material O-Material" +:+ newline; newline;
            "is O-Material O-Material O-Material" +:+ newline]).
  reflexivity.
Defined.

(** ** [BertEmbedder.__init__] *)

(** X13.  The tables of [BertEmbedder.__init__] agree: for each of the
    eight allowed types the constructor reaches [from_pretrained], and
    [KeyError] is never raised.  A type whose name holds ["scibert"] has
    a folder in [scibert_foldername_mapping], and the weights and the
    vocabulary are taken from that folder of the cache directory; any
    other allowed type is handed on as it is.  A type that is not
    allowed fails the assertion. *)
Theorem bert_init_paths (MODELS_CACHE_DIR bert_type : string) :
  (In bert_type allowed_bert_types ->
   exists model vocab,
     bert_embedder_init MODELS_CACHE_DIR bert_type = Ok (model, vocab)
     /\ (str_contains "scibert" bert_type = false ->
         model = bert_type /\ vocab = bert_type)
     /\ (str_contains "scibert" bert_type = true ->
         exists foldername,
           scibert_foldername_mapping !! bert_type = Some foldername
           /\ model = path_join MODELS_CACHE_DIR
                        [foldername; "weights.tar.gz"]
           /\ vocab = path_join MODELS_CACHE_DIR [foldername; "vocab.txt"]))
  /\ (~ In bert_type allowed_bert_types ->
      bert_embedder_init MODELS_CACHE_DIR bert_type = Raise AssertionError).
Proof.
  split.
  - intros Hin. unfold allowed_bert_types in Hin. cbn [In] in Hin.
    destruct Hin as [<-|[<-|[<-|[<-|[<-|[<-|[<-|[<-|[]]]]]]]]];
      eexists _, _; (split; [reflexivity|]);
      (split;
       [ intros H; first [discriminate H | split; reflexivity]
       | intros H; first [discriminate H
                         | eexists; split; [reflexivity|];
                           split; reflexivity] ]).
  - intros Hnot. unfold bert_embedder_init.
    destruct (str_in bert_type allowed_bert_types) eqn:E; [|reflexivity].
    apply str_in_In in E. contradiction.
Qed.

(** ** How [write_bilou_lines] ends *)

Section WriteOutcome.

Variable nlp : string -> Doc.
Variable ignore_warning : bool.
Variable ann_file : string -> list string.
Variable txt_first_line : string -> string.

Lemma sentence_wise_state_returns (txt : string)
    (annotations : list Annotation) (entity_type : string) :
  nlp txt <> [] ->
  exists st, sentence_wise_state nlp txt annotations entity_type = Ok st.
Proof.
  intros Hdoc. unfold sentence_wise_state.
  pose proof (bilou_tags_length nlp txt annotations entity_type) as Hlen.
  destruct (nlp txt) as [|doc0 rest]; [congruence|].
  destruct (bilou_tags nlp txt annotations entity_type) as [|tag0 tags];
    [discriminate Hlen|].
  simpl in Hlen. cbn [tail].
  assert (Hsents : forall st0,
            length (sentences st0) = 0 ->
            length (sentences (foldl sentence_step st0 (zip tags rest))
                      ++ [current_sent
                            (foldl sentence_step st0 (zip tags rest))])
            = length (sents (doc0 :: rest))).
  { intros st0 H0.
    rewrite length_app, sentence_loop_sentences, zip_snd, H0 by lia.
    cbn [sents length]. rewrite sents_from_length. lia. }
  destruct (negb (is_space doc0)); cbn [bind]; cbv zeta; cbn [sentences];
    rewrite Hsents by reflexivity; rewrite Nat.eqb_refl; eauto.
Qed.

Lemma loader_outcome (file_id entity : string) :
  exists annotations log,
    _get_annotations_for_entity ignore_warning ann_file file_id entity
    = (if existsb has_bad_offsets (ann_file file_id)
       then Raise ValueError else Ok annotations, log).
Proof.
  unfold _get_annotations_for_entity. rewrite annotations_loop_general.
  destruct (existsb has_bad_offsets (ann_file file_id)).
  - eexists [], _. reflexivity.
  - cbn [app]. destruct (length _ =? 0); eexists _, _; reflexivity.
Qed.

Lemma bilou_groups_returns (is_sentence_wise : bool)
    (file_id entity_type : string) :
  file_loads nlp ann_file txt_first_line is_sentence_wise file_id ->
  exists groups log,
    bilou_groups nlp ignore_warning ann_file txt_first_line is_sentence_wise
      file_id entity_type = (Ok groups, log).
Proof.
  intros [Hgood Hdoc]. unfold bilou_groups.
  destruct (loader_outcome file_id entity_type) as (annotations & log & Hl).
  rewrite Hgood in Hl.
  destruct is_sentence_wise.
  - unfold get_sentence_wise_bilou_lines. rewrite Hl.
    destruct (sentence_wise_state_returns
                (get_text_from_fileid txt_first_line file_id)
                annotations entity_type (Hdoc eq_refl)) as [st ->].
    cbn [bind]. eauto.
  - unfold get_bilou_lines_for_entity. rewrite Hl. eauto.
Qed.

Lemma bilou_groups_raises (is_sentence_wise : bool)
    (file_id entity_type : string) :
  existsb has_bad_offsets (ann_file file_id) = true ->
  exists log,
    bilou_groups nlp ignore_warning ann_file txt_first_line is_sentence_wise
      file_id entity_type = (Raise ValueError, log).
Proof.
  intros Hbad. unfold bilou_groups.
  destruct (loader_outcome file_id entity_type) as (annotations & log & Hl).
  rewrite Hbad in Hl.
  destruct is_sentence_wise.
  - unfold get_sentence_wise_bilou_lines. rewrite Hl. eauto.
  - unfold get_bilou_lines_for_entity. rewrite Hl. eauto.
Qed.

Lemma write_file_ids_returns (is_sentence_wise : bool) (entity_type : string)
    (ids : list string) :
  Forall (file_loads nlp ann_file txt_first_line is_sentence_wise) ids ->
  forall content log,
  exists content' log',
    write_file_ids nlp ignore_warning ann_file txt_first_line
      is_sentence_wise entity_type ids content log = (Ok tt, content', log').
Proof.
  induction 1 as [|file_id ids Hid _ IH]; intros content log.
  - eexists _, _. reflexivity.
  - cbn [write_file_ids].
    destruct (bilou_groups_returns is_sentence_wise file_id entity_type Hid)
      as (groups & log1 & ->).
    apply IH.
Qed.

Lemma write_file_ids_raises (is_sentence_wise : bool) (entity_type : string)
    (good : list string) (file_id : string) (rest : list string) :
  Forall (file_loads nlp ann_file txt_first_line is_sentence_wise) good ->
  existsb has_bad_offsets (ann_file file_id) = true ->
  forall content log,
  exists groups log',
    Forall2 (fun file_id gs =>
               (bilou_groups nlp ignore_warning ann_file txt_first_line
                  is_sentence_wise file_id entity_type).1 = Ok gs)
      good groups
    /\ write_file_ids nlp ignore_warning ann_file txt_first_line
         is_sentence_wise entity_type (good ++ file_id :: rest) content log
       = (Raise ValueError, content +:+ chunks (concat groups), log').
Proof.
  intros Hgood Hbad.
  induction Hgood as [|f good Hf _ IH]; intros content log.
  - cbn [app write_file_ids].
    destruct (bilou_groups_raises is_sentence_wise file_id entity_type Hbad)
      as (log1 & ->).
    exists [], (log ++ log1). split; [constructor|].
    cbn. now rewrite append_nil_r.
  - cbn [app write_file_ids].
    destruct (bilou_groups_returns is_sentence_wise f entity_type Hf)
      as (gs & log1 & Hg). rewrite Hg.
    destruct (IH (write_lines content gs) (log ++ log1))
      as (groups & log' & Hall & ->).
    exists (gs :: groups), log'. split.
    + constructor; [now rewrite Hg | exact Hall].
    + cbn [concat]. now rewrite write_lines_chunks, chunks_app, append_assoc.
Qed.

End WriteOutcome.

(** X14.  When no annotation file of [self.file_ids] holds an entity
    line whose offsets are not integers (and, in sentence-wise mode,
    the text of every file has a token), [write_bilou_lines] ends
    without an exception and has written the three files, for Process,
    Material and Task in this order. *)
Theorem write_bilou_lines_returns (nlp : string -> Doc)
    (ignore_warning : bool) (ann_file : string -> list string)
    (txt_first_line : string -> string) (file_ids : list string)
    (filename_stem : string) (is_sentence_wise : bool) :
  Forall (file_loads nlp ann_file txt_first_line is_sentence_wise) file_ids ->
  exists process material task log,
    write_bilou_lines nlp ignore_warning ann_file txt_first_line file_ids
      filename_stem is_sentence_wise
    = (Ok tt,
       [(conll_filename filename_stem "Process", process);
        (conll_filename filename_stem "Material", material);
        (conll_filename filename_stem "Task", task)], log).
Proof.
  intros Hall. unfold write_bilou_lines, entity_types.
  cbn [write_entity_types].
  destruct (write_file_ids_returns nlp ignore_warning ann_file txt_first_line
              is_sentence_wise "Process" file_ids Hall EmptyString [])
    as (p & l1 & ->).
  destruct (write_file_ids_returns nlp ignore_warning ann_file txt_first_line
              is_sentence_wise "Material" file_ids Hall EmptyString [])
    as (m & l2 & ->).
  destruct (write_file_ids_returns nlp ignore_warning ann_file txt_first_line
              is_sentence_wise "Task" file_ids Hall EmptyString [])
    as (t & l3 & ->).
  cbn [app]. eexists _, _, _, _. reflexivity.
Qed.

Lemma write_bilou_lines_returns_witness :
  exists process material task log,
    write_bilou_lines nlp_ex true ann_all_ex txt_ex ["ai"; "ws"] "train" true
    = (Ok tt,
       [(conll_filename "train" "Process", process);
        (conll_filename "train" "Material", material);
        (conll_filename "train" "Task", task)], log).
Proof.
  apply (write_bilou_lines_returns nlp_ex true ann_all_ex txt_ex
           ["ai"; "ws"] "train" true).
  repeat constructor; discriminate.
Defined.

(** X15.  When the annotation file of some file id holds an entity line
    whose offsets are not integers, and the files before it load,
    [write_bilou_lines] raises [ValueError] while it writes the first
    file: the Process file is left with the lines of the file ids before
    that one, and the Material and the Task file are not opened. *)
Theorem write_bilou_lines_raises (nlp : string -> Doc)
    (ignore_warning : bool) (ann_file : string -> list string)
    (txt_first_line : string -> string) (good : list string)
    (file_id : string) (rest : list string)
    (filename_stem : string) (is_sentence_wise : bool) :
  Forall (file_loads nlp ann_file txt_first_line is_sentence_wise) good ->
  existsb has_bad_offsets (ann_file file_id) = true ->
  exists groups log,
    Forall2 (fun file_id gs =>
               (bilou_groups nlp ignore_warning ann_file txt_first_line
                  is_sentence_wise file_id "Process").1 = Ok gs)
      good groups
    /\ write_bilou_lines nlp ignore_warning ann_file txt_first_line
         (good ++ file_id :: rest) filename_stem is_sentence_wise
       = (Raise ValueError,
          [(conll_filename filename_stem "Process", chunks (concat groups))],
          log).
Proof.
  intros Hgood Hbad. unfold write_bilou_lines, entity_types.
  cbn [write_entity_types].
  destruct (write_file_ids_raises nlp ignore_warning ann_file txt_first_line
              is_sentence_wise "Process" good file_id rest Hgood Hbad
              EmptyString [])
    as (groups & log & Hall & ->).
  exists groups, log. split; [exact Hall|].
  cbn [app]. now rewrite append_nil_l.
Qed.

Lemma write_bilou_lines_raises_witness :
  exists groups log,
    Forall2 (fun file_id gs =>
               (bilou_groups nlp_ex false ann_ex txt_ex false file_id
                  "Process").1 = Ok gs)
      ["ai"] groups
    /\ write_bilou_lines nlp_ex false ann_ex txt_ex
         (["ai"] ++ "offsets" :: ["ws"]) "train" false
       = (Raise ValueError,
          [(conll_filename "train" "Process", chunks (concat groups))], log).
Proof.
  apply (write_bilou_lines_raises nlp_ex false ann_ex txt_ex ["ai"]
           "offsets" ["ws"] "train" false).
  - repeat constructor; discriminate.
  - reflexivity.
Defined.

(** ** The round trip through the emitted lines *)

Section TagScan.

Lemma tags_to_entities_outside (tags : list string) :
  Forall (fun tag => Py.startswith tag "O" = true) tags ->
  forall i start acc,
    Spacy.tags_to_entities_from tags i start acc = Ok acc.
Proof.
  induction 1 as [|tag tags Htag _ IH]; intros i start acc; [reflexivity|].
  cbn [Spacy.tags_to_entities_from]. rewrite Htag. apply IH.
Qed.

(** Outside tags at the end of the list change nothing. *)
Lemma tags_to_entities_suffix (tags outside : list string) :
  Forall (fun tag => Py.startswith tag "O" = true) outside ->
  forall i start acc,
    Spacy.tags_to_entities_from (tags ++ outside) i start acc
    = Spacy.tags_to_entities_from tags i start acc.
Proof.
  intros Ho. induction tags as [|tag tags IH]; intros i start acc.
  - cbn [app Spacy.tags_to_entities_from].
    now apply tags_to_entities_outside.
  - cbn [app Spacy.tags_to_entities_from].
    repeat match goal with
           | |- context [if ?b then _ else _] => destruct b
           | |- context [match ?s with Some _ => _ | None => _ end] =>
               destruct s
           end; try reflexivity; apply IH.
Qed.

Lemma filter_all {A : Type} (f : A -> bool) (l : list A) :
  Forall (fun x => f x = true) l -> List.filter f l = l.
Proof.
  induction 1 as [|x l Hx _ IH]; [reflexivity|].
  cbn [List.filter]. now rewrite Hx, IH.
Qed.

Lemma split_ws_from_sep (w rest : string) :
  w <> EmptyString -> Py.no_space w = true ->
  Py.split_ws_from (w +:+ " " +:+ rest) EmptyString
  = w :: Py.split_ws_from rest EmptyString.
Proof.
  intros Hne Hw. rewrite split_ws_from_word, append_nil_l by assumption.
  change (" " +:+ rest) with (String " " rest).
  cbn [Py.split_ws_from]. change (Py.isspace " ") with true. cbv iota.
  destruct w; [congruence | reflexivity].
Qed.

Lemma split_ws_from_end (w nl : string) :
  w <> EmptyString -> Py.no_space w = true ->
  nl = EmptyString \/ nl = newline ->
  Py.split_ws_from (w +:+ nl) EmptyString = [w].
Proof.
  intros Hne Hw Hnl. rewrite split_ws_from_word, append_nil_l by assumption.
  destruct Hnl as [-> | ->]; destruct w; try congruence; reflexivity.
Qed.

Lemma split_ws_bilou_line (token : Token) (tag nl : string) :
  text token <> EmptyString -> Py.no_space (text token) = true ->
  tag <> EmptyString -> Py.no_space tag = true ->
  nl = EmptyString \/ nl = newline ->
  Py.split_ws (bilou_line token tag +:+ nl) = [text token; tag; tag; tag].
Proof.
  intros Hw Hws Ht Hts Hnl. unfold Py.split_ws.
  rewrite bilou_line_unfold, !append_assoc.
  rewrite !split_ws_from_sep by assumption.
  now rewrite split_ws_from_end.
Qed.

(** Reading the lines back with [read_conll]: the three tag columns are
    the tags of the lines. *)
Lemma read_conll_lines (ps : list (Token * string)) :
  Forall (fun p => (text p.1 <> EmptyString /\ Py.no_space (text p.1) = true)
                   /\ tag_clean p.2) ps ->
  forall words task_tags process_tags material_tags,
    read_conll (with_terminators (map (fun p => bilou_line p.1 p.2) ps))
      words task_tags process_tags material_tags
    = Ok (words ++ map (fun p => text p.1) ps, task_tags ++ map snd ps,
          process_tags ++ map snd ps, material_tags ++ map snd ps).
Proof.
  induction 1 as [|p ps [[Hw Hws] [Ht Hts]] Hps IH];
    intros words task_tags process_tags material_tags.
  - cbn. now rewrite !app_nil_r.
  - destruct ps as [|p' ps].
    + cbn [map with_terminators read_conll].
      rewrite <- (append_nil_r (bilou_line p.1 p.2)).
      rewrite split_ws_bilou_line by (auto; now left).
      reflexivity.
    + change (with_terminators (map _ (p :: p' :: ps)))
        with ((bilou_line p.1 p.2 +:+ newline)
                :: with_terminators
                     (map (fun p => bilou_line p.1 p.2) (p' :: ps))).
      cbn [read_conll].
      rewrite split_ws_bilou_line by (auto; now right).
      cbn [unpack4]. rewrite IH.
      cbn [map]. now rewrite <- !app_assoc.
Qed.

Lemma tiles_app (body trailing : list Token) (k : nat)
    (entities : list Entity) :
  tiles body k entities -> tiles (body ++ trailing) k entities.
Proof.
  induction 1 as [k|k a b ta tb label rest Hka Hab Ha Hb _ IH];
    [constructor|].
  apply (tiles_cons _ k a b ta tb label rest); try assumption;
    now apply lookup_app_l_Some.
Qed.

Lemma tiles_ends (body : list Token) (k : nat) (entities : list Entity)
    (s e : Z) (label : string) :
  tiles body k entities -> In (s, e, label) entities ->
  exists b tb, body !! b = Some tb /\ e = token_end tb.
Proof.
  induction 1 as [k|k a b ta tb l rest Hka Hab Ha Hb _ IH];
    intros Hin; [destruct Hin|].
  destruct Hin as [[= <- <- <-]|Hin]; [eauto | now apply IH].
Qed.

End TagScan.

Section LinesRoundTrip.

Variable nlp : string -> Doc.
Variables (txt entity : string) (annotations : list Annotation).
Variables (sorted : list Entity) (body trailing : list Token).

Hypothesis Hdoc : nlp txt = body ++ trailing.
Hypothesis Hbody : Forall (fun token => is_space token = false) body.
Hypothesis Hwf : doc_wf (nlp txt).
Hypothesis Htok : Forall token_clean (nlp txt).
Hypothesis Htiles : tiles body 0 sorted.
Hypothesis Hperm : Permutation sorted (entities_of annotations).
Hypothesis Hentity : Py.no_space entity = true.
Hypothesis Htags : Forall (fun a => ann_tag a = entity) annotations.

Local Abbreviation tags := (bilou_tags nlp txt annotations entity).
Local Abbreviation pairs :=
  (List.filter (fun p : Token * string => negb (is_space p.1))
     (zip (nlp txt) tags)).

(** A token after the tokens of the spans gets the outside tag. *)
Lemma trailing_tag (j : nat) (t : Token) :
  nlp txt !! j = Some t -> length body <= j ->
  tags !! j = Some ("O-" +:+ entity).
Proof.
  intros Hj Hle. rewrite bilou_tags_lookup.
  rewrite (biluo_tags_outside (nlp txt) _ j t Hj).
  - change (outside_tag entity <$> Some "O")
      with (Some (outside_tag entity "O")).
    now rewrite outside_tag_O.
  - intros (c & s & e & label & Hin & Hc & Ht).
    apply (Permutation_in _ (Permutation_sym Hperm)) in Hin.
    destruct (tiles_ends _ _ _ _ _ _ Htiles Hin) as (b & tb & Hb & ->).
    pose proof (lookup_lt_Some _ _ _ Hb) as Hlt.
    assert (Hb' : nlp txt !! b = Some tb).
    { rewrite Hdoc. now apply lookup_app_l_Some. }
    pose proof (token_order (nlp txt) Hwf b j tb t Hb' Hj ltac:(lia)). lia.
Qed.

Lemma trailing_tags :
  Forall (fun tag => tag = "O-" +:+ entity) (drop (length body) tags).
Proof.
  apply Forall_lookup. intros i tag Hi. rewrite lookup_drop in Hi.
  pose proof (lookup_lt_Some _ _ _ Hi) as Hlt.
  rewrite bilou_tags_length in Hlt.
  destruct (lookup_lt_is_Some_2 (nlp txt) _ Hlt) as [t Ht].
  rewrite (trailing_tag _ t Ht) in Hi by lia. congruence.
Qed.

Lemma outside_starts (outside : list string) :
  Forall (fun tag => tag = "O-" +:+ entity) outside ->
  Forall (fun tag => Py.startswith tag "O" = true) outside.
Proof.
  intros H. eapply Forall_impl; [exact H|]. cbv beta. intros tag ->.
  reflexivity.
Qed.

(** The tags of the emitted lines: the tags of the tokens of the spans,
    then outside tags. *)
Lemma filtered_column :
  exists outside,
    map snd pairs = take (length body) tags ++ outside
    /\ Forall (fun tag => tag = "O-" +:+ entity) outside.
Proof.
  pose proof (bilou_tags_length nlp txt annotations entity) as Hlen.
  assert (Hk : length (take (length body) tags) = length body).
  { rewrite length_take, Hlen, Hdoc, length_app. lia. }
  assert (Hz : zip (nlp txt) tags
               = zip body (take (length body) tags)
                   ++ zip trailing (drop (length body) tags)).
  { transitivity (zip (body ++ trailing)
                    (take (length body) tags ++ drop (length body) tags)).
    - now rewrite take_drop, Hdoc.
    - apply zip_with_app. now rewrite Hk. }
  exists (map snd
            (List.filter (fun p : Token * string => negb (is_space p.1))
               (zip trailing (drop (length body) tags)))).
  split.
  - rewrite Hz, List.filter_app, map_app. f_equal.
    rewrite filter_all.
    + change (map snd ?l) with (l.*2). apply snd_zip. lia.
    + apply List.Forall_forall. intros [t tag] Hin. cbn [fst].
      apply In_zip in Hin as [Hin _].
      rewrite List.Forall_forall in Hbody. now rewrite (Hbody t Hin).
  - apply List.Forall_forall. intros tag Hin.
    apply in_map_iff in Hin as ([t tag'] & <- & Hin). cbn [snd].
    apply filter_In in Hin as [Hin _]. apply In_zip in Hin as [_ Hin].
    pose proof trailing_tags as Ht. rewrite List.Forall_forall in Ht.
    now apply Ht.
Qed.

(** Read by position, the tags of the lines give the spans back. *)
Lemma column_offsets :
  Spacy.offsets_from_biluo_tags (nlp txt) (map snd pairs) = Ok sorted.
Proof.
  destruct filtered_column as (outside & -> & Hout).
  rewrite <- (tags_round_trip nlp txt annotations entity sorted Hwf).
  - unfold Spacy.offsets_from_biluo_tags, Spacy.tags_to_entities.
    rewrite <- (take_drop (length body) tags) at 2.
    rewrite !tags_to_entities_suffix; [reflexivity | |];
      apply outside_starts; [apply trailing_tags | exact Hout].
  - rewrite Hdoc. now apply tiles_app.
  - exact Hperm.
Qed.

Lemma pairs_clean :
  Forall (fun p => (text p.1 <> EmptyString /\ Py.no_space (text p.1) = true)
                   /\ tag_clean p.2) pairs.
Proof.
  apply List.Forall_forall. intros [t tag] Hin. cbn [fst snd].
  apply filter_In in Hin as [Hin Hsp]. cbn [fst] in Hsp.
  apply negb_true_iff in Hsp. apply In_zip in Hin as [Ht Htag].
  rewrite List.Forall_forall in Htok. split; [exact (Htok t Ht Hsp)|].
  apply (bilou_tag_clean nlp txt annotations entity tag Hentity);
    [|exact Htag].
  eapply Forall_impl; [exact Htags|]. cbv beta. intros a ->. exact Hentity.
Qed.

Lemma lines_one_line :
  Forall (fun l => one_line l = true)
    (_get_bilou_lines_for_entity nlp txt annotations entity).
Proof.
  rewrite get_bilou_lines_eq. apply List.Forall_forall. intros l Hin.
  apply in_map_iff in Hin as (p & <- & Hin).
  pose proof pairs_clean as Hc. rewrite List.Forall_forall in Hc.
  destruct (Hc p Hin) as [[Hw Hws] [_ Hts]].
  now apply bilou_line_one_line.
Qed.

(** The file of the emitted lines, as [write_ann_file_from_conll_file]
    reads it. *)
Lemma read_emitted_lines :
  exists words,
    read_conll
      (file_lines
         (Py.join newline
            (_get_bilou_lines_for_entity nlp txt annotations entity)))
      [] [] [] []
    = Ok (words, map snd pairs, map snd pairs, map snd pairs).
Proof.
  rewrite (file_lines_join _ lines_one_line), get_bilou_lines_eq.
  rewrite (read_conll_lines _ pairs_clean). eauto.
Qed.

Lemma sorted_labels : map (retag entity) sorted = sorted.
Proof.
  rewrite <- (map_id sorted) at 2. apply map_ext_in.
  intros [[s e] label] Hin.
  apply (Permutation_in _ Hperm) in Hin. unfold entities_of in Hin.
  apply in_map_iff in Hin as (a & [= <- <- <-] & Ha).
  rewrite List.Forall_forall in Htags. unfold retag. cbn [fst snd].
  now rewrite (Htags a Ha).
Qed.

End LinesRoundTrip.

Lemma doc_two_wf : doc_wf doc_two.
Proof.
  split.
  - repeat (apply List.Forall_cons; [discriminate|]). apply List.Forall_nil.
  - intros i j ti tj Hi Hj Hlt. unfold doc_two in *.
    destruct i as [|[|[|[|i]]]]; simpl in Hi; try discriminate Hi;
      injection Hi as <-;
      destruct j as [|[|[|[|j]]]]; simpl in Hj; try discriminate Hj;
      try lia; injection Hj as <-; vm_compute; discriminate.
Qed.



